(** * hms-esp-apc: the APC HID report decoder and the USB transfer coordinator

    A shallow embedding of [apc_hid_parser.c] (module [Parser]) and of the two
    transfer routines of [main/usb_host_manager.c] (module [UsbHost]),
    followed by the properties of the acquisition and decoding engine. *)

From Stdlib Require Import ZArith List String Ascii QArith Lia Bool DecimalString.
From Stdlib Require Import Strings.Byte.
Import ListNotations.

Local Open Scope Z_scope.

(** ** C scalar types *)

(** [uint8_t] values are [byte]s; arithmetic on them happens after the
    integer promotion to [int]. *)
Definition u8 (b : byte) : Z := Z.of_N (Byte.to_N b).

(** Conversions to the fixed-width integer types of the source. *)
Definition to_uint16 (z : Z) : Z := z mod 2 ^ 16.
Definition to_int16 (z : Z) : Z := (z + 2 ^ 15) mod 2 ^ 16 - 2 ^ 15.
Definition to_uint32 (z : Z) : Z := z mod 2 ^ 32.

(** [size_t] is 32 bits wide on the ESP32-S3. *)
Definition to_size_t (z : Z) : Z := z mod 2 ^ 32.

(** [float] fields.  Every value the decoder stores is [(float)n] for an
    integer [n] of at most 16 bits, which binary32 represents exactly, or
    such a value divided by [100.0f] or [10.0f].  A field holds the rational
    value of the expression; the rounding of the two quotients to binary32
    is not represented. *)
Definition float : Type := Q.
Definition float_of_int (z : Z) : float := inject_Z z.
Definition float_div (a b : float) : float := (a / b)%Q.

(** ** C strings

    A [char] array is represented by the string it holds up to its
    terminating NUL.  The arrays of the snapshot are zero-filled by
    [apc_hid_parser_init] and no routine writes the last byte of an array
    with anything but NUL, so a copy of at most [size - 1] characters is
    always terminated. *)
Definition strlen (s : string) : Z := Z.of_nat (String.length s).

(** [strncpy (dst, src, n)] followed by the NUL that ends [dst]. *)
Definition strncpy (src : string) (n : Z) : string := substring 0 (Z.to_nat n) src.

(** [strncat (dst, src, n)]: at most [n] characters of [src] are appended. *)
Definition strncat (dst src : string) (n : Z) : string :=
  (dst ++ substring 0 (Z.to_nat n) src)%string.

(** [snprintf (dst, size, ...)] keeps at most [size - 1] characters of the
    formatted text. *)
Definition snprintf (size : Z) (formatted : string) : string :=
  substring 0 (Z.to_nat (size - 1)) formatted.

(** ["%d"] of a non-negative [int]. *)
Definition fmt_d (z : Z) : string := NilEmpty.string_of_uint (N.to_uint (Z.to_N z)).

Fixpoint zeros (n : nat) : string :=
  match n with
  | O => EmptyString
  | S k => String "0"%char (zeros k)
  end.

(** ["%0wd"] of a non-negative [int]: zero padding up to width [w]. *)
Definition fmt_0d (w : nat) (z : Z) : string :=
  let s := fmt_d z in (zeros (w - String.length s) ++ s)%string.

(** Is [p] a prefix of [s]; does [p] occur in [s]. *)
Fixpoint starts_with (p s : string) : bool :=
  match p, s with
  | EmptyString, _ => true
  | String a p', String b s' => Ascii.eqb a b && starts_with p' s'
  | String _ _, EmptyString => false
  end.

Fixpoint contains (p s : string) : bool :=
  starts_with p s ||
  match s with
  | EmptyString => false
  | String _ s' => contains p s'
  end.

(** The space-separated tokens of a string. *)
Fixpoint tokens_aux (cur : string) (s : string) : list string :=
  match s with
  | EmptyString => [cur]
  | String c s' =>
      if Ascii.eqb c " "%char then cur :: tokens_aux EmptyString s'
      else tokens_aux (cur ++ String c EmptyString)%string s'
  end.

Definition tokens (s : string) : list string := tokens_aux EmptyString s.

Definition has_token (t s : string) : bool :=
  existsb (String.eqb t) (tokens s).

(** ** The report decoder ([apc_hid_parser.c]) *)

Module Parser.

(** [ups_status_t] *)
Record ups_status_t : Type := {
  online : bool;
  discharging : bool;
  charging : bool;
  low_battery : bool;
  overload : bool;
  replace_battery : bool;
  boost : bool;
  trim : bool
}.

(** [ups_metrics_t]; a [char] array of [N] bytes is a string of at most
    [N - 1] characters. *)
Record ups_metrics_t : Type := {
  battery_charge : float;
  battery_voltage : float;
  battery_runtime : float;
  battery_nominal_voltage : float;
  battery_warning_threshold : float;
  battery_type : string;
  battery_mfr_date : string;
  input_voltage : float;
  input_voltage_nominal : float;
  input_frequency : float;
  output_voltage : float;
  load_percent : float;
  nominal_power : float;
  high_voltage_transfer : float;
  low_voltage_transfer : float;
  input_sensitivity : string;
  last_transfer_reason : string;
  low_battery_charge_threshold : float;
  low_battery_runtime_threshold : float;
  shutdown_delay : float;
  shutdown_timer : float;
  reboot_timer : float;
  delay_before_reboot : float;
  delay_before_shutdown : float;
  firmware_version : string;
  driver_name : string;
  driver_state : string;
  driver_version : string;
  beeper_status : string;
  self_test_result : string;
  power_failure_status : string;
  status : ups_status_t;
  status_string : string;
  last_update_ms : Z;
  valid : bool
}.

Definition set_battery_charge (v : float) (m : ups_metrics_t) : ups_metrics_t :=
  {| battery_charge := v; battery_voltage := battery_voltage m;
     battery_runtime := battery_runtime m; battery_nominal_voltage := battery_nominal_voltage m;
     battery_warning_threshold := battery_warning_threshold m; battery_type := battery_type m;
     battery_mfr_date := battery_mfr_date m; input_voltage := input_voltage m;
     input_voltage_nominal := input_voltage_nominal m; input_frequency := input_frequency m;
     output_voltage := output_voltage m; load_percent := load_percent m;
     nominal_power := nominal_power m; high_voltage_transfer := high_voltage_transfer m;
     low_voltage_transfer := low_voltage_transfer m; input_sensitivity := input_sensitivity m;
     last_transfer_reason := last_transfer_reason m;
     low_battery_charge_threshold := low_battery_charge_threshold m;
     low_battery_runtime_threshold := low_battery_runtime_threshold m;
     shutdown_delay := shutdown_delay m; shutdown_timer := shutdown_timer m;
     reboot_timer := reboot_timer m; delay_before_reboot := delay_before_reboot m;
     delay_before_shutdown := delay_before_shutdown m; firmware_version := firmware_version m;
     driver_name := driver_name m; driver_state := driver_state m;
     driver_version := driver_version m; beeper_status := beeper_status m;
     self_test_result := self_test_result m; power_failure_status := power_failure_status m;
     status := status m; status_string := status_string m; last_update_ms := last_update_ms m;
     valid := valid m |}.

Definition set_battery_voltage (v : float) (m : ups_metrics_t) : ups_metrics_t :=
  {| battery_charge := battery_charge m; battery_voltage := v;
     battery_runtime := battery_runtime m; battery_nominal_voltage := battery_nominal_voltage m;
     battery_warning_threshold := battery_warning_threshold m; battery_type := battery_type m;
     battery_mfr_date := battery_mfr_date m; input_voltage := input_voltage m;
     input_voltage_nominal := input_voltage_nominal m; input_frequency := input_frequency m;
     output_voltage := output_voltage m; load_percent := load_percent m;
     nominal_power := nominal_power m; high_voltage_transfer := high_voltage_transfer m;
     low_voltage_transfer := low_voltage_transfer m; input_sensitivity := input_sensitivity m;
     last_transfer_reason := last_transfer_reason m;
     low_battery_charge_threshold := low_battery_charge_threshold m;
     low_battery_runtime_threshold := low_battery_runtime_threshold m;
     shutdown_delay := shutdown_delay m; shutdown_timer := shutdown_timer m;
     reboot_timer := reboot_timer m; delay_before_reboot := delay_before_reboot m;
     delay_before_shutdown := delay_before_shutdown m; firmware_version := firmware_version m;
     driver_name := driver_name m; driver_state := driver_state m;
     driver_version := driver_version m; beeper_status := beeper_status m;
     self_test_result := self_test_result m; power_failure_status := power_failure_status m;
     status := status m; status_string := status_string m; last_update_ms := last_update_ms m;
     valid := valid m |}.

Definition set_battery_runtime (v : float) (m : ups_metrics_t) : ups_metrics_t :=
  {| battery_charge := battery_charge m; battery_voltage := battery_voltage m;
     battery_runtime := v; battery_nominal_voltage := battery_nominal_voltage m;
     battery_warning_threshold := battery_warning_threshold m; battery_type := battery_type m;
     battery_mfr_date := battery_mfr_date m; input_voltage := input_voltage m;
     input_voltage_nominal := input_voltage_nominal m; input_frequency := input_frequency m;
     output_voltage := output_voltage m; load_percent := load_percent m;
     nominal_power := nominal_power m; high_voltage_transfer := high_voltage_transfer m;
     low_voltage_transfer := low_voltage_transfer m; input_sensitivity := input_sensitivity m;
     last_transfer_reason := last_transfer_reason m;
     low_battery_charge_threshold := low_battery_charge_threshold m;
     low_battery_runtime_threshold := low_battery_runtime_threshold m;
     shutdown_delay := shutdown_delay m; shutdown_timer := shutdown_timer m;
     reboot_timer := reboot_timer m; delay_before_reboot := delay_before_reboot m;
     delay_before_shutdown := delay_before_shutdown m; firmware_version := firmware_version m;
     driver_name := driver_name m; driver_state := driver_state m;
     driver_version := driver_version m; beeper_status := beeper_status m;
     self_test_result := self_test_result m; power_failure_status := power_failure_status m;
     status := status m; status_string := status_string m; last_update_ms := last_update_ms m;
     valid := valid m |}.

Definition set_battery_nominal_voltage (v : float) (m : ups_metrics_t) : ups_metrics_t :=
  {| battery_charge := battery_charge m; battery_voltage := battery_voltage m;
     battery_runtime := battery_runtime m; battery_nominal_voltage := v;
     battery_warning_threshold := battery_warning_threshold m; battery_type := battery_type m;
     battery_mfr_date := battery_mfr_date m; input_voltage := input_voltage m;
     input_voltage_nominal := input_voltage_nominal m; input_frequency := input_frequency m;
     output_voltage := output_voltage m; load_percent := load_percent m;
     nominal_power := nominal_power m; high_voltage_transfer := high_voltage_transfer m;
     low_voltage_transfer := low_voltage_transfer m; input_sensitivity := input_sensitivity m;
     last_transfer_reason := last_transfer_reason m;
     low_battery_charge_threshold := low_battery_charge_threshold m;
     low_battery_runtime_threshold := low_battery_runtime_threshold m;
     shutdown_delay := shutdown_delay m; shutdown_timer := shutdown_timer m;
     reboot_timer := reboot_timer m; delay_before_reboot := delay_before_reboot m;
     delay_before_shutdown := delay_before_shutdown m; firmware_version := firmware_version m;
     driver_name := driver_name m; driver_state := driver_state m;
     driver_version := driver_version m; beeper_status := beeper_status m;
     self_test_result := self_test_result m; power_failure_status := power_failure_status m;
     status := status m; status_string := status_string m; last_update_ms := last_update_ms m;
     valid := valid m |}.

Definition set_battery_warning_threshold (v : float) (m : ups_metrics_t) : ups_metrics_t :=
  {| battery_charge := battery_charge m; battery_voltage := battery_voltage m;
     battery_runtime := battery_runtime m; battery_nominal_voltage := battery_nominal_voltage m;
     battery_warning_threshold := v; battery_type := battery_type m;
     battery_mfr_date := battery_mfr_date m; input_voltage := input_voltage m;
     input_voltage_nominal := input_voltage_nominal m; input_frequency := input_frequency m;
     output_voltage := output_voltage m; load_percent := load_percent m;
     nominal_power := nominal_power m; high_voltage_transfer := high_voltage_transfer m;
     low_voltage_transfer := low_voltage_transfer m; input_sensitivity := input_sensitivity m;
     last_transfer_reason := last_transfer_reason m;
     low_battery_charge_threshold := low_battery_charge_threshold m;
     low_battery_runtime_threshold := low_battery_runtime_threshold m;
     shutdown_delay := shutdown_delay m; shutdown_timer := shutdown_timer m;
     reboot_timer := reboot_timer m; delay_before_reboot := delay_before_reboot m;
     delay_before_shutdown := delay_before_shutdown m; firmware_version := firmware_version m;
     driver_name := driver_name m; driver_state := driver_state m;
     driver_version := driver_version m; beeper_status := beeper_status m;
     self_test_result := self_test_result m; power_failure_status := power_failure_status m;
     status := status m; status_string := status_string m; last_update_ms := last_update_ms m;
     valid := valid m |}.

Definition set_battery_type (v : string) (m : ups_metrics_t) : ups_metrics_t :=
  {| battery_charge := battery_charge m; battery_voltage := battery_voltage m;
     battery_runtime := battery_runtime m; battery_nominal_voltage := battery_nominal_voltage m;
     battery_warning_threshold := battery_warning_threshold m; battery_type := v;
     battery_mfr_date := battery_mfr_date m; input_voltage := input_voltage m;
     input_voltage_nominal := input_voltage_nominal m; input_frequency := input_frequency m;
     output_voltage := output_voltage m; load_percent := load_percent m;
     nominal_power := nominal_power m; high_voltage_transfer := high_voltage_transfer m;
     low_voltage_transfer := low_voltage_transfer m; input_sensitivity := input_sensitivity m;
     last_transfer_reason := last_transfer_reason m;
     low_battery_charge_threshold := low_battery_charge_threshold m;
     low_battery_runtime_threshold := low_battery_runtime_threshold m;
     shutdown_delay := shutdown_delay m; shutdown_timer := shutdown_timer m;
     reboot_timer := reboot_timer m; delay_before_reboot := delay_before_reboot m;
     delay_before_shutdown := delay_before_shutdown m; firmware_version := firmware_version m;
     driver_name := driver_name m; driver_state := driver_state m;
     driver_version := driver_version m; beeper_status := beeper_status m;
     self_test_result := self_test_result m; power_failure_status := power_failure_status m;
     status := status m; status_string := status_string m; last_update_ms := last_update_ms m;
     valid := valid m |}.

Definition set_battery_mfr_date (v : string) (m : ups_metrics_t) : ups_metrics_t :=
  {| battery_charge := battery_charge m; battery_voltage := battery_voltage m;
     battery_runtime := battery_runtime m; battery_nominal_voltage := battery_nominal_voltage m;
     battery_warning_threshold := battery_warning_threshold m; battery_type := battery_type m;
     battery_mfr_date := v; input_voltage := input_voltage m;
     input_voltage_nominal := input_voltage_nominal m; input_frequency := input_frequency m;
     output_voltage := output_voltage m; load_percent := load_percent m;
     nominal_power := nominal_power m; high_voltage_transfer := high_voltage_transfer m;
     low_voltage_transfer := low_voltage_transfer m; input_sensitivity := input_sensitivity m;
     last_transfer_reason := last_transfer_reason m;
     low_battery_charge_threshold := low_battery_charge_threshold m;
     low_battery_runtime_threshold := low_battery_runtime_threshold m;
     shutdown_delay := shutdown_delay m; shutdown_timer := shutdown_timer m;
     reboot_timer := reboot_timer m; delay_before_reboot := delay_before_reboot m;
     delay_before_shutdown := delay_before_shutdown m; firmware_version := firmware_version m;
     driver_name := driver_name m; driver_state := driver_state m;
     driver_version := driver_version m; beeper_status := beeper_status m;
     self_test_result := self_test_result m; power_failure_status := power_failure_status m;
     status := status m; status_string := status_string m; last_update_ms := last_update_ms m;
     valid := valid m |}.

Definition set_input_voltage (v : float) (m : ups_metrics_t) : ups_metrics_t :=
  {| battery_charge := battery_charge m; battery_voltage := battery_voltage m;
     battery_runtime := battery_runtime m; battery_nominal_voltage := battery_nominal_voltage m;
     battery_warning_threshold := battery_warning_threshold m; battery_type := battery_type m;
     battery_mfr_date := battery_mfr_date m; input_voltage := v;
     input_voltage_nominal := input_voltage_nominal m; input_frequency := input_frequency m;
     output_voltage := output_voltage m; load_percent := load_percent m;
     nominal_power := nominal_power m; high_voltage_transfer := high_voltage_transfer m;
     low_voltage_transfer := low_voltage_transfer m; input_sensitivity := input_sensitivity m;
     last_transfer_reason := last_transfer_reason m;
     low_battery_charge_threshold := low_battery_charge_threshold m;
     low_battery_runtime_threshold := low_battery_runtime_threshold m;
     shutdown_delay := shutdown_delay m; shutdown_timer := shutdown_timer m;
     reboot_timer := reboot_timer m; delay_before_reboot := delay_before_reboot m;
     delay_before_shutdown := delay_before_shutdown m; firmware_version := firmware_version m;
     driver_name := driver_name m; driver_state := driver_state m;
     driver_version := driver_version m; beeper_status := beeper_status m;
     self_test_result := self_test_result m; power_failure_status := power_failure_status m;
     status := status m; status_string := status_string m; last_update_ms := last_update_ms m;
     valid := valid m |}.

Definition set_input_voltage_nominal (v : float) (m : ups_metrics_t) : ups_metrics_t :=
  {| battery_charge := battery_charge m; battery_voltage := battery_voltage m;
     battery_runtime := battery_runtime m; battery_nominal_voltage := battery_nominal_voltage m;
     battery_warning_threshold := battery_warning_threshold m; battery_type := battery_type m;
     battery_mfr_date := battery_mfr_date m; input_voltage := input_voltage m;
     input_voltage_nominal := v; input_frequency := input_frequency m;
     output_voltage := output_voltage m; load_percent := load_percent m;
     nominal_power := nominal_power m; high_voltage_transfer := high_voltage_transfer m;
     low_voltage_transfer := low_voltage_transfer m; input_sensitivity := input_sensitivity m;
     last_transfer_reason := last_transfer_reason m;
     low_battery_charge_threshold := low_battery_charge_threshold m;
     low_battery_runtime_threshold := low_battery_runtime_threshold m;
     shutdown_delay := shutdown_delay m; shutdown_timer := shutdown_timer m;
     reboot_timer := reboot_timer m; delay_before_reboot := delay_before_reboot m;
     delay_before_shutdown := delay_before_shutdown m; firmware_version := firmware_version m;
     driver_name := driver_name m; driver_state := driver_state m;
     driver_version := driver_version m; beeper_status := beeper_status m;
     self_test_result := self_test_result m; power_failure_status := power_failure_status m;
     status := status m; status_string := status_string m; last_update_ms := last_update_ms m;
     valid := valid m |}.

Definition set_input_frequency (v : float) (m : ups_metrics_t) : ups_metrics_t :=
  {| battery_charge := battery_charge m; battery_voltage := battery_voltage m;
     battery_runtime := battery_runtime m; battery_nominal_voltage := battery_nominal_voltage m;
     battery_warning_threshold := battery_warning_threshold m; battery_type := battery_type m;
     battery_mfr_date := battery_mfr_date m; input_voltage := input_voltage m;
     input_voltage_nominal := input_voltage_nominal m; input_frequency := v;
     output_voltage := output_voltage m; load_percent := load_percent m;
     nominal_power := nominal_power m; high_voltage_transfer := high_voltage_transfer m;
     low_voltage_transfer := low_voltage_transfer m; input_sensitivity := input_sensitivity m;
     last_transfer_reason := last_transfer_reason m;
     low_battery_charge_threshold := low_battery_charge_threshold m;
     low_battery_runtime_threshold := low_battery_runtime_threshold m;
     shutdown_delay := shutdown_delay m; shutdown_timer := shutdown_timer m;
     reboot_timer := reboot_timer m; delay_before_reboot := delay_before_reboot m;
     delay_before_shutdown := delay_before_shutdown m; firmware_version := firmware_version m;
     driver_name := driver_name m; driver_state := driver_state m;
     driver_version := driver_version m; beeper_status := beeper_status m;
     self_test_result := self_test_result m; power_failure_status := power_failure_status m;
     status := status m; status_string := status_string m; last_update_ms := last_update_ms m;
     valid := valid m |}.

Definition set_load_percent (v : float) (m : ups_metrics_t) : ups_metrics_t :=
  {| battery_charge := battery_charge m; battery_voltage := battery_voltage m;
     battery_runtime := battery_runtime m; battery_nominal_voltage := battery_nominal_voltage m;
     battery_warning_threshold := battery_warning_threshold m; battery_type := battery_type m;
     battery_mfr_date := battery_mfr_date m; input_voltage := input_voltage m;
     input_voltage_nominal := input_voltage_nominal m; input_frequency := input_frequency m;
     output_voltage := output_voltage m; load_percent := v; nominal_power := nominal_power m;
     high_voltage_transfer := high_voltage_transfer m;
     low_voltage_transfer := low_voltage_transfer m; input_sensitivity := input_sensitivity m;
     last_transfer_reason := last_transfer_reason m;
     low_battery_charge_threshold := low_battery_charge_threshold m;
     low_battery_runtime_threshold := low_battery_runtime_threshold m;
     shutdown_delay := shutdown_delay m; shutdown_timer := shutdown_timer m;
     reboot_timer := reboot_timer m; delay_before_reboot := delay_before_reboot m;
     delay_before_shutdown := delay_before_shutdown m; firmware_version := firmware_version m;
     driver_name := driver_name m; driver_state := driver_state m;
     driver_version := driver_version m; beeper_status := beeper_status m;
     self_test_result := self_test_result m; power_failure_status := power_failure_status m;
     status := status m; status_string := status_string m; last_update_ms := last_update_ms m;
     valid := valid m |}.

Definition set_nominal_power (v : float) (m : ups_metrics_t) : ups_metrics_t :=
  {| battery_charge := battery_charge m; battery_voltage := battery_voltage m;
     battery_runtime := battery_runtime m; battery_nominal_voltage := battery_nominal_voltage m;
     battery_warning_threshold := battery_warning_threshold m; battery_type := battery_type m;
     battery_mfr_date := battery_mfr_date m; input_voltage := input_voltage m;
     input_voltage_nominal := input_voltage_nominal m; input_frequency := input_frequency m;
     output_voltage := output_voltage m; load_percent := load_percent m; nominal_power := v;
     high_voltage_transfer := high_voltage_transfer m;
     low_voltage_transfer := low_voltage_transfer m; input_sensitivity := input_sensitivity m;
     last_transfer_reason := last_transfer_reason m;
     low_battery_charge_threshold := low_battery_charge_threshold m;
     low_battery_runtime_threshold := low_battery_runtime_threshold m;
     shutdown_delay := shutdown_delay m; shutdown_timer := shutdown_timer m;
     reboot_timer := reboot_timer m; delay_before_reboot := delay_before_reboot m;
     delay_before_shutdown := delay_before_shutdown m; firmware_version := firmware_version m;
     driver_name := driver_name m; driver_state := driver_state m;
     driver_version := driver_version m; beeper_status := beeper_status m;
     self_test_result := self_test_result m; power_failure_status := power_failure_status m;
     status := status m; status_string := status_string m; last_update_ms := last_update_ms m;
     valid := valid m |}.

Definition set_high_voltage_transfer (v : float) (m : ups_metrics_t) : ups_metrics_t :=
  {| battery_charge := battery_charge m; battery_voltage := battery_voltage m;
     battery_runtime := battery_runtime m; battery_nominal_voltage := battery_nominal_voltage m;
     battery_warning_threshold := battery_warning_threshold m; battery_type := battery_type m;
     battery_mfr_date := battery_mfr_date m; input_voltage := input_voltage m;
     input_voltage_nominal := input_voltage_nominal m; input_frequency := input_frequency m;
     output_voltage := output_voltage m; load_percent := load_percent m;
     nominal_power := nominal_power m; high_voltage_transfer := v;
     low_voltage_transfer := low_voltage_transfer m; input_sensitivity := input_sensitivity m;
     last_transfer_reason := last_transfer_reason m;
     low_battery_charge_threshold := low_battery_charge_threshold m;
     low_battery_runtime_threshold := low_battery_runtime_threshold m;
     shutdown_delay := shutdown_delay m; shutdown_timer := shutdown_timer m;
     reboot_timer := reboot_timer m; delay_before_reboot := delay_before_reboot m;
     delay_before_shutdown := delay_before_shutdown m; firmware_version := firmware_version m;
     driver_name := driver_name m; driver_state := driver_state m;
     driver_version := driver_version m; beeper_status := beeper_status m;
     self_test_result := self_test_result m; power_failure_status := power_failure_status m;
     status := status m; status_string := status_string m; last_update_ms := last_update_ms m;
     valid := valid m |}.

Definition set_low_voltage_transfer (v : float) (m : ups_metrics_t) : ups_metrics_t :=
  {| battery_charge := battery_charge m; battery_voltage := battery_voltage m;
     battery_runtime := battery_runtime m; battery_nominal_voltage := battery_nominal_voltage m;
     battery_warning_threshold := battery_warning_threshold m; battery_type := battery_type m;
     battery_mfr_date := battery_mfr_date m; input_voltage := input_voltage m;
     input_voltage_nominal := input_voltage_nominal m; input_frequency := input_frequency m;
     output_voltage := output_voltage m; load_percent := load_percent m;
     nominal_power := nominal_power m; high_voltage_transfer := high_voltage_transfer m;
     low_voltage_transfer := v; input_sensitivity := input_sensitivity m;
     last_transfer_reason := last_transfer_reason m;
     low_battery_charge_threshold := low_battery_charge_threshold m;
     low_battery_runtime_threshold := low_battery_runtime_threshold m;
     shutdown_delay := shutdown_delay m; shutdown_timer := shutdown_timer m;
     reboot_timer := reboot_timer m; delay_before_reboot := delay_before_reboot m;
     delay_before_shutdown := delay_before_shutdown m; firmware_version := firmware_version m;
     driver_name := driver_name m; driver_state := driver_state m;
     driver_version := driver_version m; beeper_status := beeper_status m;
     self_test_result := self_test_result m; power_failure_status := power_failure_status m;
     status := status m; status_string := status_string m; last_update_ms := last_update_ms m;
     valid := valid m |}.

Definition set_input_sensitivity (v : string) (m : ups_metrics_t) : ups_metrics_t :=
  {| battery_charge := battery_charge m; battery_voltage := battery_voltage m;
     battery_runtime := battery_runtime m; battery_nominal_voltage := battery_nominal_voltage m;
     battery_warning_threshold := battery_warning_threshold m; battery_type := battery_type m;
     battery_mfr_date := battery_mfr_date m; input_voltage := input_voltage m;
     input_voltage_nominal := input_voltage_nominal m; input_frequency := input_frequency m;
     output_voltage := output_voltage m; load_percent := load_percent m;
     nominal_power := nominal_power m; high_voltage_transfer := high_voltage_transfer m;
     low_voltage_transfer := low_voltage_transfer m; input_sensitivity := v;
     last_transfer_reason := last_transfer_reason m;
     low_battery_charge_threshold := low_battery_charge_threshold m;
     low_battery_runtime_threshold := low_battery_runtime_threshold m;
     shutdown_delay := shutdown_delay m; shutdown_timer := shutdown_timer m;
     reboot_timer := reboot_timer m; delay_before_reboot := delay_before_reboot m;
     delay_before_shutdown := delay_before_shutdown m; firmware_version := firmware_version m;
     driver_name := driver_name m; driver_state := driver_state m;
     driver_version := driver_version m; beeper_status := beeper_status m;
     self_test_result := self_test_result m; power_failure_status := power_failure_status m;
     status := status m; status_string := status_string m; last_update_ms := last_update_ms m;
     valid := valid m |}.

Definition set_last_transfer_reason (v : string) (m : ups_metrics_t) : ups_metrics_t :=
  {| battery_charge := battery_charge m; battery_voltage := battery_voltage m;
     battery_runtime := battery_runtime m; battery_nominal_voltage := battery_nominal_voltage m;
     battery_warning_threshold := battery_warning_threshold m; battery_type := battery_type m;
     battery_mfr_date := battery_mfr_date m; input_voltage := input_voltage m;
     input_voltage_nominal := input_voltage_nominal m; input_frequency := input_frequency m;
     output_voltage := output_voltage m; load_percent := load_percent m;
     nominal_power := nominal_power m; high_voltage_transfer := high_voltage_transfer m;
     low_voltage_transfer := low_voltage_transfer m; input_sensitivity := input_sensitivity m;
     last_transfer_reason := v; low_battery_charge_threshold := low_battery_charge_threshold m;
     low_battery_runtime_threshold := low_battery_runtime_threshold m;
     shutdown_delay := shutdown_delay m; shutdown_timer := shutdown_timer m;
     reboot_timer := reboot_timer m; delay_before_reboot := delay_before_reboot m;
     delay_before_shutdown := delay_before_shutdown m; firmware_version := firmware_version m;
     driver_name := driver_name m; driver_state := driver_state m;
     driver_version := driver_version m; beeper_status := beeper_status m;
     self_test_result := self_test_result m; power_failure_status := power_failure_status m;
     status := status m; status_string := status_string m; last_update_ms := last_update_ms m;
     valid := valid m |}.

Definition set_low_battery_charge_threshold (v : float) (m : ups_metrics_t) : ups_metrics_t :=
  {| battery_charge := battery_charge m; battery_voltage := battery_voltage m;
     battery_runtime := battery_runtime m; battery_nominal_voltage := battery_nominal_voltage m;
     battery_warning_threshold := battery_warning_threshold m; battery_type := battery_type m;
     battery_mfr_date := battery_mfr_date m; input_voltage := input_voltage m;
     input_voltage_nominal := input_voltage_nominal m; input_frequency := input_frequency m;
     output_voltage := output_voltage m; load_percent := load_percent m;
     nominal_power := nominal_power m; high_voltage_transfer := high_voltage_transfer m;
     low_voltage_transfer := low_voltage_transfer m; input_sensitivity := input_sensitivity m;
     last_transfer_reason := last_transfer_reason m; low_battery_charge_threshold := v;
     low_battery_runtime_threshold := low_battery_runtime_threshold m;
     shutdown_delay := shutdown_delay m; shutdown_timer := shutdown_timer m;
     reboot_timer := reboot_timer m; delay_before_reboot := delay_before_reboot m;
     delay_before_shutdown := delay_before_shutdown m; firmware_version := firmware_version m;
     driver_name := driver_name m; driver_state := driver_state m;
     driver_version := driver_version m; beeper_status := beeper_status m;
     self_test_result := self_test_result m; power_failure_status := power_failure_status m;
     status := status m; status_string := status_string m; last_update_ms := last_update_ms m;
     valid := valid m |}.

Definition set_low_battery_runtime_threshold (v : float) (m : ups_metrics_t) : ups_metrics_t :=
  {| battery_charge := battery_charge m; battery_voltage := battery_voltage m;
     battery_runtime := battery_runtime m; battery_nominal_voltage := battery_nominal_voltage m;
     battery_warning_threshold := battery_warning_threshold m; battery_type := battery_type m;
     battery_mfr_date := battery_mfr_date m; input_voltage := input_voltage m;
     input_voltage_nominal := input_voltage_nominal m; input_frequency := input_frequency m;
     output_voltage := output_voltage m; load_percent := load_percent m;
     nominal_power := nominal_power m; high_voltage_transfer := high_voltage_transfer m;
     low_voltage_transfer := low_voltage_transfer m; input_sensitivity := input_sensitivity m;
     last_transfer_reason := last_transfer_reason m;
     low_battery_charge_threshold := low_battery_charge_threshold m;
     low_battery_runtime_threshold := v; shutdown_delay := shutdown_delay m;
     shutdown_timer := shutdown_timer m; reboot_timer := reboot_timer m;
     delay_before_reboot := delay_before_reboot m;
     delay_before_shutdown := delay_before_shutdown m; firmware_version := firmware_version m;
     driver_name := driver_name m; driver_state := driver_state m;
     driver_version := driver_version m; beeper_status := beeper_status m;
     self_test_result := self_test_result m; power_failure_status := power_failure_status m;
     status := status m; status_string := status_string m; last_update_ms := last_update_ms m;
     valid := valid m |}.

Definition set_shutdown_timer (v : float) (m : ups_metrics_t) : ups_metrics_t :=
  {| battery_charge := battery_charge m; battery_voltage := battery_voltage m;
     battery_runtime := battery_runtime m; battery_nominal_voltage := battery_nominal_voltage m;
     battery_warning_threshold := battery_warning_threshold m; battery_type := battery_type m;
     battery_mfr_date := battery_mfr_date m; input_voltage := input_voltage m;
     input_voltage_nominal := input_voltage_nominal m; input_frequency := input_frequency m;
     output_voltage := output_voltage m; load_percent := load_percent m;
     nominal_power := nominal_power m; high_voltage_transfer := high_voltage_transfer m;
     low_voltage_transfer := low_voltage_transfer m; input_sensitivity := input_sensitivity m;
     last_transfer_reason := last_transfer_reason m;
     low_battery_charge_threshold := low_battery_charge_threshold m;
     low_battery_runtime_threshold := low_battery_runtime_threshold m;
     shutdown_delay := shutdown_delay m; shutdown_timer := v; reboot_timer := reboot_timer m;
     delay_before_reboot := delay_before_reboot m;
     delay_before_shutdown := delay_before_shutdown m; firmware_version := firmware_version m;
     driver_name := driver_name m; driver_state := driver_state m;
     driver_version := driver_version m; beeper_status := beeper_status m;
     self_test_result := self_test_result m; power_failure_status := power_failure_status m;
     status := status m; status_string := status_string m; last_update_ms := last_update_ms m;
     valid := valid m |}.

Definition set_reboot_timer (v : float) (m : ups_metrics_t) : ups_metrics_t :=
  {| battery_charge := battery_charge m; battery_voltage := battery_voltage m;
     battery_runtime := battery_runtime m; battery_nominal_voltage := battery_nominal_voltage m;
     battery_warning_threshold := battery_warning_threshold m; battery_type := battery_type m;
     battery_mfr_date := battery_mfr_date m; input_voltage := input_voltage m;
     input_voltage_nominal := input_voltage_nominal m; input_frequency := input_frequency m;
     output_voltage := output_voltage m; load_percent := load_percent m;
     nominal_power := nominal_power m; high_voltage_transfer := high_voltage_transfer m;
     low_voltage_transfer := low_voltage_transfer m; input_sensitivity := input_sensitivity m;
     last_transfer_reason := last_transfer_reason m;
     low_battery_charge_threshold := low_battery_charge_threshold m;
     low_battery_runtime_threshold := low_battery_runtime_threshold m;
     shutdown_delay := shutdown_delay m; shutdown_timer := shutdown_timer m; reboot_timer := v;
     delay_before_reboot := delay_before_reboot m;
     delay_before_shutdown := delay_before_shutdown m; firmware_version := firmware_version m;
     driver_name := driver_name m; driver_state := driver_state m;
     driver_version := driver_version m; beeper_status := beeper_status m;
     self_test_result := self_test_result m; power_failure_status := power_failure_status m;
     status := status m; status_string := status_string m; last_update_ms := last_update_ms m;
     valid := valid m |}.

Definition set_delay_before_reboot (v : float) (m : ups_metrics_t) : ups_metrics_t :=
  {| battery_charge := battery_charge m; battery_voltage := battery_voltage m;
     battery_runtime := battery_runtime m; battery_nominal_voltage := battery_nominal_voltage m;
     battery_warning_threshold := battery_warning_threshold m; battery_type := battery_type m;
     battery_mfr_date := battery_mfr_date m; input_voltage := input_voltage m;
     input_voltage_nominal := input_voltage_nominal m; input_frequency := input_frequency m;
     output_voltage := output_voltage m; load_percent := load_percent m;
     nominal_power := nominal_power m; high_voltage_transfer := high_voltage_transfer m;
     low_voltage_transfer := low_voltage_transfer m; input_sensitivity := input_sensitivity m;
     last_transfer_reason := last_transfer_reason m;
     low_battery_charge_threshold := low_battery_charge_threshold m;
     low_battery_runtime_threshold := low_battery_runtime_threshold m;
     shutdown_delay := shutdown_delay m; shutdown_timer := shutdown_timer m;
     reboot_timer := reboot_timer m; delay_before_reboot := v;
     delay_before_shutdown := delay_before_shutdown m; firmware_version := firmware_version m;
     driver_name := driver_name m; driver_state := driver_state m;
     driver_version := driver_version m; beeper_status := beeper_status m;
     self_test_result := self_test_result m; power_failure_status := power_failure_status m;
     status := status m; status_string := status_string m; last_update_ms := last_update_ms m;
     valid := valid m |}.

Definition set_delay_before_shutdown (v : float) (m : ups_metrics_t) : ups_metrics_t :=
  {| battery_charge := battery_charge m; battery_voltage := battery_voltage m;
     battery_runtime := battery_runtime m; battery_nominal_voltage := battery_nominal_voltage m;
     battery_warning_threshold := battery_warning_threshold m; battery_type := battery_type m;
     battery_mfr_date := battery_mfr_date m; input_voltage := input_voltage m;
     input_voltage_nominal := input_voltage_nominal m; input_frequency := input_frequency m;
     output_voltage := output_voltage m; load_percent := load_percent m;
     nominal_power := nominal_power m; high_voltage_transfer := high_voltage_transfer m;
     low_voltage_transfer := low_voltage_transfer m; input_sensitivity := input_sensitivity m;
     last_transfer_reason := last_transfer_reason m;
     low_battery_charge_threshold := low_battery_charge_threshold m;
     low_battery_runtime_threshold := low_battery_runtime_threshold m;
     shutdown_delay := shutdown_delay m; shutdown_timer := shutdown_timer m;
     reboot_timer := reboot_timer m; delay_before_reboot := delay_before_reboot m;
     delay_before_shutdown := v; firmware_version := firmware_version m;
     driver_name := driver_name m; driver_state := driver_state m;
     driver_version := driver_version m; beeper_status := beeper_status m;
     self_test_result := self_test_result m; power_failure_status := power_failure_status m;
     status := status m; status_string := status_string m; last_update_ms := last_update_ms m;
     valid := valid m |}.

Definition set_firmware_version (v : string) (m : ups_metrics_t) : ups_metrics_t :=
  {| battery_charge := battery_charge m; battery_voltage := battery_voltage m;
     battery_runtime := battery_runtime m; battery_nominal_voltage := battery_nominal_voltage m;
     battery_warning_threshold := battery_warning_threshold m; battery_type := battery_type m;
     battery_mfr_date := battery_mfr_date m; input_voltage := input_voltage m;
     input_voltage_nominal := input_voltage_nominal m; input_frequency := input_frequency m;
     output_voltage := output_voltage m; load_percent := load_percent m;
     nominal_power := nominal_power m; high_voltage_transfer := high_voltage_transfer m;
     low_voltage_transfer := low_voltage_transfer m; input_sensitivity := input_sensitivity m;
     last_transfer_reason := last_transfer_reason m;
     low_battery_charge_threshold := low_battery_charge_threshold m;
     low_battery_runtime_threshold := low_battery_runtime_threshold m;
     shutdown_delay := shutdown_delay m; shutdown_timer := shutdown_timer m;
     reboot_timer := reboot_timer m; delay_before_reboot := delay_before_reboot m;
     delay_before_shutdown := delay_before_shutdown m; firmware_version := v;
     driver_name := driver_name m; driver_state := driver_state m;
     driver_version := driver_version m; beeper_status := beeper_status m;
     self_test_result := self_test_result m; power_failure_status := power_failure_status m;
     status := status m; status_string := status_string m; last_update_ms := last_update_ms m;
     valid := valid m |}.

Definition set_beeper_status (v : string) (m : ups_metrics_t) : ups_metrics_t :=
  {| battery_charge := battery_charge m; battery_voltage := battery_voltage m;
     battery_runtime := battery_runtime m; battery_nominal_voltage := battery_nominal_voltage m;
     battery_warning_threshold := battery_warning_threshold m; battery_type := battery_type m;
     battery_mfr_date := battery_mfr_date m; input_voltage := input_voltage m;
     input_voltage_nominal := input_voltage_nominal m; input_frequency := input_frequency m;
     output_voltage := output_voltage m; load_percent := load_percent m;
     nominal_power := nominal_power m; high_voltage_transfer := high_voltage_transfer m;
     low_voltage_transfer := low_voltage_transfer m; input_sensitivity := input_sensitivity m;
     last_transfer_reason := last_transfer_reason m;
     low_battery_charge_threshold := low_battery_charge_threshold m;
     low_battery_runtime_threshold := low_battery_runtime_threshold m;
     shutdown_delay := shutdown_delay m; shutdown_timer := shutdown_timer m;
     reboot_timer := reboot_timer m; delay_before_reboot := delay_before_reboot m;
     delay_before_shutdown := delay_before_shutdown m; firmware_version := firmware_version m;
     driver_name := driver_name m; driver_state := driver_state m;
     driver_version := driver_version m; beeper_status := v;
     self_test_result := self_test_result m; power_failure_status := power_failure_status m;
     status := status m; status_string := status_string m; last_update_ms := last_update_ms m;
     valid := valid m |}.

Definition set_self_test_result (v : string) (m : ups_metrics_t) : ups_metrics_t :=
  {| battery_charge := battery_charge m; battery_voltage := battery_voltage m;
     battery_runtime := battery_runtime m; battery_nominal_voltage := battery_nominal_voltage m;
     battery_warning_threshold := battery_warning_threshold m; battery_type := battery_type m;
     battery_mfr_date := battery_mfr_date m; input_voltage := input_voltage m;
     input_voltage_nominal := input_voltage_nominal m; input_frequency := input_frequency m;
     output_voltage := output_voltage m; load_percent := load_percent m;
     nominal_power := nominal_power m; high_voltage_transfer := high_voltage_transfer m;
     low_voltage_transfer := low_voltage_transfer m; input_sensitivity := input_sensitivity m;
     last_transfer_reason := last_transfer_reason m;
     low_battery_charge_threshold := low_battery_charge_threshold m;
     low_battery_runtime_threshold := low_battery_runtime_threshold m;
     shutdown_delay := shutdown_delay m; shutdown_timer := shutdown_timer m;
     reboot_timer := reboot_timer m; delay_before_reboot := delay_before_reboot m;
     delay_before_shutdown := delay_before_shutdown m; firmware_version := firmware_version m;
     driver_name := driver_name m; driver_state := driver_state m;
     driver_version := driver_version m; beeper_status := beeper_status m; self_test_result := v;
     power_failure_status := power_failure_status m; status := status m;
     status_string := status_string m; last_update_ms := last_update_ms m; valid := valid m |}.

Definition set_status (v : ups_status_t) (m : ups_metrics_t) : ups_metrics_t :=
  {| battery_charge := battery_charge m; battery_voltage := battery_voltage m;
     battery_runtime := battery_runtime m; battery_nominal_voltage := battery_nominal_voltage m;
     battery_warning_threshold := battery_warning_threshold m; battery_type := battery_type m;
     battery_mfr_date := battery_mfr_date m; input_voltage := input_voltage m;
     input_voltage_nominal := input_voltage_nominal m; input_frequency := input_frequency m;
     output_voltage := output_voltage m; load_percent := load_percent m;
     nominal_power := nominal_power m; high_voltage_transfer := high_voltage_transfer m;
     low_voltage_transfer := low_voltage_transfer m; input_sensitivity := input_sensitivity m;
     last_transfer_reason := last_transfer_reason m;
     low_battery_charge_threshold := low_battery_charge_threshold m;
     low_battery_runtime_threshold := low_battery_runtime_threshold m;
     shutdown_delay := shutdown_delay m; shutdown_timer := shutdown_timer m;
     reboot_timer := reboot_timer m; delay_before_reboot := delay_before_reboot m;
     delay_before_shutdown := delay_before_shutdown m; firmware_version := firmware_version m;
     driver_name := driver_name m; driver_state := driver_state m;
     driver_version := driver_version m; beeper_status := beeper_status m;
     self_test_result := self_test_result m; power_failure_status := power_failure_status m;
     status := v; status_string := status_string m; last_update_ms := last_update_ms m;
     valid := valid m |}.

Definition set_status_string (v : string) (m : ups_metrics_t) : ups_metrics_t :=
  {| battery_charge := battery_charge m; battery_voltage := battery_voltage m;
     battery_runtime := battery_runtime m; battery_nominal_voltage := battery_nominal_voltage m;
     battery_warning_threshold := battery_warning_threshold m; battery_type := battery_type m;
     battery_mfr_date := battery_mfr_date m; input_voltage := input_voltage m;
     input_voltage_nominal := input_voltage_nominal m; input_frequency := input_frequency m;
     output_voltage := output_voltage m; load_percent := load_percent m;
     nominal_power := nominal_power m; high_voltage_transfer := high_voltage_transfer m;
     low_voltage_transfer := low_voltage_transfer m; input_sensitivity := input_sensitivity m;
     last_transfer_reason := last_transfer_reason m;
     low_battery_charge_threshold := low_battery_charge_threshold m;
     low_battery_runtime_threshold := low_battery_runtime_threshold m;
     shutdown_delay := shutdown_delay m; shutdown_timer := shutdown_timer m;
     reboot_timer := reboot_timer m; delay_before_reboot := delay_before_reboot m;
     delay_before_shutdown := delay_before_shutdown m; firmware_version := firmware_version m;
     driver_name := driver_name m; driver_state := driver_state m;
     driver_version := driver_version m; beeper_status := beeper_status m;
     self_test_result := self_test_result m; power_failure_status := power_failure_status m;
     status := status m; status_string := v; last_update_ms := last_update_ms m; valid := valid m |}.

Definition set_last_update_ms (v : Z) (m : ups_metrics_t) : ups_metrics_t :=
  {| battery_charge := battery_charge m; battery_voltage := battery_voltage m;
     battery_runtime := battery_runtime m; battery_nominal_voltage := battery_nominal_voltage m;
     battery_warning_threshold := battery_warning_threshold m; battery_type := battery_type m;
     battery_mfr_date := battery_mfr_date m; input_voltage := input_voltage m;
     input_voltage_nominal := input_voltage_nominal m; input_frequency := input_frequency m;
     output_voltage := output_voltage m; load_percent := load_percent m;
     nominal_power := nominal_power m; high_voltage_transfer := high_voltage_transfer m;
     low_voltage_transfer := low_voltage_transfer m; input_sensitivity := input_sensitivity m;
     last_transfer_reason := last_transfer_reason m;
     low_battery_charge_threshold := low_battery_charge_threshold m;
     low_battery_runtime_threshold := low_battery_runtime_threshold m;
     shutdown_delay := shutdown_delay m; shutdown_timer := shutdown_timer m;
     reboot_timer := reboot_timer m; delay_before_reboot := delay_before_reboot m;
     delay_before_shutdown := delay_before_shutdown m; firmware_version := firmware_version m;
     driver_name := driver_name m; driver_state := driver_state m;
     driver_version := driver_version m; beeper_status := beeper_status m;
     self_test_result := self_test_result m; power_failure_status := power_failure_status m;
     status := status m; status_string := status_string m; last_update_ms := v; valid := valid m |}.

Definition set_valid (v : bool) (m : ups_metrics_t) : ups_metrics_t :=
  {| battery_charge := battery_charge m; battery_voltage := battery_voltage m;
     battery_runtime := battery_runtime m; battery_nominal_voltage := battery_nominal_voltage m;
     battery_warning_threshold := battery_warning_threshold m; battery_type := battery_type m;
     battery_mfr_date := battery_mfr_date m; input_voltage := input_voltage m;
     input_voltage_nominal := input_voltage_nominal m; input_frequency := input_frequency m;
     output_voltage := output_voltage m; load_percent := load_percent m;
     nominal_power := nominal_power m; high_voltage_transfer := high_voltage_transfer m;
     low_voltage_transfer := low_voltage_transfer m; input_sensitivity := input_sensitivity m;
     last_transfer_reason := last_transfer_reason m;
     low_battery_charge_threshold := low_battery_charge_threshold m;
     low_battery_runtime_threshold := low_battery_runtime_threshold m;
     shutdown_delay := shutdown_delay m; shutdown_timer := shutdown_timer m;
     reboot_timer := reboot_timer m; delay_before_reboot := delay_before_reboot m;
     delay_before_shutdown := delay_before_shutdown m; firmware_version := firmware_version m;
     driver_name := driver_name m; driver_state := driver_state m;
     driver_version := driver_version m; beeper_status := beeper_status m;
     self_test_result := self_test_result m; power_failure_status := power_failure_status m;
     status := status m; status_string := status_string m; last_update_ms := last_update_ms m;
     valid := v |}.

(** The module's own snapshot, [current_metrics], after
    [apc_hid_parser_init]: zero-filled, then the five default strings. *)
(** The all-zero bit pattern as a [float]. *)
Notation "'0.0f'" := (float_of_int 0).

Definition zero_status : ups_status_t :=
  {| online := false; discharging := false; charging := false; low_battery := false;
     overload := false; replace_battery := false; boost := false; trim := false |}.

Definition apc_hid_parser_init : ups_metrics_t :=
  {| battery_charge := 0.0f; battery_voltage := 0.0f; battery_runtime := 0.0f;
     battery_nominal_voltage := 0.0f; battery_warning_threshold := 0.0f;
     battery_type := "PbAc"; battery_mfr_date := "";
     input_voltage := 0.0f; input_voltage_nominal := 0.0f; input_frequency := 0.0f;
     output_voltage := 0.0f; load_percent := 0.0f; nominal_power := 0.0f;
     high_voltage_transfer := 0.0f; low_voltage_transfer := 0.0f;
     input_sensitivity := ""; last_transfer_reason := "";
     low_battery_charge_threshold := 0.0f; low_battery_runtime_threshold := 0.0f;
     shutdown_delay := 0.0f; shutdown_timer := 0.0f; reboot_timer := 0.0f;
     delay_before_reboot := 0.0f; delay_before_shutdown := 0.0f;
     firmware_version := ""; driver_name := "esp32-usb-hid"; driver_state := "running";
     driver_version := "1.0.0"; beeper_status := ""; self_test_result := "";
     power_failure_status := "OK";
     status := zero_status; status_string := "";
     last_update_ms := 0; valid := false |}.

(** *** [apc_hid_format_status] *)

(** One of the seven blocks that follow the online/on-battery choice: when
    the flag is set, a separating space if the buffer is not empty, then
    the token. *)
Definition cat_flag (flag : bool) (token : string) (buffer_size : Z) (buffer : string)
  : string :=
  if flag then
    let buffer :=
      if 0 <? strlen buffer
      then strncat buffer " " (to_size_t (buffer_size - strlen buffer - 1))
      else buffer in
    strncat buffer token (to_size_t (buffer_size - strlen buffer - 1))
  else buffer.

Definition apc_hid_format_status (st : ups_status_t) (buffer_size : Z) : string :=
  let buffer := EmptyString in
  let buffer :=
    if online st then strncat buffer "OL" (to_size_t (buffer_size - strlen buffer - 1))
    else if discharging st
         then strncat buffer "OB" (to_size_t (buffer_size - strlen buffer - 1))
         else buffer in
  let buffer := cat_flag (charging st) "CHRG" buffer_size buffer in
  let buffer := cat_flag (low_battery st) "LB" buffer_size buffer in
  let buffer := cat_flag (overload st) "OVER" buffer_size buffer in
  let buffer := cat_flag (replace_battery st) "RB" buffer_size buffer in
  let buffer := cat_flag (boost st) "BOOST" buffer_size buffer in
  let buffer := cat_flag (trim st) "TRIM" buffer_size buffer in
  if strlen buffer =? 0 then strncat buffer "UNKNOWN" (to_size_t (buffer_size - 1))
  else buffer.

(** *** [apc_hid_parse_report] *)

(** What the decoder takes from FreeRTOS: the tick counter at the time of
    the call and the tick period. *)
Record rtos : Type := {
  xTaskGetTickCount : Z;
  portTICK_PERIOD_MS : Z
}.

(** [data[i]], promoted to [int].  [data] is the caller's whole buffer;
    [length] is passed next to it. *)
Definition byte_at (data : list byte) (i : nat) : Z := u8 (nth i data x00).

(** [data[i] | (data[i+1] << 8)] *)
Definition le16 (data : list byte) (i : nat) : Z :=
  Z.lor (byte_at data i) (Z.shiftl (byte_at data (S i)) 8).

(** [(byte & mask) != 0] *)
Definition bit_set (b mask : Z) : bool := negb (Z.land b mask =? 0).

Definition sizeof_battery_type : Z := 16.
Definition sizeof_battery_mfr_date : Z := 16.
Definition sizeof_input_sensitivity : Z := 16.
Definition sizeof_last_transfer_reason : Z := 64.
Definition sizeof_firmware_version : Z := 32.
Definition sizeof_beeper_status : Z := 16.
Definition sizeof_self_test_result : Z := 64.
Definition sizeof_status_string : Z := 64.

Definition beeper_state : list string := ["disabled"; "enabled"; "muted"]%string.

Definition test_results : list string :=
  ["No test initiated"; "Test passed"; "Test in progress"; "General test failed";
   "Battery failed"; "Deep battery test failed"; "Test aborted"]%string.

Definition reasons : list string :=
  ["No transfer"; "High line voltage"; "Brownout"; "Blackout"; "Small momentary sag";
   "Deep momentary sag"; "Small momentary spike"; "Large momentary spike"; "Self test";
   "Input frequency out of range"; "Input voltage out of range"]%string.

Definition sensitivity : list string := ["low"; "medium"; "high"]%string.

Definition chemistry : list string := ["Unknown"; "PbAc"; "Li-ion"; "NiCd"; "NiMH"]%string.

Definition table_entry (table : list string) (code : Z) : string :=
  nth (Z.to_nat code) table EmptyString.

(** Case [0x06]: four flags are taken from [data[3]], the other four keep
    their value. *)
Definition status_of_report_06 (status_byte : Z) (old : ups_status_t) : ups_status_t :=
  {| online := bit_set status_byte 0x08;
     discharging := bit_set status_byte 0x01;
     charging := bit_set status_byte 0x02;
     low_battery := bit_set status_byte 0x04;
     overload := overload old;
     replace_battery := replace_battery old;
     boost := boost old;
     trim := trim old |}.

(** Case [0x16]: all eight flags are taken from [data[1]]. *)
Definition status_of_report_16 (present_status : Z) : ups_status_t :=
  {| online := bit_set present_status 0x01;
     discharging := bit_set present_status 0x02;
     charging := bit_set present_status 0x04;
     low_battery := bit_set present_status 0x08;
     overload := bit_set present_status 0x10;
     replace_battery := bit_set present_status 0x20;
     boost := bit_set present_status 0x40;
     trim := bit_set present_status 0x80 |}.

(** The [switch (report_id)] of [apc_hid_parse_report]: the new value of
    [updated] and of [*target].  Log output is left out. *)
Definition parse_switch (report_id : byte) (data : list byte) (length : Z)
    (target : ups_metrics_t) : bool * ups_metrics_t :=
  match report_id with
  | x0c =>  (* Battery charge and runtime *)
      if 4 <=? length then
        let target := set_battery_charge (float_of_int (byte_at data 1)) target in
        let runtime_seconds := to_uint16 (le16 data 2) in
        let target := set_battery_runtime (float_of_int runtime_seconds) target in
        (true, target)
      else (false, target)
  | x06 =>  (* Status flags *)
      if 4 <=? length then
        let status_byte := byte_at data 3 in
        (true, set_status (status_of_report_06 status_byte (status target)) target)
      else (false, target)
  | x08 =>  (* Battery nominal voltage, 16 bits, exponent -2 *)
      if 3 <=? length then
        let voltage_raw := to_uint16 (le16 data 1) in
        (true, set_battery_nominal_voltage
                 (float_div (float_of_int voltage_raw) (float_of_int 100)) target)
      else (false, target)
  | x09 =>  (* Battery voltage *)
      if 3 <=? length then
        let voltage_raw := to_uint16 (le16 data 1) in
        (true, set_battery_voltage
                 (float_div (float_of_int voltage_raw) (float_of_int 100)) target)
      else (false, target)
  | x0b =>  (* Battery nominal voltage *)
      if 2 <=? length then
        (true, set_battery_nominal_voltage (float_of_int (byte_at data 1)) target)
      else (false, target)
  | x0d =>  (* Battery voltage *)
      if 2 <=? length then
        (true, set_battery_voltage
                 (float_div (float_of_int (byte_at data 1)) (float_of_int 10)) target)
      else (false, target)
  | x0e =>  (* Full charge capacity: logged, not stored *)
      (false, target)
  | x0f =>  (* Battery warning threshold *)
      if 2 <=? length then
        (true, set_battery_warning_threshold (float_of_int (byte_at data 1)) target)
      else (false, target)
  | x10 =>  (* Beeper status *)
      if 2 <=? length then
        let beeper_val := byte_at data 1 in
        if beeper_val <? 3 then
          (true, set_beeper_status
                   (strncpy (table_entry beeper_state beeper_val) (sizeof_beeper_status - 1))
                   target)
        else (false, target)
      else (false, target)
  | x11 =>  (* Battery low charge threshold *)
      if 2 <=? length then
        (true, set_low_battery_charge_threshold (float_of_int (byte_at data 1)) target)
      else (false, target)
  | x12 =>  (* Low battery runtime threshold *)
      if 3 <=? length then
        let runtime := to_uint16 (le16 data 1) in
        (true, set_low_battery_runtime_threshold (float_of_int runtime) target)
      else (false, target)
  | x15 =>  (* Shutdown timer *)
      if 3 <=? length then
        let timer := to_int16 (le16 data 1) in
        (true, set_shutdown_timer (float_of_int timer) target)
      else (false, target)
  | x16 =>  (* Status bits (PresentStatus) *)
      if 2 <=? length then
        let present_status := byte_at data 1 in
        (true, set_status (status_of_report_16 present_status) target)
      else (false, target)
  | x17 =>  (* Reboot timer *)
      if 3 <=? length then
        let timer := to_uint16 (le16 data 1) in
        (true, set_reboot_timer (float_of_int timer) target)
      else (false, target)
  | x18 =>  (* Self-test result *)
      if 2 <=? length then
        let test_val := byte_at data 1 in
        if test_val <? 7 then
          (true, set_self_test_result
                   (strncpy (table_entry test_results test_val) (sizeof_self_test_result - 1))
                   target)
        else (false, target)
      else (false, target)
  | x1c =>  (* Battery manufacture date *)
      if 4 <=? length then
        let year := to_uint16 (le16 data 1) in
        let month := if 3 <? length then byte_at data 3 else 1 in
        let day := if 4 <? length then byte_at data 4 else 1 in
        (true, set_battery_mfr_date
                 (snprintf sizeof_battery_mfr_date
                    (fmt_0d 4 year ++ "/" ++ fmt_0d 2 month ++ "/" ++ fmt_0d 2 day))
                 target)
      else (false, target)
  | x20 =>  (* Battery manufacture date, days since a reference date *)
      if 3 <=? length then
        let days := to_uint16 (le16 data 1) in
        (true, set_battery_mfr_date
                 (snprintf sizeof_battery_mfr_date (fmt_d days ++ " days")) target)
      else (false, target)
  | x13 =>  (* Delay before reboot *)
      if 2 <=? length then
        (true, set_delay_before_reboot (float_of_int (byte_at data 1)) target)
      else (false, target)
  | x14 =>  (* Delay before shutdown *)
      if 2 <=? length then
        (true, set_delay_before_shutdown (float_of_int (byte_at data 1)) target)
      else (false, target)
  | x24 =>  (* Battery runtime low threshold *)
      if 3 <=? length then
        let runtime := to_uint16 (le16 data 1) in
        (true, set_low_battery_runtime_threshold (float_of_int runtime) target)
      else (false, target)
  | x21 =>  (* Last transfer reason *)
      if 2 <=? length then
        let reason := byte_at data 1 in
        if reason <? 11 then
          (true, set_last_transfer_reason
                   (strncpy (table_entry reasons reason) (sizeof_last_transfer_reason - 1))
                   target)
        else (false, target)
      else (false, target)
  | x25 =>  (* Nominal power *)
      if 3 <=? length then
        let power := to_uint16 (le16 data 1) in
        (true, set_nominal_power (float_of_int power) target)
      else (false, target)
  | x30 =>  (* Input nominal voltage *)
      if 2 <=? length then
        (true, set_input_voltage_nominal (float_of_int (byte_at data 1)) target)
      else (false, target)
  | x31 =>  (* Input voltage *)
      if 3 <=? length then
        let voltage_raw := to_uint16 (le16 data 1) in
        (true, set_input_voltage (float_of_int voltage_raw) target)
      else (false, target)
  | x32 =>  (* Low voltage transfer *)
      if 3 <=? length then
        let voltage_raw := to_uint16 (le16 data 1) in
        (true, set_low_voltage_transfer (float_of_int voltage_raw) target)
      else (false, target)
  | x33 =>  (* High voltage transfer *)
      if 3 <=? length then
        let voltage_raw := to_uint16 (le16 data 1) in
        (true, set_high_voltage_transfer (float_of_int voltage_raw) target)
      else (false, target)
  | x50 =>  (* Load percentage *)
      if 2 <=? length then
        (true, set_load_percent (float_of_int (byte_at data 1)) target)
      else (false, target)
  | x35 =>  (* Input sensitivity *)
      if 2 <=? length then
        let sens_val := byte_at data 1 in
        if sens_val <? 3 then
          (true, set_input_sensitivity
                   (strncpy (table_entry sensitivity sens_val) (sizeof_input_sensitivity - 1))
                   target)
        else (false, target)
      else (false, target)
  | x36 =>  (* Input frequency: stored only when it is not zero *)
      if 2 <=? length then
        if 0 <? byte_at data 1 then
          (true, set_input_frequency (float_of_int (byte_at data 1)) target)
        else (false, target)
      else (false, target)
  | x03 =>  (* Battery chemistry *)
      if 2 <=? length then
        let chem_val := byte_at data 1 in
        if chem_val <? 5 then
          (true, set_battery_type
                   (strncpy (table_entry chemistry chem_val) (sizeof_battery_type - 1))
                   target)
        else (false, target)
      else (false, target)
  | x07 =>  (* UPS manufacture date: logged, not stored *)
      (false, target)
  | x34 =>  (* Input sensitivity adjustment: logged, no field stored *)
      if 2 <=? length then (true, target) else (false, target)
  | x52 =>  (* Nominal real power *)
      if 3 <=? length then
        let power := to_uint16 (le16 data 1) in
        (true, set_nominal_power (float_of_int power) target)
      else (false, target)
  | x60 =>  (* Firmware version *)
      if 2 <=? length then
        (true, set_firmware_version
                 (snprintf sizeof_firmware_version
                    (fmt_d (byte_at data 1) ++ "." ++ fmt_d (byte_at data 2)))
                 target)
      else (false, target)
  | _ => (false, target)
  end.

(** The [if (updated)] block: time stamp, validity flag, status string. *)
Definition mark_updated (os : rtos) (target : ups_metrics_t) : ups_metrics_t :=
  let target :=
    set_last_update_ms (to_uint32 (xTaskGetTickCount os * portTICK_PERIOD_MS os)) target in
  let target := set_valid true target in
  set_status_string (apc_hid_format_status (status target) sizeof_status_string) target.

(** The state a call works on: the module's [current_metrics] and the
    caller's [*metrics] ([None] when the pointer is [NULL]).  The caller's
    structure is its own, not [current_metrics] itself, and the report
    bytes lie outside both. *)
Record parse_result : Type := {
  updated : bool;
  current_metrics : ups_metrics_t;
  metrics : option ups_metrics_t
}.

(** [target = (metrics != NULL) ? metrics : &current_metrics] *)
Definition target_of (metrics : option ups_metrics_t) (current_metrics : ups_metrics_t)
  : ups_metrics_t :=
  match metrics with
  | Some m => m
  | None => current_metrics
  end.

(** [data] is [None] for a [NULL] pointer. *)
Definition apc_hid_parse_report (os : rtos) (report_id : byte) (data : option (list byte))
    (length : Z) (metrics : option ups_metrics_t) (current_metrics : ups_metrics_t)
  : parse_result :=
  match data with
  | None => {| updated := false; current_metrics := current_metrics; metrics := metrics |}
  | Some data =>
      if length =? 0 then
        {| updated := false; current_metrics := current_metrics; metrics := metrics |}
      else
        let target := target_of metrics current_metrics in
        let (updated, target) := parse_switch report_id data length target in
        let target := if updated then mark_updated os target else target in
        match metrics with
        | Some _ =>
            {| updated := updated; current_metrics := current_metrics;
               metrics := Some target |}
        | None => {| updated := updated; current_metrics := target; metrics := None |}
        end
  end.

(** [apc_hid_get_metrics] *)
Definition apc_hid_get_metrics (current_metrics : ups_metrics_t) : ups_metrics_t :=
  current_metrics.

(** The structure a call worked on. *)
Definition result_target (r : parse_result) : ups_metrics_t :=
  match metrics r with
  | Some m => m
  | None => current_metrics r
  end.

(** The decode table: the identifiers of the [switch] and, for each, the
    length its case asks for before it reads the payload. *)
Definition min_length (report_id : byte) : option Z :=
  match report_id with
  | x0c | x06 | x1c => Some 4
  | x08 | x09 | x12 | x15 | x17 | x20 | x24 | x25 | x31 | x32 | x33 | x07 | x52 => Some 3
  | x0b | x0d | x0e | x0f | x10 | x11 | x16 | x18 | x13 | x14 | x21 | x30 | x50
  | x35 | x36 | x03 | x34 | x60 => Some 2
  | _ => None
  end.

(** The two status-bearing reports. *)
Definition bears_status (report_id : byte) : bool :=
  match report_id with
  | x06 | x16 => true
  | _ => false
  end.

(** *** The status string in the words of its description

    The active flags as tokens in the fixed order: online or else on
    battery, charging, low battery, overload, replace battery, boost,
    trim. *)
Definition status_tokens (st : ups_status_t) : list string :=
  (if online st then ["OL"%string]
   else if discharging st then ["OB"%string] else []) ++
  (if charging st then ["CHRG"%string] else []) ++
  (if low_battery st then ["LB"%string] else []) ++
  (if overload st then ["OVER"%string] else []) ++
  (if replace_battery st then ["RB"%string] else []) ++
  (if boost st then ["BOOST"%string] else []) ++
  (if trim st then ["TRIM"%string] else []).

(** The tokens joined by single spaces, or "UNKNOWN" when there is none. *)
Definition status_string_of_tokens (ts : list string) : string :=
  match ts with
  | [] => "UNKNOWN"%string
  | _ => String.concat " " ts
  end.

(** The reports that carry an ordinal: the table of labels and the field
    the label goes to. *)
Definition categorical (report_id : byte)
  : option (list string * (ups_metrics_t -> string)) :=
  match report_id with
  | x10 => Some (beeper_state, beeper_status)
  | x18 => Some (test_results, self_test_result)
  | x21 => Some (reasons, last_transfer_reason)
  | x35 => Some (sensitivity, input_sensitivity)
  | x03 => Some (chemistry, battery_type)
  | _ => None
  end.

End Parser.

(** ** The transfer coordinator ([main/usb_host_manager.c]) *)

Module UsbHost.

(** [esp_err_t] and the codes of ESP-IDF's [esp_err.h] the two routines
    return. *)
Definition esp_err_t : Type := Z.
Definition ESP_OK : esp_err_t := 0.
Definition ESP_FAIL : esp_err_t := -1.
Definition ESP_ERR_NO_MEM : esp_err_t := 0x101.
Definition ESP_ERR_INVALID_STATE : esp_err_t := 0x103.
Definition ESP_ERR_INVALID_SIZE : esp_err_t := 0x104.
Definition ESP_ERR_NOT_SUPPORTED : esp_err_t := 0x106.
Definition ESP_ERR_TIMEOUT : esp_err_t := 0x107.

(** [usb_transfer_status_t] *)
Inductive usb_transfer_status_t : Type :=
| USB_TRANSFER_STATUS_COMPLETED
| USB_TRANSFER_STATUS_ERROR
| USB_TRANSFER_STATUS_TIMED_OUT
| USB_TRANSFER_STATUS_CANCELED
| USB_TRANSFER_STATUS_STALL
| USB_TRANSFER_STATUS_OVERFLOW
| USB_TRANSFER_STATUS_SKIPPED
| USB_TRANSFER_STATUS_NO_DEVICE.

(** [usb_setup_packet_t] *)
Record usb_setup_packet_t : Type := {
  bmRequestType : Z;
  bRequest : Z;
  wValue : Z;
  wIndex : Z;
  wLength : Z
}.

Definition HID_INTERFACE : Z := 0.
Definition HID_INTERRUPT_IN_EP : Z := 0x81.

(** What the routines do to the world, in order. *)
Inductive event : Type :=
| EvMutexTake                          (* xSemaphoreTake (transfer_mutex, ...) succeeded *)
| EvMutexGive                          (* xSemaphoreGive (transfer_mutex) *)
| EvAlloc (num_bytes : Z)              (* usb_host_transfer_alloc succeeded *)
| EvSubmit (endpoint : Z)              (* usb_host_transfer_submit succeeded *)
| EvSubmitControl (setup : usb_setup_packet_t)
                                       (* usb_host_transfer_submit_control succeeded *)
| EvLibEvents                          (* usb_host_lib_handle_events *)
| EvClientEvents                       (* usb_host_client_handle_events *)
| EvCallback                           (* transfer_callback ran: the transfer is complete *)
| EvCompletionObserved                 (* xSemaphoreTake (transfer_done, 0) == pdTRUE *)
| EvDelay                              (* vTaskDelay *)
| EvFree.                              (* usb_host_transfer_free *)

(** The USB host platform's side of one call: the results of the resource
    requests and the fate of the submitted transfer. *)
Record platform : Type := {
  mutex_taken : bool;            (* the transfer mutex is obtained within 5000 ms *)
  semaphore_created : bool;      (* xSemaphoreCreateBinary () != NULL *)
  alloc_err : esp_err_t;         (* result of usb_host_transfer_alloc *)
  submit_err : esp_err_t;        (* result of usb_host_transfer_submit (_control) *)
  completes_at : option nat;     (* the call of usb_host_client_handle_events, counted
                                    from 0 after the submit, during which
                                    transfer_callback runs; None: it never runs *)
  pending_status : usb_transfer_status_t;  (* transfer->status before the callback *)
  final_status : usb_transfer_status_t;    (* transfer->status once the callback ran *)
  actual_num_bytes : Z;          (* transfer->actual_num_bytes once the callback ran *)
  data_buffer : list byte        (* transfer->data_buffer once the callback ran *)
}.

(** The module's static variables, the progress of the transfer in flight
    and the trace of the call. *)
Record host_state : Type := {
  ups_device : bool;               (* ups_device != NULL *)
  transfer_done : option bool;     (* None: NULL; Some b: the binary semaphore, b = given *)
  client_polls : nat;              (* calls of usb_host_client_handle_events since the submit *)
  callback_ran : bool;
  trace : list event
}.

Definition log (e : event) (s : host_state) : host_state :=
  {| ups_device := ups_device s; transfer_done := transfer_done s;
     client_polls := client_polls s; callback_ran := callback_ran s;
     trace := trace s ++ [e] |}.

(** A state monad over [host_state]; [None] is a call that has not
    returned when the fuel of an unbounded wait ran out. *)
Definition M (A : Type) : Type := host_state -> option (A * host_state).

Definition ret {A : Type} (a : A) : M A := fun s => Some (a, s).

Definition bind {A B : Type} (c : M A) (k : A -> M B) : M B :=
  fun s => match c s with
           | Some (a, s') => k a s'
           | None => None
           end.

Definition still_waiting {A : Type} : M A := fun _ => None.

Notation "x <- c ;; k" := (bind c (fun x => k))
  (at level 61, c at next level, right associativity).
Notation "c ;;; k" := (bind c (fun _ => k))
  (at level 61, right associativity).

Definition emit (e : event) : M unit := fun s => Some (tt, log e s).

Definition get_device : M bool := fun s => Some (ups_device s, s).

Definition get_transfer_done : M (option bool) := fun s => Some (transfer_done s, s).

Definition set_transfer_done (v : option bool) : M unit :=
  fun s => Some (tt, {| ups_device := ups_device s; transfer_done := v;
                        client_polls := client_polls s; callback_ran := callback_ran s;
                        trace := trace s |}).

(** [transfer_callback]: gives [transfer_done]. *)
Definition transfer_callback : M unit :=
  fun s => Some (tt, {| ups_device := ups_device s;
                        transfer_done := match transfer_done s with
                                         | Some _ => Some true
                                         | None => None
                                         end;
                        client_polls := client_polls s; callback_ran := true;
                        trace := trace s ++ [EvCallback] |}).

(** A successful submit starts the count of client polls. *)
Definition start_transfer (e : event) : M unit :=
  fun s => Some (tt, {| ups_device := ups_device s; transfer_done := transfer_done s;
                        client_polls := 0; callback_ran := false;
                        trace := trace s ++ [e] |}).

(** [usb_host_client_handle_events]: the callback of the transfer in
    flight runs inside the call the platform chose. *)
Definition usb_host_client_handle_events (pf : platform) : M unit :=
  fun s =>
    let s' := {| ups_device := ups_device s; transfer_done := transfer_done s;
                 client_polls := S (client_polls s); callback_ran := callback_ran s;
                 trace := trace s ++ [EvClientEvents] |} in
    match completes_at pf with
    | Some k => if Nat.eqb k (client_polls s) then transfer_callback s' else Some (tt, s')
    | None => Some (tt, s')
    end.

Definition usb_host_lib_handle_events : M unit := emit EvLibEvents.

(** [xSemaphoreTake (transfer_done, 0) == pdTRUE] *)
Definition take_transfer_done : M bool :=
  fun s => match transfer_done s with
           | Some true =>
               Some (true, {| ups_device := ups_device s; transfer_done := Some false;
                              client_polls := client_polls s;
                              callback_ran := callback_ran s;
                              trace := trace s ++ [EvCompletionObserved] |})
           | _ => Some (false, s)
           end.

Definition usb_host_transfer_free : M unit := emit EvFree.

(** [transfer->status], [transfer->actual_num_bytes], [transfer->data_buffer] *)
Definition transfer_status (pf : platform) : M usb_transfer_status_t :=
  fun s => Some (if callback_ran s then final_status pf else pending_status pf, s).

(** [memcpy (buffer, src, n)] on a source of at least [n] bytes. *)
Definition memcpy (buffer src : list byte) (n : Z) : list byte :=
  firstn (Z.to_nat n) src ++ skipn (Z.to_nat n) buffer.

(** What the caller sees: the returned code and the two output
    arguments. *)
Record outcome : Type := {
  err : esp_err_t;
  buffer : list byte;
  actual_length : Z
}.

Definition max_wait_ms : Z := 2000.
Definition poll_interval_ms : Z := 10.

(** Both bounded waits run at most [max_wait_ms / poll_interval_ms]
    times; one more unit of fuel lets the loop test fail. *)
Definition wait_fuel : nat := S (Z.to_nat (max_wait_ms / poll_interval_ms)).

(** Creation of [transfer_done] on first use; [false] when it fails. *)
Definition ensure_transfer_done (pf : platform) : M bool :=
  sem <- get_transfer_done ;;
  match sem with
  | Some _ => ret true
  | None =>
      if semaphore_created pf then set_transfer_done (Some false) ;;; ret true
      else ret false
  end.

(** *** [get_hid_report] *)

(** The wait loop of [get_hid_report]: library events, client events, then
    a non-blocking take of [transfer_done].  The result is
    [transfer_complete]. *)
Fixpoint wait_control (pf : platform) (fuel : nat) (waited_ms : Z) : M bool :=
  match fuel with
  | O => still_waiting
  | S fuel =>
      if waited_ms <? max_wait_ms then
        usb_host_lib_handle_events ;;;
        usb_host_client_handle_events pf ;;;
        taken <- take_transfer_done ;;
        if taken then ret true
        else wait_control pf fuel (waited_ms + poll_interval_ms)
      else ret false
  end.

Definition get_report_setup (report_id : byte) (buffer_size : Z) : usb_setup_packet_t :=
  {| bmRequestType := 0xA1;
     bRequest := 0x01;
     wValue := to_uint16 (Z.lor (Z.shiftl 3 8) (u8 report_id));
     wIndex := HID_INTERFACE;
     wLength := to_uint16 buffer_size |}.

(** The [if (transfer_complete) ... else ...] block that follows the wait. *)
Definition control_transfer_result (pf : platform) (buffer : list byte) (buffer_size : Z)
    (actual_length : Z) (transfer_complete : bool) : M outcome :=
  if transfer_complete then
    st <- transfer_status pf ;;
    let res :=
      match st with
      | USB_TRANSFER_STATUS_COMPLETED =>
          (* the data starts after the 8-byte setup packet *)
          let actual_length := to_size_t (actual_num_bytes pf - 8) in
          if (0 <? actual_length) && (actual_length <=? buffer_size) then
            {| err := ESP_OK;
               buffer := memcpy buffer (skipn 8 (data_buffer pf)) actual_length;
               actual_length := actual_length |}
          else
            {| err := ESP_ERR_INVALID_SIZE; buffer := buffer;
               actual_length := actual_length |}
      | USB_TRANSFER_STATUS_STALL =>
          {| err := ESP_ERR_NOT_SUPPORTED; buffer := buffer;
             actual_length := actual_length |}
      | _ =>
          {| err := ESP_FAIL; buffer := buffer; actual_length := actual_length |}
      end in
    usb_host_transfer_free ;;;
    ret res
  else
    (* "Cancel and free the transfer": the transfer is freed as it is *)
    usb_host_transfer_free ;;;
    ret {| err := ESP_ERR_NOT_SUPPORTED; buffer := buffer;
           actual_length := actual_length |}.

Definition get_hid_report (pf : platform) (report_id : byte) (buffer : list byte)
    (buffer_size : Z) (actual_length : Z) : M outcome :=
  dev <- get_device ;;
  if negb dev then
    ret {| err := ESP_ERR_INVALID_STATE; buffer := buffer; actual_length := actual_length |}
  else if negb (mutex_taken pf) then
    ret {| err := ESP_ERR_TIMEOUT; buffer := buffer; actual_length := actual_length |}
  else
    emit EvMutexTake ;;;
    if negb (alloc_err pf =? ESP_OK) then
      emit EvMutexGive ;;;
      ret {| err := alloc_err pf; buffer := buffer; actual_length := actual_length |}
    else
      emit (EvAlloc (buffer_size + 8)) ;;;
      sem_ok <- ensure_transfer_done pf ;;
      if negb sem_ok then
        usb_host_transfer_free ;;;
        emit EvMutexGive ;;;
        ret {| err := ESP_ERR_NO_MEM; buffer := buffer; actual_length := actual_length |}
      else if negb (submit_err pf =? ESP_OK) then
        usb_host_transfer_free ;;;
        emit EvMutexGive ;;;
        ret {| err := submit_err pf; buffer := buffer; actual_length := actual_length |}
      else
        start_transfer (EvSubmitControl (get_report_setup report_id buffer_size)) ;;;
        transfer_complete <- wait_control pf wait_fuel 0 ;;
        res <- control_transfer_result pf buffer buffer_size actual_length
                 transfer_complete ;;
        emit EvMutexGive ;;;
        ret res.

(** *** [read_hid_report] *)

(** The bounded wait of [read_hid_report]: client events only. *)
Fixpoint wait_interrupt (pf : platform) (fuel : nat) (waited_ms : Z) : M bool :=
  match fuel with
  | O => still_waiting
  | S fuel =>
      if waited_ms <? max_wait_ms then
        usb_host_client_handle_events pf ;;;
        taken <- take_transfer_done ;;
        if taken then ret true
        else wait_interrupt pf fuel (waited_ms + poll_interval_ms)
      else ret false
  end.

(** The wait without a time limit that follows an application-level
    timeout: it ends, with the transfer freed, when the callback has
    fired. *)
Fixpoint wait_late_callback (pf : platform) (fuel : nat) : M unit :=
  match fuel with
  | O => still_waiting
  | S fuel =>
      usb_host_client_handle_events pf ;;;
      taken <- take_transfer_done ;;
      if taken then usb_host_transfer_free
      else emit EvDelay ;;; wait_late_callback pf fuel
  end.

(** The [if (transfer_complete) ... else ...] block that follows the wait;
    [fuel] bounds the wait for a late callback, the only unbounded loop. *)
Definition interrupt_transfer_result (pf : platform) (fuel : nat) (buffer : list byte)
    (actual_length : Z) (transfer_complete : bool) : M outcome :=
  if transfer_complete then
    st <- transfer_status pf ;;
    let res :=
      match st with
      | USB_TRANSFER_STATUS_COMPLETED =>
          {| err := ESP_OK;
             buffer := memcpy buffer (data_buffer pf) (to_size_t (actual_num_bytes pf));
             actual_length := to_size_t (actual_num_bytes pf) |}
      | USB_TRANSFER_STATUS_TIMED_OUT =>
          {| err := ESP_ERR_TIMEOUT; buffer := buffer; actual_length := actual_length |}
      | _ =>
          {| err := ESP_FAIL; buffer := buffer; actual_length := actual_length |}
      end in
    (* "CRITICAL: Only free after callback has fired" *)
    usb_host_transfer_free ;;;
    ret res
  else
    wait_late_callback pf fuel ;;;
    ret {| err := ESP_ERR_TIMEOUT; buffer := buffer; actual_length := actual_length |}.

Definition read_hid_report (pf : platform) (fuel : nat) (buffer : list byte)
    (buffer_size : Z) (actual_length : Z) : M outcome :=
  dev <- get_device ;;
  if negb dev then
    ret {| err := ESP_ERR_INVALID_STATE; buffer := buffer; actual_length := actual_length |}
  else if negb (mutex_taken pf) then
    ret {| err := ESP_ERR_TIMEOUT; buffer := buffer; actual_length := actual_length |}
  else
    emit EvMutexTake ;;;
    sem_ok <- ensure_transfer_done pf ;;
    if negb sem_ok then
      emit EvMutexGive ;;;
      ret {| err := ESP_ERR_NO_MEM; buffer := buffer; actual_length := actual_length |}
    else if negb (alloc_err pf =? ESP_OK) then
      emit EvMutexGive ;;;
      ret {| err := alloc_err pf; buffer := buffer; actual_length := actual_length |}
    else
      emit (EvAlloc buffer_size) ;;;
      if negb (submit_err pf =? ESP_OK) then
        usb_host_transfer_free ;;;
        emit EvMutexGive ;;;
        ret {| err := submit_err pf; buffer := buffer; actual_length := actual_length |}
      else
        start_transfer (EvSubmit HID_INTERRUPT_IN_EP) ;;;
        transfer_complete <- wait_interrupt pf wait_fuel 0 ;;
        res <- interrupt_transfer_result pf fuel buffer actual_length transfer_complete ;;
        emit EvMutexGive ;;;
        ret res.

(** *** The life cycle of a transfer, read off a trace *)

Inductive lifecycle : Type :=
| NotSubmitted          (* no transfer in flight *)
| InFlight              (* submitted, callback not yet run *)
| Completed             (* the callback ran *)
| Observed              (* ... and the routine saw the semaphore it gave *)
| Released              (* freed before the submit or after the observed completion *)
| ReleasedUnobserved.   (* freed while no completion had been observed *)

Definition lifecycle_step (l : lifecycle) (e : event) : lifecycle :=
  match e with
  | EvSubmit _ | EvSubmitControl _ =>
      match l with NotSubmitted => InFlight | _ => l end
  | EvCallback =>
      match l with InFlight => Completed | _ => l end
  | EvCompletionObserved =>
      match l with Completed => Observed | _ => l end
  | EvFree =>
      match l with
      | NotSubmitted | Observed | Released => Released
      | InFlight | Completed | ReleasedUnobserved => ReleasedUnobserved
      end
  | _ => l
  end.

Definition lifecycle_of (tr : list event) : lifecycle :=
  fold_left lifecycle_step tr NotSubmitted.

(** The resource-safety property of a call. *)
Definition released_after_completion (tr : list event) : Prop :=
  lifecycle_of tr <> ReleasedUnobserved.

(** The state in which the scheduler enters a call: the device is
    attached, no transfer is in flight, the trace is empty. *)
Definition entry_state (sem : option bool) : host_state :=
  {| ups_device := true; transfer_done := sem; client_polls := 0;
     callback_ran := false; trace := [] |}.

(** *** One step of [usb_host_task]'s loop on the snapshot

    The decoder is called on the result of a transfer only when the
    transfer returned [ESP_OK] and at least one byte; it is always called
    with a [NULL] [metrics] pointer. *)
Inductive transfer_result : Type :=
| PushedRead (r : outcome)                      (* read_hid_report *)
| FeatureRequest (report_id : byte) (r : outcome).  (* get_hid_report (report_id, ...) *)

Definition handle_result (os : Parser.rtos) (t : transfer_result)
    (current_metrics : Parser.ups_metrics_t) : Parser.ups_metrics_t :=
  match t with
  | PushedRead r =>
      if (err r =? ESP_OK) && (0 <? actual_length r) then
        (* the first byte is the report identifier *)
        let report_id := nth 0 (buffer r) x00 in
        Parser.current_metrics
          (Parser.apc_hid_parse_report os report_id (Some (buffer r)) (actual_length r)
             None current_metrics)
      else current_metrics
  | FeatureRequest report_id r =>
      if (err r =? ESP_OK) && (0 <? actual_length r) then
        Parser.current_metrics
          (Parser.apc_hid_parse_report os report_id (Some (buffer r)) (actual_length r)
             None current_metrics)
      else current_metrics
  end.

(** What can happen to the snapshot between two looks at it: a decoder
    call on [current_metrics], or the scheduler's handling of the result
    of a transfer, whatever that result is. *)
Inductive snapshot_step : Type :=
| DecoderCall (os : Parser.rtos) (report_id : byte) (data : option (list byte))
    (length : Z)
| TransferDone (os : Parser.rtos) (t : transfer_result).

Definition apply_step (current_metrics : Parser.ups_metrics_t) (st : snapshot_step)
  : Parser.ups_metrics_t :=
  match st with
  | DecoderCall os report_id data length =>
      Parser.current_metrics
        (Parser.apc_hid_parse_report os report_id data length None current_metrics)
  | TransferDone os t => handle_result os t current_metrics
  end.

Definition run_steps (steps : list snapshot_step) (current_metrics : Parser.ups_metrics_t)
  : Parser.ups_metrics_t :=
  fold_left apply_step steps current_metrics.

(** *** Vocabulary of the properties *)

(** Does the callback run inside client poll number [n]. *)
Definition fires (pf : platform) (n : nat) : bool :=
  match completes_at pf with
  | Some k => Nat.eqb k n
  | None => false
  end.

(** What a bounded wait hands to the code after it: the transfer is
    complete exactly when the callback runs inside one of the [n] polls
    that remain; the semaphore is left empty either way. *)
Definition wait_post (pf : platform) (n : nat) (s : host_state) (b : bool)
    (s' : host_state) : Prop :=
  ups_device s' = ups_device s /\
  transfer_done s' = Some false /\
  (b = true <->
   exists k, completes_at pf = Some k /\ (client_polls s <= k < client_polls s + n)%nat) /\
  (if b
   then callback_ran s' = true /\ lifecycle_of (trace s') = Observed
   else callback_ran s' = callback_ran s /\ lifecycle_of (trace s') = InFlight /\
        client_polls s' = (client_polls s + n)%nat).

(** The call gets as far as a submitted transfer: mutex, allocation,
    semaphore and submit all succeed, and the semaphore is not already
    given when the call starts. *)
Definition submits (pf : platform) (sem : option bool) : bool :=
  mutex_taken pf && (alloc_err pf =? ESP_OK) && (submit_err pf =? ESP_OK) &&
  match sem with
  | Some given => negb given
  | None => semaphore_created pf
  end.

(** The number of polls of a bounded wait. *)
Definition max_polls : nat := Z.to_nat (max_wait_ms / poll_interval_ms).

(** The state right after the submit. *)
Definition submitted (tr : list event) : host_state :=
  {| ups_device := true; transfer_done := Some false; client_polls := 0;
     callback_ran := false; trace := tr |}.

(** The callback runs inside one of the polls of the bounded wait. *)
Definition completes_in_time (pf : platform) : bool :=
  match completes_at pf with
  | Some k => Nat.ltb k max_polls
  | None => false
  end.

(** A platform on which everything succeeds and the device answers the
    request with the given status inside client poll [k]. *)
Definition answering (k : option nat) (st : usb_transfer_status_t) : platform :=
  {| mutex_taken := true; semaphore_created := true;
     alloc_err := ESP_OK; submit_err := ESP_OK;
     completes_at := k;
     pending_status := USB_TRANSFER_STATUS_COMPLETED;
     final_status := st;
     actual_num_bytes := 11;
     data_buffer := [xa1; x01; x09; x03; x00; x00; x40; x00; x09; x5a; x05] |}.

(** What a call that returned gave its caller, and where it left the
    transfer. *)
Definition summary (res : option (outcome * host_state)) : option (esp_err_t * lifecycle) :=
  match res with
  | Some (r, s) => Some (err r, lifecycle_of (trace s))
  | None => None
  end.

(** *** Bookkeeping on traces *)

(** The transfer mutex: taken is [+1], given back is [-1]. *)
Definition mutex_delta (e : event) : Z :=
  match e with
  | EvMutexTake => 1
  | EvMutexGive => -1
  | _ => 0
  end.

(** Transfers: allocated is [+1], freed is [-1]. *)
Definition transfer_delta (e : event) : Z :=
  match e with
  | EvAlloc _ => 1
  | EvFree => -1
  | _ => 0
  end.

Definition mutex_depth (tr : list event) : Z :=
  fold_right (fun e z => mutex_delta e + z) 0 tr.

Definition live_transfers (tr : list event) : Z :=
  fold_right (fun e z => transfer_delta e + z) 0 tr.

(** Whenever [c] returns it has appended events to the trace that change
    the mutex depth by [dm] and the number of live transfers by [dt]. *)
Definition effect {A : Type} (c : M A) (dm dt : Z) : Prop :=
  forall s a s',
    c s = Some (a, s') ->
    exists extra,
      trace s' = trace s ++ extra /\ mutex_depth extra = dm /\ live_transfers extra = dt.

(** Whatever [c] returns satisfies [Q]. *)
Definition returns_only {A : Type} (c : M A) (Q : A -> Prop) : Prop :=
  forall s a s', c s = Some (a, s') -> Q a.

(** Whenever [c] returns, the count of client polls since the last submit
    has grown by [p] at most. *)
Definition polls_within {A : Type} (c : M A) (p : nat) : Prop :=
  forall s a s', c s = Some (a, s') -> (client_polls s' <= client_polls s + p)%nat.

End UsbHost.

(** ** The device session tracker ([usb_host_client_event_cb]) *)

Module Session.
Import UsbHost.

Definition APC_VID : Z := 0x051d.
Definition APC_PID : Z := 0x0002.

(** [ups_connected] and [ups_device] ([None] for [NULL]; a device handle
    is a number, and the handles the library gives or reports gone are
    never [NULL]). *)
Record tracker : Type := {
  ups_connected : bool;
  ups_device : option Z
}.

Definition no_session : tracker := {| ups_connected := false; ups_device := None |}.

(** The calls the handler makes to the USB host library. *)
Inductive host_call : Type :=
| DeviceOpen (address : Z)
| GetDeviceDescriptor (dev_hdl : Z)
| DeviceClose (dev_hdl : Z)
| InterfaceClaim (dev_hdl : Z) (interface : Z)
| GetActiveConfigDescriptor (dev_hdl : Z).

(** What the library answers while a new device is handled. *)
Record new_dev_answers : Type := {
  open_err : esp_err_t;         (* usb_host_device_open *)
  dev_hdl : Z;                  (* the handle it gives *)
  descriptor_err : esp_err_t;   (* usb_host_get_device_descriptor *)
  idVendor : Z;
  idProduct : Z;
  claim_err : esp_err_t         (* usb_host_interface_claim *)
}.

(** [usb_host_client_event_msg_t] *)
Inductive client_event : Type :=
| USB_HOST_CLIENT_EVENT_NEW_DEV (address : Z) (answers : new_dev_answers)
| USB_HOST_CLIENT_EVENT_DEV_GONE (gone_hdl : Z)
| OTHER_EVENT (event : Z).

(** The handler: the new value of the two variables and the library calls
    made.  Log output and the walk over the endpoint descriptors, which is
    logged only, are left out. *)
Definition usb_host_client_event_cb (ev : client_event) (t : tracker)
  : tracker * list host_call :=
  match ev with
  | USB_HOST_CLIENT_EVENT_NEW_DEV address a =>
      if negb (open_err a =? ESP_OK) then (t, [DeviceOpen address])
      else if negb (descriptor_err a =? ESP_OK) then
        (t, [DeviceOpen address; GetDeviceDescriptor (dev_hdl a); DeviceClose (dev_hdl a)])
      else if (idVendor a =? APC_VID) && (idProduct a =? APC_PID) then
        ({| ups_connected := true; ups_device := Some (dev_hdl a) |},
         [DeviceOpen address; GetDeviceDescriptor (dev_hdl a);
          InterfaceClaim (dev_hdl a) HID_INTERFACE;
          GetActiveConfigDescriptor (dev_hdl a)])
      else
        (t, [DeviceOpen address; GetDeviceDescriptor (dev_hdl a); DeviceClose (dev_hdl a)])
  | USB_HOST_CLIENT_EVENT_DEV_GONE gone_hdl =>
      match ups_device t with
      | Some dev =>
          if gone_hdl =? dev then ({| ups_connected := false; ups_device := None |}, [])
          else (t, [])
      | None => (t, [])
      end
  | OTHER_EVENT _ => (t, [])
  end.

(** [usb_ups_is_connected] *)
Definition usb_ups_is_connected (t : tracker) : bool := ups_connected t.

(** The tracker after a sequence of events. *)
Definition after_events (evs : list client_event) (t : tracker) : tracker :=
  fold_left (fun t ev => fst (usb_host_client_event_cb ev t)) evs t.

(** The new device is the UPS and could be opened and read. *)
Definition is_ups (a : new_dev_answers) : bool :=
  (open_err a =? ESP_OK) && (descriptor_err a =? ESP_OK) &&
  (idVendor a =? APC_VID) && (idProduct a =? APC_PID).

(** The state in which the coordinator finds the module when the tracker
    is [t]. *)
Definition coordinator_state (t : tracker) (sem : option bool) (tr : list event)
  : host_state :=
  {| UsbHost.ups_device := match ups_device t with Some _ => true | None => false end;
     transfer_done := sem; client_polls := 0; callback_ran := false; trace := tr |}.

End Session.

(** ** The loop of [usb_host_task] *)

Module Task.
Import UsbHost.








(** [poll_reports]: the identifiers of the sweep, in its order. *)
Definition poll_reports : list byte :=
  [x09; x31; x50;
   x08; x0e; x0f; x11; x24; x17; x03; x07; x20;
   x30; x32; x33; x34; x35; x36;
   x52; x15; x10; x18].

(** The sweep on the snapshot: the results of the requests for
    [poll_reports], each handled as it comes in; a result beyond the table
    is not looked at. *)
Fixpoint sweep (ids : list byte) (answers : list (Parser.rtos * outcome))
    (current_metrics : Parser.ups_metrics_t) : Parser.ups_metrics_t :=
  match ids, answers with
  | id :: ids, (os, r) :: answers =>
      sweep ids answers (handle_result os (FeatureRequest id r) current_metrics)
  | _, _ => current_metrics
  end.



End Task.

(** ** The publisher ([mqtt_manager.c] and [mqtt_publish_task]) *)

Module Mqtt.
Import UsbHost.

(** ["%02x"] of a byte: two lower-case hexadecimal digits. *)
Definition hex_digit (n : Z) : ascii :=
  nth (Z.to_nat n)
    ["0"; "1"; "2"; "3"; "4"; "5"; "6"; "7"; "8"; "9"; "a"; "b"; "c"; "d"; "e"; "f"]%char
    "0"%char.

Definition fmt_02x (b : byte) : string :=
  String (hex_digit (u8 b / 16)) (String (hex_digit (u8 b mod 16)) EmptyString).

Definition sizeof_device_id : Z := 32.
Definition sizeof_mqtt_base_topic : Z := 64.

(** [device_mac], six bytes. *)
Record mac_address : Type := {
  mac0 : byte; mac1 : byte; mac2 : byte; mac3 : byte; mac4 : byte; mac5 : byte
}.

(** [generate_device_id]: [device_id] and [mqtt_base_topic]. *)
Definition device_id_of (mac : mac_address) : string :=
  snprintf sizeof_device_id
    ("apc_ups_" ++ fmt_02x (mac0 mac) ++ fmt_02x (mac1 mac) ++ fmt_02x (mac2 mac) ++
     fmt_02x (mac3 mac) ++ fmt_02x (mac4 mac) ++ fmt_02x (mac5 mac)).

Definition mqtt_base_topic_of (device_id : string) : string :=
  snprintf sizeof_mqtt_base_topic ("homeassistant/sensor/" ++ device_id).

(** The module's state. *)
Record mqtt_state : Type := {
  mqtt_client : bool;          (* mqtt_client != NULL *)
  mqtt_connected : bool;
  device_id : string;
  mqtt_base_topic : string
}.

(** [mqtt_event_handler] *)
Inductive mqtt_event : Type :=
| MQTT_EVENT_CONNECTED
| MQTT_EVENT_DISCONNECTED
| MQTT_EVENT_ERROR
| MQTT_EVENT_OTHER.

Definition mqtt_event_handler (ev : mqtt_event) (st : mqtt_state) : mqtt_state :=
  match ev with
  | MQTT_EVENT_CONNECTED =>
      {| mqtt_client := mqtt_client st; mqtt_connected := true;
         device_id := device_id st; mqtt_base_topic := mqtt_base_topic st |}
  | MQTT_EVENT_DISCONNECTED =>
      {| mqtt_client := mqtt_client st; mqtt_connected := false;
         device_id := device_id st; mqtt_base_topic := mqtt_base_topic st |}
  | _ => st
  end.














End Mqtt.

(** ** Properties of the report decoder *)

Module ParserSpec.
Import Parser.

(** *** What a call leaves alone *)

Ltac split_ifs :=
  repeat match goal with
    | |- context [if ?c then _ else _] => destruct c
    end.

(** The [switch] either reports an update or hands the structure back
    untouched. *)
Lemma parse_switch_not_updated id d length t :
  fst (parse_switch id d length t) = false ->
  snd (parse_switch id d length t) = t.
Proof.
  destruct id; cbn [parse_switch]; split_ifs; cbn [fst snd];
    intros H; try reflexivity; discriminate H.
Qed.

Lemma parse_switch_short id d length t :
  match min_length id with
  | Some k => length < k
  | None => True
  end ->
  parse_switch id d length t = (false, t).
Proof.
  destruct id; cbn [min_length parse_switch]; intros H; try reflexivity;
    match goal with
    | |- context [?a <=? length] => destruct (Z.leb_spec a length); [lia | reflexivity]
    end.
Qed.

Lemma parse_switch_valid id d length t :
  valid (snd (parse_switch id d length t)) = valid t.
Proof. destruct id; cbn [parse_switch]; split_ifs; reflexivity. Qed.

Lemma parse_switch_status id d length t :
  bears_status id = false ->
  status (snd (parse_switch id d length t)) = status t.
Proof.
  destruct id; cbn [bears_status]; intros H; try discriminate H;
    cbn [parse_switch]; split_ifs; reflexivity.
Qed.

Lemma mark_updated_valid os t : valid (mark_updated os t) = true.
Proof. reflexivity. Qed.

Lemma mark_updated_status os t : status (mark_updated os t) = status t.
Proof. reflexivity. Qed.

Lemma mark_updated_status_string os t :
  status_string (mark_updated os t) = apc_hid_format_status (status t) sizeof_status_string.
Proof. reflexivity. Qed.

(** The call in terms of its [switch]. *)
Lemma parse_report_unfold os id d length m cm :
  length <> 0 ->
  let sw := parse_switch id d length (target_of m cm) in
  let r := apc_hid_parse_report os id (Some d) length m cm in
  updated r = fst sw /\
  result_target r = (if fst sw then mark_updated os (snd sw) else snd sw) /\
  current_metrics r = (match m with Some _ => cm | None => result_target r end).
Proof.
  intros Hlen. cbv zeta. unfold apc_hid_parse_report.
  destruct (Z.eqb_spec length 0) as [E|_]; [contradiction|].
  destruct (parse_switch id d length (target_of m cm)) as [u t'].
  destruct m; cbn; auto.
Qed.

Lemma parse_report_empty os id data m cm :
  apc_hid_parse_report os id data 0 m cm
  = {| updated := false; current_metrics := cm; metrics := m |}.
Proof. destruct data; reflexivity. Qed.

(** A call whose [switch] stores nothing returns [false] and gives back
    both structures as they were. *)
Lemma parse_not_updated os id data length m cm :
  (forall d t, data = Some d -> parse_switch id d length t = (false, t)) ->
  apc_hid_parse_report os id data length m cm
  = {| updated := false; current_metrics := cm; metrics := m |}.
Proof.
  intros Hsw. unfold apc_hid_parse_report.
  destruct data as [d|]; [|reflexivity].
  destruct (length =? 0); [reflexivity|].
  rewrite (Hsw d _ eq_refl). destruct m; reflexivity.
Qed.

(** A call that returns [false] has changed nothing at all. *)
Lemma parse_report_not_updated os id data length m cm :
  updated (apc_hid_parse_report os id data length m cm) = false ->
  apc_hid_parse_report os id data length m cm
  = {| updated := false; current_metrics := cm; metrics := m |}.
Proof.
  unfold apc_hid_parse_report.
  destruct data as [d|]; [|reflexivity].
  destruct (length =? 0); [reflexivity|].
  pose proof (parse_switch_not_updated id d length (target_of m cm)) as Hsw.
  destruct (parse_switch id d length (target_of m cm)) as [u t'].
  cbn [fst snd] in Hsw.
  destruct m; cbn [updated]; intros ->; rewrite (Hsw eq_refl); reflexivity.
Qed.

Lemma parse_report_valid os id data length cm :
  valid cm = true ->
  valid (current_metrics (apc_hid_parse_report os id data length None cm)) = true.
Proof.
  intros Hv. unfold apc_hid_parse_report.
  destruct data as [d|]; [|exact Hv].
  destruct (length =? 0); [exact Hv|].
  cbn [target_of].
  pose proof (parse_switch_valid id d length cm) as Hsw.
  destruct (parse_switch id d length cm) as [u t'].
  cbn [snd] in Hsw. destruct u; cbn [current_metrics].
  - apply mark_updated_valid.
  - congruence.
Qed.

(** [(b & (1 << i)) != 0] is bit [i] of the byte. *)
Lemma bit_set_testbit (b : byte) :
  bit_set (u8 b) 0x01 = Z.testbit (u8 b) 0 /\
  bit_set (u8 b) 0x02 = Z.testbit (u8 b) 1 /\
  bit_set (u8 b) 0x04 = Z.testbit (u8 b) 2 /\
  bit_set (u8 b) 0x08 = Z.testbit (u8 b) 3 /\
  bit_set (u8 b) 0x10 = Z.testbit (u8 b) 4 /\
  bit_set (u8 b) 0x20 = Z.testbit (u8 b) 5 /\
  bit_set (u8 b) 0x40 = Z.testbit (u8 b) 6 /\
  bit_set (u8 b) 0x80 = Z.testbit (u8 b) 7.
Proof. destruct b; vm_compute; repeat split. Qed.


(** *** Properties from the specification: the decoder *)

(** C9. With a [NULL] data pointer, or with a length of zero, the decoder
    returns [false] for every report identifier and leaves the module's
    snapshot and the caller's structure (every field, the time stamp and
    the validity flag) as they were. *)
Theorem null_or_empty_no_update :
  (forall os id length m cm,
      apc_hid_parse_report os id None length m cm
      = {| updated := false; current_metrics := cm; metrics := m |}) /\
  (forall os id data m cm,
      apc_hid_parse_report os id data 0 m cm
      = {| updated := false; current_metrics := cm; metrics := m |}).
Proof.
  split; intros.
  - reflexivity.
  - apply parse_report_empty.
Qed.

(** C4. A report whose length is below the minimum of its identifier, and
    a report whose identifier is not in the decode table, updates nothing:
    the call returns [false] (there is no error channel) and the snapshot
    and the caller's structure are exactly what they were, time stamp and
    validity flag included. *)
Theorem short_or_unknown_no_update os id data length m cm :
  match min_length id with
  | Some k => length < k
  | None => True
  end ->
  apc_hid_parse_report os id data length m cm
  = {| updated := false; current_metrics := cm; metrics := m |}.
Proof.
  intros H. apply parse_not_updated. intros d t _.
  apply parse_switch_short, H.
Qed.

Lemma short_or_unknown_no_update_witness :
  let os := {| xTaskGetTickCount := 500; portTICK_PERIOD_MS := 10 |} in
  apc_hid_parse_report os x0c (Some [x0c; x64; x10]) 3 None apc_hid_parser_init
  = {| updated := false; current_metrics := apc_hid_parser_init; metrics := None |} /\
  apc_hid_parse_report os xee (Some [xee; x01; x02; x03]) 4 None apc_hid_parser_init
  = {| updated := false; current_metrics := apc_hid_parser_init; metrics := None |}.
Proof.
  split.
  - apply (short_or_unknown_no_update _ x0c). simpl. lia.
  - apply (short_or_unknown_no_update _ xee). simpl. exact I.
Defined.

(** C5. The charge/runtime report [0x0C] with the bytes
    [id, 100, 0x10, 0x0E] stores a battery charge of 100.0 and a battery
    runtime of 3600.0, the little-endian 16-bit value 0x0E10 of bytes 2
    and 3. *)
Theorem charge_runtime_example os m cm :
  let data := [x0c; x64; x10; x0e] in
  let r := apc_hid_parse_report os x0c (Some data) 4 m cm in
  u8 x64 = 100 /\
  to_uint16 (le16 data 2) = 0x0E10 /\
  updated r = true /\
  battery_charge (result_target r) = 100%Q /\
  battery_runtime (result_target r) = 3600%Q.
Proof. destruct m; repeat split. Qed.

(** C6. The detailed status report [0x16] with status byte [0b00000001]
    yields the status string "OL", with [0b00000010] "OB", with
    [0b00000101] "OL CHRG"; with no flag set the string is "UNKNOWN". *)
Theorem status_string_examples os data length m cm :
  2 <= length ->
  let r := apc_hid_parse_report os x16 (Some data) length m cm in
  (nth 1 data x00 = x01 -> status_string (result_target r) = "OL"%string) /\
  (nth 1 data x00 = x02 -> status_string (result_target r) = "OB"%string) /\
  (nth 1 data x00 = x05 -> status_string (result_target r) = "OL CHRG"%string) /\
  (nth 1 data x00 = x00 -> status_string (result_target r) = "UNKNOWN"%string) /\
  apc_hid_format_status zero_status sizeof_status_string = "UNKNOWN"%string.
Proof.
  intros Hlen.
  destruct (parse_report_unfold os x16 data length m cm ltac:(lia)) as (_ & Ht & _).
  cbv zeta in *. rewrite Ht. clear Ht.
  cbn [parse_switch].
  destruct (Z.leb_spec 2 length) as [_|?]; [|lia].
  cbn [fst snd]. rewrite mark_updated_status_string.
  unfold byte_at.
  repeat split; try (intros ->; reflexivity).
Qed.

Lemma status_string_examples_witness :
  let os := {| xTaskGetTickCount := 500; portTICK_PERIOD_MS := 10 |} in
  status_string
    (result_target (apc_hid_parse_report os x16 (Some [x16; x05]) 2 None apc_hid_parser_init))
  = "OL CHRG"%string.
Proof.
  intros os.
  apply (status_string_examples os [x16; x05] 2 None apc_hid_parser_init ltac:(lia)).
  reflexivity.
Defined.

(** C10. For every combination of the status flags, "OB" occurs in the
    formatted status string (as a token, and anywhere at all) exactly when
    the discharging flag is set and the online flag is clear, and the
    string begins with "OL" exactly when the online flag is set: with both
    flags set it begins with "OL" and "OB" does not occur. *)
Theorem on_battery_only_when_offline (st : ups_status_t) :
  let s := apc_hid_format_status st sizeof_status_string in
  has_token "OB" s = discharging st && negb (online st) /\
  contains "OB" s = discharging st && negb (online st) /\
  starts_with "OL" s = online st.
Proof.
  destruct st as [[] [] [] [] [] [] [] []]; vm_compute; repeat split.
Qed.

(** C2, as the code has it.  A decoded report [0x16] replaces the whole
    bit-set: each of the eight flags is the corresponding bit of
    [data[1]].  A decoded report [0x06] replaces four flags only (online,
    discharging, charging, low-battery, from bits 3, 0, 1, 2 of [data[3]])
    and keeps overload, replace-battery, boost and trim.  Every other
    report leaves the bit-set as it was. *)
Theorem status_replacement os id data length m cm :
  let r := apc_hid_parse_report os id (Some data) length m cm in
  let old := status (target_of m cm) in
  (id = x16 -> updated r = true ->
   let b := byte_at data 1 in
   status (result_target r)
   = {| online := Z.testbit b 0; discharging := Z.testbit b 1;
        charging := Z.testbit b 2; low_battery := Z.testbit b 3;
        overload := Z.testbit b 4; replace_battery := Z.testbit b 5;
        boost := Z.testbit b 6; trim := Z.testbit b 7 |}) /\
  (id = x06 -> updated r = true ->
   let b := byte_at data 3 in
   status (result_target r)
   = {| online := Z.testbit b 3; discharging := Z.testbit b 0;
        charging := Z.testbit b 1; low_battery := Z.testbit b 2;
        overload := overload old; replace_battery := replace_battery old;
        boost := boost old; trim := trim old |}) /\
  (bears_status id = false -> status (result_target r) = old).
Proof.
  cbv zeta.
  destruct (Z.eqb_spec length 0) as [->|Hlen].
  { rewrite parse_report_empty.
    split; [|split]; try (intros _ Hu; discriminate Hu).
    intros _. destruct m; reflexivity. }
  destruct (parse_report_unfold os id data length m cm Hlen) as (Hu & Ht & _).
  cbv zeta in Hu, Ht. rewrite Hu, Ht. clear Hu Ht.
  split; [|split].
  - intros -> Hup. rewrite Hup, mark_updated_status. revert Hup.
    cbn [parse_switch]. destruct (2 <=? length); cbn [fst snd]; [intros _|discriminate].
    cbn [status set_status]. unfold status_of_report_16, byte_at.
    destruct (bit_set_testbit (nth 1 data x00)) as (-> & -> & -> & -> & -> & -> & -> & ->).
    reflexivity.
  - intros -> Hup. rewrite Hup, mark_updated_status. revert Hup.
    cbn [parse_switch]. destruct (4 <=? length); cbn [fst snd]; [intros _|discriminate].
    cbn [status set_status]. unfold status_of_report_06, byte_at.
    destruct (bit_set_testbit (nth 3 data x00)) as (-> & -> & -> & -> & _).
    reflexivity.
  - intros Hb.
    pose proof (parse_switch_status id data length (target_of m cm) Hb) as Hs.
    destruct (fst (parse_switch id data length (target_of m cm)));
      [rewrite mark_updated_status|]; exact Hs.
Qed.

Lemma status_replacement_witness :
  let os := {| xTaskGetTickCount := 500; portTICK_PERIOD_MS := 10 |} in
  let r16 := apc_hid_parse_report os x16 (Some [x16; x05]) 2 None apc_hid_parser_init in
  let r06 := apc_hid_parse_report os x06 (Some [x06; x00; x00; x08]) 4 None
               apc_hid_parser_init in
  let r0c := apc_hid_parse_report os x0c (Some [x0c; x64; x10; x0e]) 4 None
               apc_hid_parser_init in
  online (status (result_target r16)) = true /\
  online (status (result_target r06)) = true /\
  status (result_target r0c) = zero_status.
Proof.
  intros os r16 r06 r0c. subst r16 r06 r0c. split; [|split].
  - rewrite (proj1 (status_replacement os x16 [x16; x05] 2 None apc_hid_parser_init)
               eq_refl eq_refl).
    reflexivity.
  - rewrite (proj1 (proj2 (status_replacement os x06 [x06; x00; x00; x08] 4 None
                             apc_hid_parser_init)) eq_refl eq_refl).
    reflexivity.
  - apply (proj2 (proj2 (status_replacement os x0c [x0c; x64; x10; x0e] 4 None
                           apc_hid_parser_init)) eq_refl).
Defined.

(** C2 as stated fails on report [0x06]: the same payload, decoded into
    two snapshots that differ in the overload flag, leaves two different
    bit-sets, so the bit-set is not replaced as a whole from the payload. *)
Lemma status_06_keeps_four_flags :
  let os := {| xTaskGetTickCount := 500; portTICK_PERIOD_MS := 10 |} in
  let data := [x06; x00; x00; x08] in
  let overloaded :=
    {| online := false; discharging := true; charging := false; low_battery := false;
       overload := true; replace_battery := false; boost := false; trim := false |} in
  let cm1 := apc_hid_parser_init in
  let cm2 := set_status overloaded apc_hid_parser_init in
  let r1 := apc_hid_parse_report os x06 (Some data) 4 None cm1 in
  let r2 := apc_hid_parse_report os x06 (Some data) 4 None cm2 in
  bears_status x06 = true /\
  updated r1 = true /\ updated r2 = true /\
  overload (status (current_metrics r1)) = false /\
  overload (status (current_metrics r2)) = true /\
  status (current_metrics r1) <> status (current_metrics r2).
Proof.
  cbv zeta. repeat split. vm_compute. discriminate.
Qed.

End ParserSpec.

(** ** Properties of the transfer coordinator *)

Module UsbHostSpec.
Import UsbHost.

(** *** Traces and the life cycle *)

Lemma lifecycle_of_snoc tr e :
  lifecycle_of (tr ++ [e]) = lifecycle_step (lifecycle_of tr) e.
Proof. unfold lifecycle_of. rewrite fold_left_app. reflexivity. Qed.

Lemma fires_spec pf n : fires pf n = true <-> completes_at pf = Some n.
Proof.
  unfold fires. destruct (completes_at pf) as [k|].
  - destruct (Nat.eqb_spec k n); split; congruence.
  - split; discriminate.
Qed.

(** One round of "client events, then try the semaphore" from a state in
    which the semaphore is not given: the rest of the routine, [K],
    continues with the answer of the platform. *)
Lemma poll_round {A : Type} pf (K : bool -> M A) s :
  transfer_done s = Some false ->
  exists s',
    (usb_host_client_handle_events pf ;;; taken <- take_transfer_done ;; K taken) s
    = K (fires pf (client_polls s)) s' /\
    ups_device s' = ups_device s /\
    transfer_done s' = Some false /\
    client_polls s' = S (client_polls s) /\
    (if fires pf (client_polls s)
     then callback_ran s' = true /\
          trace s' = trace s ++ [EvClientEvents; EvCallback; EvCompletionObserved]
     else callback_ran s' = callback_ran s /\
          trace s' = trace s ++ [EvClientEvents]).
Proof.
  intros Hsem.
  unfold bind, usb_host_client_handle_events, fires.
  destruct (completes_at pf) as [k|].
  - destruct (Nat.eqb k (client_polls s)).
    + unfold transfer_callback, take_transfer_done. cbn. rewrite Hsem. cbn.
      eexists. split; [reflexivity|]. cbn.
      repeat split; try reflexivity. rewrite <- !app_assoc. reflexivity.
    + unfold take_transfer_done. cbn. rewrite Hsem.
      eexists. split; [reflexivity|]. repeat split; assumption.
  - unfold take_transfer_done. cbn. rewrite Hsem.
    eexists. split; [reflexivity|]. repeat split; assumption.
Qed.

Lemma wait_post_timeout pf s :
  transfer_done s = Some false ->
  lifecycle_of (trace s) = InFlight ->
  wait_post pf 0 s false s.
Proof.
  intros Hsem Hl. unfold wait_post. repeat split; auto; try discriminate.
  intros (k & _ & Hk). lia.
Qed.

(** A round in which the callback fires ends the wait. *)
Lemma wait_post_fired pf n s s' :
  lifecycle_of (trace s) = InFlight ->
  fires pf (client_polls s) = true ->
  ups_device s' = ups_device s ->
  transfer_done s' = Some false ->
  callback_ran s' = true ->
  (exists pre, lifecycle_of pre = InFlight /\
               trace s' = pre ++ [EvClientEvents; EvCallback; EvCompletionObserved]) ->
  wait_post pf (S n) s true s'.
Proof.
  intros Hl Hf Hd Hsem Hcb (pre & Hpre & Htr). unfold wait_post.
  repeat split; auto.
  - intros _. exists (client_polls s). apply fires_spec in Hf. split; [exact Hf|lia].
  - rewrite Htr.
    change (pre ++ [EvClientEvents; EvCallback; EvCompletionObserved])
      with (pre ++ [EvClientEvents] ++ [EvCallback] ++ [EvCompletionObserved]).
    rewrite !app_assoc, !lifecycle_of_snoc, Hpre. reflexivity.
Qed.

(** A round in which it does not fire leaves the rest of the wait to
    decide. *)
Lemma wait_post_next pf n s s1 b s' :
  fires pf (client_polls s) = false ->
  ups_device s1 = ups_device s ->
  client_polls s1 = S (client_polls s) ->
  callback_ran s1 = callback_ran s ->
  wait_post pf n s1 b s' ->
  wait_post pf (S n) s b s'.
Proof.
  intros Hf Hd Hp Hcb (Hd' & Hsem' & Hiff & Hb). unfold wait_post.
  repeat split; try congruence.
  - intros Hbt. apply Hiff in Hbt. destruct Hbt as (k & Hk & Hr).
    exists k. split; [exact Hk|lia].
  - intros (k & Hk & Hr). apply Hiff. exists k. split; [exact Hk|].
    assert (k <> client_polls s).
    { intros ->. apply fires_spec in Hk. congruence. }
    lia.
  - destruct b; [exact Hb|]. destruct Hb as (Hcb' & Hl & Hp').
    repeat split; try congruence. lia.
Qed.

Lemma wait_control_spec (n : nat) : forall pf fuel waited_ms s,
  waited_ms = max_wait_ms - poll_interval_ms * Z.of_nat n ->
  (n < fuel)%nat ->
  transfer_done s = Some false ->
  lifecycle_of (trace s) = InFlight ->
  exists b s', wait_control pf fuel waited_ms s = Some (b, s') /\ wait_post pf n s b s'.
Proof.
  induction n as [|n IH]; intros pf fuel waited_ms s Hw Hfuel Hsem Hl;
    (destruct fuel as [|fuel]; [lia|]); cbn [wait_control];
    unfold max_wait_ms, poll_interval_ms in *.
  - destruct (Z.ltb_spec waited_ms 2000); [lia|].
    exists false, s. split; [reflexivity|]. apply wait_post_timeout; assumption.
  - destruct (Z.ltb_spec waited_ms 2000); [|lia].
    unfold usb_host_lib_handle_events. unfold bind at 1. cbn [emit].
    destruct (poll_round pf
                (fun taken : bool =>
                   if taken then ret true else wait_control pf fuel (waited_ms + 10))
                (log EvLibEvents s) Hsem) as (s1 & Hrun & Hd & Hs1 & Hp & Hf).
    rewrite Hrun. cbn [log client_polls ups_device callback_ran trace] in *.
    assert (Hl1 : lifecycle_of (trace s ++ [EvLibEvents]) = InFlight).
    { rewrite lifecycle_of_snoc, Hl. reflexivity. }
    destruct (fires pf (client_polls s)) eqn:Hfires.
    + exists true, s1. split; [reflexivity|]. destruct Hf as [Hcb Htr].
      apply wait_post_fired; auto. eauto.
    + destruct Hf as [Hcb Htr].
      destruct (IH pf fuel (waited_ms + 10) s1) as (b & s' & Hrec & Hpost);
        try assumption; try lia.
      { rewrite Htr, lifecycle_of_snoc, Hl1. reflexivity. }
      exists b, s'. split; [exact Hrec|].
      eapply wait_post_next; eauto.
Qed.


Lemma wait_interrupt_spec (n : nat) : forall pf fuel waited_ms s,
  waited_ms = max_wait_ms - poll_interval_ms * Z.of_nat n ->
  (n < fuel)%nat ->
  transfer_done s = Some false ->
  lifecycle_of (trace s) = InFlight ->
  exists b s', wait_interrupt pf fuel waited_ms s = Some (b, s') /\ wait_post pf n s b s'.
Proof.
  induction n as [|n IH]; intros pf fuel waited_ms s Hw Hfuel Hsem Hl;
    (destruct fuel as [|fuel]; [lia|]); cbn [wait_interrupt];
    unfold max_wait_ms, poll_interval_ms in *.
  - destruct (Z.ltb_spec waited_ms 2000); [lia|].
    exists false, s. split; [reflexivity|]. apply wait_post_timeout; assumption.
  - destruct (Z.ltb_spec waited_ms 2000); [|lia].
    destruct (poll_round pf
                (fun taken : bool =>
                   if taken then ret true else wait_interrupt pf fuel (waited_ms + 10))
                s Hsem) as (s1 & Hrun & Hd & Hs1 & Hp & Hf).
    rewrite Hrun.
    destruct (fires pf (client_polls s)) eqn:Hfires; destruct Hf as [Hcb Htr].
    + exists true, s1. split; [reflexivity|].
      apply wait_post_fired; auto. eauto.
    + destruct (IH pf fuel (waited_ms + 10) s1) as (b & s' & Hrec & Hpost);
        try assumption; try lia.
      { rewrite Htr, lifecycle_of_snoc, Hl. reflexivity. }
      exists b, s'. split; [exact Hrec|].
      eapply wait_post_next; eauto.
Qed.

(** *** The wait for a late callback *)

(** Whenever the wait returns, the callback has been seen and the transfer
    was freed after it. *)
Lemma wait_late_callback_safe pf : forall fuel s u s',
  transfer_done s = Some false ->
  lifecycle_of (trace s) = InFlight ->
  wait_late_callback pf fuel s = Some (u, s') ->
  lifecycle_of (trace s') = Released /\ ups_device s' = ups_device s.
Proof.
  induction fuel as [|fuel IH]; intros s u s' Hsem Hl; cbn [wait_late_callback].
  - discriminate.
  - destruct (poll_round pf
                (fun taken : bool =>
                   if taken then usb_host_transfer_free
                   else emit EvDelay ;;; wait_late_callback pf fuel)
                s Hsem) as (s1 & Hrun & Hd & Hs1 & Hp & Hf).
    rewrite Hrun.
    destruct (fires pf (client_polls s)); destruct Hf as [Hcb Htr].
    + unfold usb_host_transfer_free, emit. intros [= _ <-]. cbn [log trace ups_device].
      split; [|exact Hd].
      rewrite Htr.
      change (trace s ++ [EvClientEvents; EvCallback; EvCompletionObserved])
        with (trace s ++ [EvClientEvents] ++ [EvCallback] ++ [EvCompletionObserved]).
      rewrite !app_assoc, !lifecycle_of_snoc, Hl. reflexivity.
    + unfold bind at 1. cbn [emit]. intros Hrec.
      apply IH in Hrec; cbn [log transfer_done trace ups_device] in *; try assumption.
      * destruct Hrec as [Hr Hd']. split; congruence.
      * rewrite lifecycle_of_snoc, Htr, lifecycle_of_snoc, Hl. reflexivity.
Qed.




(** *** The two routines up to the submit *)

Lemma submits_inv pf sem :
  submits pf sem = true ->
  mutex_taken pf = true /\ (alloc_err pf =? ESP_OK) = true /\
  (submit_err pf =? ESP_OK) = true /\
  (sem = Some false \/ (sem = None /\ semaphore_created pf = true)).
Proof.
  unfold submits. intros H.
  apply andb_prop in H as [H H4]. apply andb_prop in H as [H H3].
  apply andb_prop in H as [H1 H2]. repeat split; try assumption.
  destruct sem as [[]|]; [discriminate|left; reflexivity|right; auto].
Qed.

Lemma get_hid_report_submitted pf id buf size al sem :
  submits pf sem = true ->
  get_hid_report pf id buf size al (entry_state sem)
  = (transfer_complete <- wait_control pf wait_fuel 0 ;;
     res <- control_transfer_result pf buf size al transfer_complete ;;
     emit EvMutexGive ;;; ret res)
      (submitted [EvMutexTake; EvAlloc (size + 8);
                  EvSubmitControl (get_report_setup id size)]).
Proof.
  intros H. apply submits_inv in H as (Hm & Ha & Hs & Hsem).
  unfold get_hid_report, ensure_transfer_done.
  unfold bind at 1. cbn [get_device entry_state ups_device negb].
  rewrite Hm. cbn [negb].
  unfold bind at 1. cbn [emit]. rewrite Ha. cbn [negb].
  unfold bind at 1. cbn [emit].
  destruct Hsem as [->|[-> Hc]].
  - unfold bind at 1. unfold bind at 1. cbn [get_transfer_done log transfer_done ret negb].
    rewrite Hs. cbn [negb]. unfold bind at 1. reflexivity.
  - unfold bind at 1. unfold bind at 1. cbn [get_transfer_done log transfer_done].
    rewrite Hc. unfold bind at 1. cbn [set_transfer_done ret negb].
    rewrite Hs. cbn [negb]. unfold bind at 1. reflexivity.
Qed.

Lemma read_hid_report_submitted pf fuel buf size al sem :
  submits pf sem = true ->
  read_hid_report pf fuel buf size al (entry_state sem)
  = (transfer_complete <- wait_interrupt pf wait_fuel 0 ;;
     res <- interrupt_transfer_result pf fuel buf al transfer_complete ;;
     emit EvMutexGive ;;; ret res)
      (submitted [EvMutexTake; EvAlloc size; EvSubmit HID_INTERRUPT_IN_EP]).
Proof.
  intros H. apply submits_inv in H as (Hm & Ha & Hs & Hsem).
  unfold read_hid_report, ensure_transfer_done.
  unfold bind at 1. cbn [get_device entry_state ups_device negb].
  rewrite Hm. cbn [negb].
  unfold bind at 1. cbn [emit].
  destruct Hsem as [->|[-> Hc]].
  - unfold bind at 1. unfold bind at 1. cbn [get_transfer_done log transfer_done ret negb].
    rewrite Ha. cbn [negb]. unfold bind at 1. cbn [emit].
    rewrite Hs. cbn [negb]. unfold bind at 1. reflexivity.
  - unfold bind at 1. unfold bind at 1. cbn [get_transfer_done log transfer_done].
    rewrite Hc. unfold bind at 1. cbn [set_transfer_done ret negb].
    rewrite Ha. cbn [negb]. unfold bind at 1. cbn [emit].
    rewrite Hs. cbn [negb]. unfold bind at 1. reflexivity.
Qed.


Lemma wait_fuel_covers : (max_polls < wait_fuel)%nat.
Proof. unfold wait_fuel, max_polls. lia. Qed.

Lemma max_polls_start : 0 = max_wait_ms - poll_interval_ms * Z.of_nat max_polls.
Proof. reflexivity. Qed.

(** *** [get_hid_report], from the submit to the return *)

Lemma get_hid_report_spec pf id buf size al sem :
  submits pf sem = true ->
  exists b s1 r,
    wait_post pf max_polls
      (submitted [EvMutexTake; EvAlloc (size + 8);
                  EvSubmitControl (get_report_setup id size)]) b s1 /\
    get_hid_report pf id buf size al (entry_state sem)
    = Some (r, log EvMutexGive (log EvFree s1)) /\
    (b = false ->
     r = {| err := ESP_ERR_NOT_SUPPORTED; buffer := buf; actual_length := al |}) /\
    (b = true -> final_status pf = USB_TRANSFER_STATUS_STALL ->
     r = {| err := ESP_ERR_NOT_SUPPORTED; buffer := buf; actual_length := al |}) /\
    (b = true -> final_status pf <> USB_TRANSFER_STATUS_STALL ->
     final_status pf <> USB_TRANSFER_STATUS_COMPLETED ->
     r = {| err := ESP_FAIL; buffer := buf; actual_length := al |}) /\
    (b = true -> final_status pf = USB_TRANSFER_STATUS_COMPLETED ->
     err r = ESP_OK \/ err r = ESP_ERR_INVALID_SIZE).
Proof.
  intros Hsub. rewrite (get_hid_report_submitted _ _ _ _ _ _ Hsub).
  set (s0 := submitted _).
  destruct (wait_control_spec max_polls pf wait_fuel 0 s0 max_polls_start wait_fuel_covers
              eq_refl eq_refl) as (b & s1 & Hrun & Hpost).
  exists b, s1. unfold bind at 1. rewrite Hrun.
  destruct b.
  - pose proof Hpost as (Hd & Hsem & Hiff & Hcb & Hl).
    unfold control_transfer_result, transfer_status, usb_host_transfer_free.
    unfold bind, emit, ret. rewrite Hcb.
    eexists. split; [exact Hpost|]. split; [reflexivity|].
    repeat split; try discriminate.
    + intros _ ->. reflexivity.
    + intros _ Hns Hnc. destruct (final_status pf); try reflexivity; contradiction.
    + intros _ ->. destruct (_ && _); [left|right]; reflexivity.
  - unfold control_transfer_result, usb_host_transfer_free.
    unfold bind, emit, ret.
    eexists. split; [exact Hpost|]. split; [reflexivity|].
    repeat split; try discriminate.
Qed.

(** *** [read_hid_report], from the submit to the return *)

Lemma read_hid_report_spec pf fuel buf size al sem r s :
  submits pf sem = true ->
  read_hid_report pf fuel buf size al (entry_state sem) = Some (r, s) ->
  lifecycle_of (trace s) = Released.
Proof.
  intros Hsub. rewrite (read_hid_report_submitted _ _ _ _ _ _ Hsub).
  set (s0 := submitted _).
  destruct (wait_interrupt_spec max_polls pf wait_fuel 0 s0 max_polls_start wait_fuel_covers
              eq_refl eq_refl) as (b & s1 & Hrun & Hpost).
  unfold bind at 1. rewrite Hrun.
  destruct Hpost as (Hd & Hsem & Hiff & Hb).
  destruct b.
  - destruct Hb as [Hcb Hl].
    unfold interrupt_transfer_result, transfer_status, usb_host_transfer_free.
    unfold bind, emit, ret. intros [= _ <-]. cbn [log trace].
    rewrite !lifecycle_of_snoc, Hl. reflexivity.
  - destruct Hb as (Hcb & Hl & _).
    unfold interrupt_transfer_result. unfold bind at 1. unfold bind at 1.
    destruct (wait_late_callback pf fuel s1) as [[u s2]|] eqn:Hlate; [|discriminate].
    apply wait_late_callback_safe in Hlate as [Hl2 _]; try assumption.
    unfold bind, emit, ret. intros [= _ <-]. cbn [log trace].
    rewrite lifecycle_of_snoc, Hl2. reflexivity.
Qed.


Lemma completes_in_time_spec pf tr b s1 :
  wait_post pf max_polls (submitted tr) b s1 -> b = completes_in_time pf.
Proof.
  intros (_ & _ & Hiff & _). unfold completes_in_time.
  cbn [submitted client_polls] in Hiff.
  destruct (completes_at pf) as [k|].
  - destruct (Nat.ltb_spec k max_polls) as [Hlt|Hge].
    + apply Hiff. exists k. split; [reflexivity|lia].
    + destruct b; [|reflexivity].
      destruct (proj1 Hiff eq_refl) as (k' & [= <-] & Hk). lia.
  - destruct b; [|reflexivity].
    destruct (proj1 Hiff eq_refl) as (k' & Hk & _). discriminate.
Qed.

(** *** Does the call return *)

(** A round of polling always comes back, whatever the semaphore holds. *)
Lemma poll_round_total {A : Type} pf (K : bool -> M A) s :
  exists b s',
    (usb_host_client_handle_events pf ;;; taken <- take_transfer_done ;; K taken) s
    = K b s'.
Proof.
  unfold bind, usb_host_client_handle_events.
  destruct (completes_at pf) as [k|]; [destruct (Nat.eqb k (client_polls s))|];
    unfold transfer_callback, take_transfer_done; cbn;
    destruct (transfer_done s) as [[]|]; cbn; eauto.
Qed.

Lemma wait_control_total pf (n : nat) : forall fuel waited_ms s,
  waited_ms = max_wait_ms - poll_interval_ms * Z.of_nat n ->
  (n < fuel)%nat ->
  exists b s', wait_control pf fuel waited_ms s = Some (b, s').
Proof.
  induction n as [|n IH]; intros fuel waited_ms s Hw Hfuel;
    (destruct fuel as [|fuel]; [lia|]); cbn [wait_control];
    unfold max_wait_ms, poll_interval_ms in *.
  - destruct (Z.ltb_spec waited_ms 2000); [lia|]. exists false, s. reflexivity.
  - destruct (Z.ltb_spec waited_ms 2000); [|lia].
    unfold usb_host_lib_handle_events. unfold bind at 1. cbn [emit].
    destruct (poll_round_total pf
                (fun taken : bool =>
                   if taken then ret true else wait_control pf fuel (waited_ms + 10))
                (log EvLibEvents s)) as (b & s1 & ->).
    destruct b; [exists true, s1; reflexivity|]. apply IH; lia.
Qed.

(** [get_hid_report] returns on every platform and from every state: its
    only wait is bounded. *)
Lemma get_hid_report_returns pf id buf size al s0 :
  exists r s, get_hid_report pf id buf size al s0 = Some (r, s).
Proof.
  assert (Hwait : forall s2,
             exists r s,
               (transfer_complete <- wait_control pf wait_fuel 0 ;;
                res <- control_transfer_result pf buf size al transfer_complete ;;
                emit EvMutexGive ;;; ret res) s2 = Some (r, s)).
  { intros s2.
    destruct (wait_control_total pf max_polls wait_fuel 0 s2 max_polls_start
                wait_fuel_covers) as (b & s3 & Hrun).
    unfold bind at 1. rewrite Hrun.
    unfold control_transfer_result, transfer_status, usb_host_transfer_free.
    destruct b; cbv [bind emit ret]; do 2 eexists; reflexivity. }
  unfold get_hid_report, ensure_transfer_done.
  unfold bind at 1. cbn [get_device].
  destruct (ups_device s0); cbn [negb]; [|do 2 eexists; reflexivity].
  destruct (mutex_taken pf); cbn [negb]; [|do 2 eexists; reflexivity].
  unfold bind at 1. cbn [emit].
  destruct (alloc_err pf =? ESP_OK); cbn [negb];
    [|cbv [bind emit ret]; do 2 eexists; reflexivity].
  unfold bind at 1. cbn [emit].
  unfold bind at 1. unfold bind at 1. cbn [get_transfer_done].
  set (s1 := log (EvAlloc (size + 8)) (log EvMutexTake s0)).
  destruct (transfer_done s1) as [given|].
  - cbn [ret negb]. destruct (submit_err pf =? ESP_OK); cbn [negb].
    + unfold bind at 1. cbn [start_transfer]. apply Hwait.
    + cbv [bind emit ret usb_host_transfer_free]. do 2 eexists; reflexivity.
  - destruct (semaphore_created pf).
    + unfold bind at 1. cbn [set_transfer_done ret negb].
      destruct (submit_err pf =? ESP_OK); cbn [negb].
      * unfold bind at 1. cbn [start_transfer]. apply Hwait.
      * cbv [bind emit ret usb_host_transfer_free]. do 2 eexists; reflexivity.
    + cbv [bind emit ret usb_host_transfer_free negb]. do 2 eexists; reflexivity.
Qed.



(** *** Properties from the specification: the transfer coordinator *)

(** The pushed-report read keeps the rule: whenever [read_hid_report]
    returns after a submit, the transfer was freed after its completion
    had been observed. *)
Lemma read_hid_report_released_after_completion pf fuel buf size al sem r s :
  submits pf sem = true ->
  read_hid_report pf fuel buf size al (entry_state sem) = Some (r, s) ->
  released_after_completion (trace s).
Proof.
  intros Hsub Hrun. unfold released_after_completion.
  rewrite (read_hid_report_spec _ _ _ _ _ _ _ _ Hsub Hrun). discriminate.
Qed.

(** The feature-report request does not: when the wait times out the
    transfer is freed although no completion was observed. *)
Lemma get_hid_report_timeout_frees_in_flight pf id buf size al sem :
  submits pf sem = true ->
  completes_in_time pf = false ->
  exists r s,
    get_hid_report pf id buf size al (entry_state sem) = Some (r, s) /\
    lifecycle_of (trace s) = ReleasedUnobserved.
Proof.
  intros Hsub Hlate.
  destruct (get_hid_report_spec pf id buf size al sem Hsub)
    as (b & s1 & r & Hpost & Hrun & _).
  pose proof (completes_in_time_spec _ _ _ _ Hpost) as Hb. rewrite Hlate in Hb. subst b.
  exists r, (log EvMutexGive (log EvFree s1)). split; [exact Hrun|].
  destruct Hpost as (_ & _ & _ & _ & Hl & _). cbn [log trace].
  rewrite !lifecycle_of_snoc, Hl. reflexivity.
Qed.

(** C1, evaluated where it fails.  A feature-report request whose answer
    comes in client poll 250, after the 200 polls of the wait: the call
    returns [ESP_ERR_NOT_SUPPORTED] with the transfer freed while it was
    still in flight, no completion having been observed.  The
    pushed-report read on the same platform waits for the callback and
    frees the transfer after it. *)
Theorem get_hid_report_frees_before_completion :
  let pf := answering (Some 250%nat) USB_TRANSFER_STATUS_COMPLETED in
  let buf := repeat x00 64 in
  summary (get_hid_report pf x09 buf 64 0 (entry_state (Some false)))
  = Some (ESP_ERR_NOT_SUPPORTED, ReleasedUnobserved) /\
  summary (read_hid_report pf 100 buf 64 0 (entry_state (Some false)))
  = Some (ESP_ERR_TIMEOUT, Released).
Proof. split; vm_compute; reflexivity. Qed.

(** C7. For every feature-report request whose transfer completes within
    the wait, a stall returns [ESP_ERR_NOT_SUPPORTED] and nothing else
    does: every other failed status returns [ESP_FAIL], a completed
    transfer [ESP_OK] or [ESP_ERR_INVALID_SIZE]. *)
Theorem stall_distinct_from_failure pf id buf size al sem :
  submits pf sem = true ->
  completes_in_time pf = true ->
  exists r s,
    get_hid_report pf id buf size al (entry_state sem) = Some (r, s) /\
    (final_status pf = USB_TRANSFER_STATUS_STALL -> err r = ESP_ERR_NOT_SUPPORTED) /\
    (final_status pf <> USB_TRANSFER_STATUS_STALL -> err r <> ESP_ERR_NOT_SUPPORTED) /\
    (final_status pf <> USB_TRANSFER_STATUS_STALL ->
     final_status pf <> USB_TRANSFER_STATUS_COMPLETED -> err r = ESP_FAIL).
Proof.
  intros Hsub Hin.
  destruct (get_hid_report_spec pf id buf size al sem Hsub)
    as (b & s1 & r & Hpost & Hrun & _ & Hstall & Hfail & Hdone).
  pose proof (completes_in_time_spec _ _ _ _ Hpost) as Hb. rewrite Hin in Hb. subst b.
  exists r, (log EvMutexGive (log EvFree s1)). split; [exact Hrun|].
  split; [|split].
  - intros Hs. rewrite (Hstall eq_refl Hs). reflexivity.
  - intros Hns.
    destruct (final_status pf) eqn:Hst;
      try (rewrite (Hfail eq_refl Hns ltac:(discriminate)); discriminate).
    destruct (Hdone eq_refl eq_refl) as [-> | ->]; discriminate.
  - intros Hns Hnc. rewrite (Hfail eq_refl Hns Hnc). reflexivity.
Qed.

Lemma stall_distinct_from_failure_witness :
  exists r s,
    get_hid_report (answering (Some 2%nat) USB_TRANSFER_STATUS_STALL) x09
      (repeat x00 64) 64 0 (entry_state None) = Some (r, s) /\
    err r = ESP_ERR_NOT_SUPPORTED.
Proof.
  destruct (stall_distinct_from_failure
              (answering (Some 2%nat) USB_TRANSFER_STATUS_STALL) x09 (repeat x00 64) 64 0
              None eq_refl eq_refl) as (r & s & Hrun & Hstall & _).
  exists r, s. split; [exact Hrun|]. apply Hstall. reflexivity.
Defined.

(** C8. A feature-report request that times out (no completion within the
    wait) returns to its caller exactly what a stalled one returns:
    [ESP_ERR_NOT_SUPPORTED], with the buffer and the length untouched. *)
Theorem timeout_reported_as_stall pf_timeout pf_stall id buf size al sem sem' :
  submits pf_timeout sem = true ->
  completes_in_time pf_timeout = false ->
  submits pf_stall sem' = true ->
  completes_in_time pf_stall = true ->
  final_status pf_stall = USB_TRANSFER_STATUS_STALL ->
  exists r s s',
    get_hid_report pf_timeout id buf size al (entry_state sem) = Some (r, s) /\
    get_hid_report pf_stall id buf size al (entry_state sem') = Some (r, s') /\
    r = {| err := ESP_ERR_NOT_SUPPORTED; buffer := buf; actual_length := al |}.
Proof.
  intros Hsub Hlate Hsub' Hin Hst.
  destruct (get_hid_report_spec pf_timeout id buf size al sem Hsub)
    as (b & s1 & r & Hpost & Hrun & Htimeout & _).
  pose proof (completes_in_time_spec _ _ _ _ Hpost) as Hb. rewrite Hlate in Hb. subst b.
  destruct (get_hid_report_spec pf_stall id buf size al sem' Hsub')
    as (b' & s1' & r' & Hpost' & Hrun' & _ & Hstall & _).
  pose proof (completes_in_time_spec _ _ _ _ Hpost') as Hb'. rewrite Hin in Hb'. subst b'.
  exists r, (log EvMutexGive (log EvFree s1)), (log EvMutexGive (log EvFree s1')).
  rewrite (Htimeout eq_refl) in *. rewrite (Hstall eq_refl Hst) in Hrun'.
  repeat split; assumption.
Qed.

Lemma timeout_reported_as_stall_witness :
  exists r s s',
    get_hid_report (answering None USB_TRANSFER_STATUS_COMPLETED) x09
      (repeat x00 64) 64 0 (entry_state None) = Some (r, s) /\
    get_hid_report (answering (Some 2%nat) USB_TRANSFER_STATUS_STALL) x09
      (repeat x00 64) 64 0 (entry_state None) = Some (r, s') /\
    r = {| err := ESP_ERR_NOT_SUPPORTED; buffer := repeat x00 64; actual_length := 0 |}.
Proof.
  apply (timeout_reported_as_stall
           (answering None USB_TRANSFER_STATUS_COMPLETED)
           (answering (Some 2%nat) USB_TRANSFER_STATUS_STALL)
           x09 (repeat x00 64) 64 0 None None); reflexivity.
Defined.

(** *** The validity flag *)

Lemma handle_result_valid os t cm :
  Parser.valid cm = true -> Parser.valid (handle_result os t cm) = true.
Proof.
  intros Hv. destruct t as [r|id r]; cbn [handle_result];
    destruct (_ && _); try exact Hv; apply ParserSpec.parse_report_valid, Hv.
Qed.

Lemma apply_step_valid cm st :
  Parser.valid cm = true -> Parser.valid (apply_step cm st) = true.
Proof.
  intros Hv. destruct st; cbn [apply_step].
  - apply ParserSpec.parse_report_valid, Hv.
  - apply handle_result_valid, Hv.
Qed.

Lemma run_steps_valid steps : forall cm,
  Parser.valid cm = true -> Parser.valid (run_steps steps cm) = true.
Proof.
  induction steps as [|st steps IH]; intros cm Hv; cbn [run_steps fold_left].
  - exact Hv.
  - apply IH, apply_step_valid, Hv.
Qed.

(** C3. The validity flag is false after initialisation; a decoder call
    that updates the snapshot, after any history, sets it; and whatever
    follows (transfers that time out, stall or fail, short payloads,
    unknown identifiers, further decodes) leaves it set. *)
Theorem valid_never_reverts (before after : list snapshot_step) os id data length :
  let cm := run_steps before Parser.apc_hid_parser_init in
  let r := Parser.apc_hid_parse_report os id data length None cm in
  Parser.updated r = true ->
  Parser.valid Parser.apc_hid_parser_init = false /\
  Parser.valid (Parser.current_metrics r) = true /\
  Parser.valid (run_steps after (Parser.current_metrics r)) = true.
Proof.
  cbv zeta. intros Hup.
  assert (Hv : Parser.valid
                 (Parser.current_metrics
                    (Parser.apc_hid_parse_report os id data length None
                       (run_steps before Parser.apc_hid_parser_init))) = true).
  { destruct data as [d|]; [|discriminate Hup].
    destruct (Z.eqb_spec length 0) as [->|Hlen].
    { rewrite ParserSpec.parse_report_empty in Hup. discriminate Hup. }
    destruct (ParserSpec.parse_report_unfold os id d length None
                (run_steps before Parser.apc_hid_parser_init) Hlen) as (Hu & Ht & Hc).
    cbv zeta in Hu, Ht, Hc. rewrite Hc, Ht. rewrite Hu in Hup. rewrite Hup.
    apply ParserSpec.mark_updated_valid. }
  split; [reflexivity|]. split; [exact Hv|].
  apply run_steps_valid, Hv.
Qed.

Lemma valid_never_reverts_witness :
  let os := {| Parser.xTaskGetTickCount := 500; Parser.portTICK_PERIOD_MS := 10 |} in
  let timeout := {| err := ESP_ERR_TIMEOUT; buffer := repeat x00 64; actual_length := 0 |} in
  let stall := {| err := ESP_ERR_NOT_SUPPORTED; buffer := repeat x00 64;
                  actual_length := 0 |} in
  let short := {| err := ESP_OK; buffer := [x0c; x64]; actual_length := 2 |} in
  let after := [TransferDone os (PushedRead timeout); TransferDone os (FeatureRequest x09 stall);
                TransferDone os (PushedRead short); DecoderCall os xee (Some [xee]) 1;
                DecoderCall os x16 None 0] in
  Parser.valid
    (run_steps after
       (Parser.current_metrics
          (Parser.apc_hid_parse_report os x0c (Some [x0c; x64; x10; x0e]) 4 None
             (run_steps [] Parser.apc_hid_parser_init)))) = true.
Proof.
  intros os timeout stall short after.
  apply (valid_never_reverts [] after os x0c (Some [x0c; x64; x10; x0e]) 4).
  reflexivity.
Defined.

End UsbHostSpec.

(** ** Further properties of the report decoder *)

Module ParserLaws.
Import Parser ParserSpec.

(** Unfolds record updates and projections and nothing of what is stored
    in the fields. *)
Ltac norm_records :=
  cbv -[float_of_int float_div to_uint16 to_int16 to_uint32 le16 byte_at strncpy snprintf
        table_entry fmt_d fmt_0d String.append apc_hid_format_status bit_set
        Z.mul Z.leb Z.ltb Z.sub xTaskGetTickCount portTICK_PERIOD_MS].

(** *** Decoding the same report twice *)

Lemma parse_switch_updated_indep id d length t t' :
  fst (parse_switch id d length t) = fst (parse_switch id d length t').
Proof. destruct id; cbn [parse_switch]; split_ifs; reflexivity. Qed.

Lemma parse_switch_twice os id d length t :
  fst (parse_switch id d length t) = true ->
  mark_updated os
    (snd (parse_switch id d length (mark_updated os (snd (parse_switch id d length t)))))
  = mark_updated os (snd (parse_switch id d length t)).
Proof.
  destruct id; cbn [parse_switch]; try (intros H; discriminate H);
    split_ifs; cbn [fst snd]; intros H; try discriminate H;
    destruct t; norm_records; reflexivity.
Qed.

(** X1. Decoding is idempotent: a second call with the same report at the
    same tick, on the structures the first call left, returns the same
    flag and leaves both structures as the first call left them. *)
Theorem decode_idempotent os id data length m cm :
  let r1 := apc_hid_parse_report os id data length m cm in
  apc_hid_parse_report os id data length (metrics r1) (current_metrics r1) = r1.
Proof.
  cbv zeta.
  destruct (updated (apc_hid_parse_report os id data length m cm)) eqn:Hup.
  2:{ rewrite (parse_report_not_updated _ _ _ _ _ _ Hup) in *.
      cbn [metrics current_metrics].
      apply parse_report_not_updated. exact Hup. }
  revert Hup. unfold apc_hid_parse_report.
  destruct data as [d|]; [|discriminate].
  destruct (length =? 0); [discriminate|].
  pose proof (parse_switch_twice os id d length (target_of m cm)) as Htw.
  pose proof (parse_switch_updated_indep id d length
                (mark_updated os (snd (parse_switch id d length (target_of m cm))))
                (target_of m cm)) as Hind.
  destruct (parse_switch id d length (target_of m cm)) as [u t1].
  cbn [fst snd] in *.
  destruct m as [m0|]; cbn [updated metrics current_metrics target_of]; intros ->;
    specialize (Htw eq_refl);
    destruct (parse_switch id d length (mark_updated os t1)) as [u2 t2];
    cbn [fst snd] in *; subst u2; rewrite Htw; reflexivity.
Qed.

(** *** [apc_hid_format_status] in any buffer *)

Lemma substring_length n : forall s,
  String.length (substring 0 n s) = Nat.min n (String.length s).
Proof.
  induction n as [|n IH]; intros [|c s]; cbn; try reflexivity.
  rewrite IH. reflexivity.
Qed.

Lemma substring_all n : forall s,
  (String.length s <= n)%nat -> substring 0 n s = s.
Proof.
  induction n as [|n IH]; intros [|c s]; cbn; intros H; try reflexivity; try lia.
  rewrite IH by lia. reflexivity.
Qed.

Lemma append_length (a b : string) :
  String.length (a ++ b) = (String.length a + String.length b)%nat.
Proof. induction a as [|c a IH]; cbn; [reflexivity|]. rewrite IH. reflexivity. Qed.

Lemma strlen_nonneg s : 0 <= strlen s.
Proof. unfold strlen. lia. Qed.

(** [strncat] with the bound the routine passes never leaves more than
    [buffer_size - 1] characters. *)
Lemma strncat_bounded dst src buffer_size :
  buffer_size < 2 ^ 32 ->
  strlen dst <= buffer_size - 1 ->
  strlen (strncat dst src (to_size_t (buffer_size - strlen dst - 1))) <= buffer_size - 1.
Proof.
  intros Hmax Hlen. pose proof (strlen_nonneg dst) as H0.
  unfold to_size_t. rewrite Z.mod_small by lia.
  unfold strncat, strlen in *. rewrite append_length, substring_length. lia.
Qed.

(** ... and appends all of [src] when there is room for it. *)
Lemma strncat_fits dst src buffer_size :
  buffer_size < 2 ^ 32 ->
  strlen dst + strlen src <= buffer_size - 1 ->
  strncat dst src (to_size_t (buffer_size - strlen dst - 1)) = (dst ++ src)%string.
Proof.
  intros Hmax Hlen. pose proof (strlen_nonneg dst) as H0.
  pose proof (strlen_nonneg src) as H1.
  unfold to_size_t. rewrite Z.mod_small by lia.
  unfold strncat, strlen in *. rewrite substring_all by lia. reflexivity.
Qed.

Lemma cat_flag_bounded flag token buffer_size buffer :
  buffer_size < 2 ^ 32 ->
  strlen buffer <= buffer_size - 1 ->
  strlen (cat_flag flag token buffer_size buffer) <= buffer_size - 1.
Proof.
  intros Hmax Hlen. unfold cat_flag. destruct flag; [|exact Hlen].
  destruct (0 <? strlen buffer); apply strncat_bounded; auto.
  apply strncat_bounded; auto.
Qed.

(** X4. [apc_hid_format_status] never produces more than
    [buffer_size - 1] characters, for every buffer size from 1 up and
    every combination of flags: the terminating NUL always fits. *)
Theorem format_status_fits_buffer st buffer_size :
  1 <= buffer_size < 2 ^ 32 ->
  strlen (apc_hid_format_status st buffer_size) <= buffer_size - 1.
Proof.
  intros [Hmin Hmax]. unfold apc_hid_format_status. cbv zeta.
  set (b0 := if online st then _ else _).
  assert (H0 : strlen b0 <= buffer_size - 1).
  { subst b0. destruct (online st); [|destruct (discharging st)];
      try (apply strncat_bounded; [exact Hmax|cbn; lia]). cbn. lia. }
  set (b1 := cat_flag (charging st) _ _ b0).
  assert (H1 : strlen b1 <= buffer_size - 1) by (apply cat_flag_bounded; assumption).
  set (b2 := cat_flag (low_battery st) _ _ b1).
  assert (H2 : strlen b2 <= buffer_size - 1) by (apply cat_flag_bounded; assumption).
  set (b3 := cat_flag (overload st) _ _ b2).
  assert (H3 : strlen b3 <= buffer_size - 1) by (apply cat_flag_bounded; assumption).
  set (b4 := cat_flag (replace_battery st) _ _ b3).
  assert (H4 : strlen b4 <= buffer_size - 1) by (apply cat_flag_bounded; assumption).
  set (b5 := cat_flag (boost st) _ _ b4).
  assert (H5 : strlen b5 <= buffer_size - 1) by (apply cat_flag_bounded; assumption).
  set (b6 := cat_flag (trim st) _ _ b5).
  assert (H6 : strlen b6 <= buffer_size - 1) by (apply cat_flag_bounded; assumption).
  destruct (strlen b6 =? 0) eqn:E; [|exact H6].
  apply Z.eqb_eq in E.
  replace (to_size_t (buffer_size - 1)) with (to_size_t (buffer_size - strlen b6 - 1))
    by (rewrite E; f_equal; lia).
  apply strncat_bounded; [exact Hmax|lia].
Qed.

Lemma format_status_fits_buffer_witness :
  strlen (apc_hid_format_status
            {| online := true; discharging := false; charging := true; low_battery := true;
               overload := true; replace_battery := true; boost := true; trim := true |} 8)
  <= 8 - 1.
Proof. apply format_status_fits_buffer. lia. Defined.

(** With room for the token and its separator a block appends both in
    full, whatever the exact size of the buffer. *)
Lemma cat_flag_roomy flag token buffer_size buffer :
  buffer_size < 2 ^ 32 ->
  strlen buffer + 1 + strlen token <= buffer_size - 1 ->
  cat_flag flag token buffer_size buffer
  = (if flag
     then if 0 <? strlen buffer
          then String.append (String.append buffer " ") token
          else String.append buffer token
     else buffer) /\
  strlen (cat_flag flag token buffer_size buffer) <= strlen buffer + 1 + strlen token.
Proof.
  intros Hmax Hroom. pose proof (strlen_nonneg buffer) as H0.
  pose proof (strlen_nonneg token) as H1.
  unfold cat_flag. destruct flag; [|split; [reflexivity|lia]].
  destruct (0 <? strlen buffer).
  - rewrite (strncat_fits buffer " " buffer_size) by (cbn; lia).
    rewrite strncat_fits.
    + split; [reflexivity|]. unfold strlen. rewrite !append_length. cbn. lia.
    + exact Hmax.
    + unfold strlen in *. rewrite append_length. cbn. lia.
  - rewrite strncat_fits by lia.
    split; [reflexivity|]. unfold strlen. rewrite append_length. lia.
Qed.

Lemma format_status_any_size st buffer_size :
  30 <= buffer_size < 2 ^ 32 ->
  apc_hid_format_status st buffer_size = apc_hid_format_status st sizeof_status_string.
Proof.
  intros [Hmin Hmax]. unfold apc_hid_format_status, sizeof_status_string. cbv zeta.
  assert (H64 : 64 < 2 ^ 32) by reflexivity.
  assert (E0 : (if online st
                then strncat "" "OL" (to_size_t (buffer_size - strlen "" - 1))
                else if discharging st
                     then strncat "" "OB" (to_size_t (buffer_size - strlen "" - 1))
                     else ""%string)
               = (if online st
                  then strncat "" "OL" (to_size_t (64 - strlen "" - 1))
                  else if discharging st
                       then strncat "" "OB" (to_size_t (64 - strlen "" - 1))
                       else ""%string) /\
               strlen (if online st
                       then strncat "" "OL" (to_size_t (64 - strlen "" - 1))
                       else if discharging st
                            then strncat "" "OB" (to_size_t (64 - strlen "" - 1))
                            else ""%string) <= 2).
  { destruct (online st); [|destruct (discharging st)];
      rewrite ?strncat_fits by (try assumption; cbn; lia); cbn; split; (reflexivity || lia). }
  destruct E0 as [-> L0].
  set (b0 := if online st then _ else _) in *.
  destruct (cat_flag_roomy (charging st) "CHRG" buffer_size b0 Hmax ltac:(cbn; lia))
    as [E1 _].
  destruct (cat_flag_roomy (charging st) "CHRG" 64 b0 H64 ltac:(cbn; lia)) as [E1' L1].
  rewrite E1, <- E1'. clear E1 E1'. cbn [strlen String.length Z.of_nat] in L1.
  set (b1 := cat_flag (charging st) _ 64 b0) in *.
  destruct (cat_flag_roomy (low_battery st) "LB" buffer_size b1 Hmax ltac:(cbn; lia))
    as [E2 _].
  destruct (cat_flag_roomy (low_battery st) "LB" 64 b1 H64 ltac:(cbn; lia)) as [E2' L2].
  rewrite E2, <- E2'. clear E2 E2'.
  set (b2 := cat_flag (low_battery st) _ 64 b1) in *.
  destruct (cat_flag_roomy (overload st) "OVER" buffer_size b2 Hmax ltac:(cbn in *; lia))
    as [E3 _].
  destruct (cat_flag_roomy (overload st) "OVER" 64 b2 H64 ltac:(cbn in *; lia))
    as [E3' L3].
  rewrite E3, <- E3'. clear E3 E3'.
  set (b3 := cat_flag (overload st) _ 64 b2) in *.
  destruct (cat_flag_roomy (replace_battery st) "RB" buffer_size b3 Hmax
              ltac:(cbn in *; lia)) as [E4 _].
  destruct (cat_flag_roomy (replace_battery st) "RB" 64 b3 H64 ltac:(cbn in *; lia))
    as [E4' L4].
  rewrite E4, <- E4'. clear E4 E4'.
  set (b4 := cat_flag (replace_battery st) _ 64 b3) in *.
  destruct (cat_flag_roomy (boost st) "BOOST" buffer_size b4 Hmax ltac:(cbn in *; lia))
    as [E5 _].
  destruct (cat_flag_roomy (boost st) "BOOST" 64 b4 H64 ltac:(cbn in *; lia))
    as [E5' L5].
  rewrite E5, <- E5'. clear E5 E5'.
  set (b5 := cat_flag (boost st) _ 64 b4) in *.
  destruct (cat_flag_roomy (trim st) "TRIM" buffer_size b5 Hmax ltac:(cbn in *; lia))
    as [E6 _].
  destruct (cat_flag_roomy (trim st) "TRIM" 64 b5 H64 ltac:(cbn in *; lia))
    as [E6' L6].
  rewrite E6, <- E6'. clear E6 E6'.
  set (b6 := cat_flag (trim st) _ 64 b5) in *.
  destruct (strlen b6 =? 0) eqn:E; [|reflexivity].
  apply Z.eqb_eq in E.
  replace (to_size_t (buffer_size - 1)) with (to_size_t (buffer_size - strlen b6 - 1))
    by (rewrite E; f_equal; lia).
  replace (to_size_t (64 - 1)) with (to_size_t (64 - strlen b6 - 1))
    by (rewrite E; f_equal; lia).
  rewrite !strncat_fits by (try assumption; cbn; lia). reflexivity.
Qed.

Lemma format_status_tokens st :
  apc_hid_format_status st sizeof_status_string = status_string_of_tokens (status_tokens st).
Proof. destruct st as [[] [] [] [] [] [] [] []]; vm_compute; reflexivity. Qed.

(** X3. In every buffer of 30 bytes or more, the snapshot's 64 among
    them, [apc_hid_format_status] writes the active flags as tokens in
    the fixed order (online or else on battery, charging, low battery,
    overload, replace battery, boost, trim) joined by single spaces, and
    "UNKNOWN" when no token is active; nothing is cut off. *)
Theorem format_status_is_token_list st buffer_size :
  30 <= buffer_size < 2 ^ 32 ->
  apc_hid_format_status st buffer_size = status_string_of_tokens (status_tokens st).
Proof.
  intros Hsize. rewrite (format_status_any_size st buffer_size Hsize).
  apply format_status_tokens.
Qed.

Lemma format_status_is_token_list_witness :
  apc_hid_format_status
    {| online := false; discharging := true; charging := false; low_battery := true;
       overload := false; replace_battery := true; boost := false; trim := false |} 30
  = "OB LB RB"%string.
Proof.
  rewrite format_status_is_token_list by lia. reflexivity.
Defined.

(** *** Bytes and 16-bit values *)

Lemma u8_range b : 0 <= u8 b < 256.
Proof.
  unfold u8. pose proof (Byte.to_N_bounded b) as H. lia.
Qed.

Lemma byte_at_range d i : 0 <= byte_at d i < 256.
Proof. apply u8_range. Qed.

Lemma lor_shiftl_8 a b :
  0 <= a < 256 -> 0 <= b -> Z.lor a (Z.shiftl b 8) = a + 256 * b.
Proof.
  intros Ha Hb.
  assert (Hland : Z.land a (Z.shiftl b 8) = 0).
  { apply Z.bits_inj'. intros n Hn. rewrite Z.land_spec, Z.bits_0.
    destruct (Z.lt_ge_cases n 8) as [Hlt|Hge].
    - rewrite Z.shiftl_spec_low by lia. apply andb_false_r.
    - assert (Z.testbit a n = false) as ->; [|reflexivity].
      destruct (Z.eq_dec a 0) as [->|Hnz]; [apply Z.bits_0|].
      apply Z.bits_above_log2; [lia|].
      apply Z.lt_le_trans with 8; [|exact Hge].
      apply Z.log2_lt_pow2; lia. }
  rewrite <- Z.lxor_lor by exact Hland.
  rewrite <- Z.add_nocarry_lxor by exact Hland.
  rewrite Z.shiftl_mul_pow2 by lia. lia.
Qed.

(** The 16-bit value of two payload bytes is little-endian, and the
    conversion to [uint16_t] changes nothing. *)
Lemma le16_value d i :
  to_uint16 (le16 d i) = byte_at d i + 256 * byte_at d (S i) /\
  0 <= to_uint16 (le16 d i) <= 65535.
Proof.
  pose proof (byte_at_range d i) as Hlo. pose proof (byte_at_range d (S i)) as Hhi.
  unfold le16, to_uint16. rewrite lor_shiftl_8 by lia.
  rewrite Z.mod_small by lia. lia.
Qed.

(** X8. A decoded charge/runtime report stores the charge byte, at most
    255, and as runtime the little-endian value of bytes 2 and 3, at most
    65535 seconds. *)
Theorem charge_runtime_values os data length m cm :
  4 <= length ->
  let r := apc_hid_parse_report os x0c (Some data) length m cm in
  let charge := byte_at data 1 in
  let runtime := byte_at data 2 + 256 * byte_at data 3 in
  updated r = true /\
  battery_charge (result_target r) = float_of_int charge /\
  battery_runtime (result_target r) = float_of_int runtime /\
  0 <= charge <= 255 /\ 0 <= runtime <= 65535.
Proof.
  intros Hlen. cbv zeta.
  destruct (parse_report_unfold os x0c data length m cm ltac:(lia)) as (Hu & Ht & _).
  cbv zeta in Hu, Ht. rewrite Hu, Ht. clear Hu Ht.
  cbn [parse_switch]. destruct (Z.leb_spec 4 length) as [_|?]; [|lia].
  cbn [fst snd].
  destruct (le16_value data 2) as [Hv Hr]. rewrite Hv in *.
  pose proof (byte_at_range data 1).
  repeat split; try lia.
Qed.

Lemma charge_runtime_values_witness :
  let os := {| xTaskGetTickCount := 500; portTICK_PERIOD_MS := 10 |} in
  battery_runtime
    (result_target
       (apc_hid_parse_report os x0c (Some [x0c; x5f; x74; x09; x00]) 5 None
          apc_hid_parser_init))
  = float_of_int 2420.
Proof.
  intros os.
  apply (charge_runtime_values os [x0c; x5f; x74; x09; x00] 5 None apc_hid_parser_init).
  lia.
Defined.

(** X9. The shutdown timer is the two payload bytes read as a signed
    16-bit little-endian number: between -32768 and 32767, and -1 (timer
    not active) for the bytes [0xFF 0xFF]. *)
Theorem shutdown_timer_signed os data length m cm :
  3 <= length ->
  let r := apc_hid_parse_report os x15 (Some data) length m cm in
  let raw := byte_at data 1 + 256 * byte_at data 2 in
  let timer := if raw <? 32768 then raw else raw - 65536 in
  updated r = true /\
  shutdown_timer (result_target r) = float_of_int timer /\
  -32768 <= timer <= 32767 /\
  (byte_at data 1 = 255 -> byte_at data 2 = 255 -> timer = -1).
Proof.
  intros Hlen. cbv zeta.
  destruct (parse_report_unfold os x15 data length m cm ltac:(lia)) as (Hu & Ht & _).
  cbv zeta in Hu, Ht. rewrite Hu, Ht. clear Hu Ht.
  cbn [parse_switch]. destruct (Z.leb_spec 3 length) as [_|?]; [|lia].
  cbn [fst snd].
  pose proof (byte_at_range data 1) as H1. pose proof (byte_at_range data 2) as H2.
  assert (Hraw : to_int16 (le16 data 1)
                 = if byte_at data 1 + 256 * byte_at data 2 <? 32768
                   then byte_at data 1 + 256 * byte_at data 2
                   else byte_at data 1 + 256 * byte_at data 2 - 65536).
  { unfold le16, to_int16. rewrite lor_shiftl_8 by lia.
    destruct (Z.ltb_spec (byte_at data 1 + 256 * byte_at data 2) 32768).
    - rewrite Z.mod_small by lia. lia.
    - replace (byte_at data 1 + 256 * byte_at data 2 + 2 ^ 15)
        with (byte_at data 1 + 256 * byte_at data 2 - 2 ^ 15 + 1 * 2 ^ 16) by lia.
      rewrite Z.mod_add by lia. rewrite Z.mod_small by lia. lia. }
  split; [reflexivity|]. split.
  { unfold mark_updated.
    cbn [shutdown_timer set_status_string set_valid set_last_update_ms set_shutdown_timer].
    rewrite Hraw. reflexivity. }
  destruct (Z.ltb_spec (byte_at data 1 + 256 * byte_at data 2) 32768); split; lia.
Qed.

Lemma shutdown_timer_signed_witness :
  let os := {| xTaskGetTickCount := 500; portTICK_PERIOD_MS := 10 |} in
  shutdown_timer
    (result_target
       (apc_hid_parse_report os x15 (Some [x15; xff; xff]) 3 None apc_hid_parser_init))
  = float_of_int (-1).
Proof.
  intros os.
  apply (shutdown_timer_signed os [x15; xff; xff] 3 None apc_hid_parser_init).
  lia.
Defined.

(** *** Ordinals and their labels *)

Lemma table_entry_fits (table : list string) (n : nat) code :
  Forall (fun s => (String.length s <= n)%nat) table ->
  strncpy (table_entry table code) (Z.of_nat n) = table_entry table code.
Proof.
  intros Hall. unfold strncpy, table_entry. rewrite Nat2Z.id.
  apply substring_all.
  destruct (nth_in_or_default (Z.to_nat code) table EmptyString) as [Hin | ->].
  - rewrite Forall_forall in Hall. apply Hall, Hin.
  - cbn. lia.
Qed.

Ltac table_fits := repeat constructor; cbn; lia.

(** X6. For each of the five reports that carry an ordinal (beeper,
    self-test result, last transfer reason, input sensitivity, battery
    chemistry): an ordinal inside the table stores the table's label for
    it, whole; an ordinal outside the table updates nothing. *)
Theorem ordinal_reports os id data length m cm table field :
  categorical id = Some (table, field) ->
  2 <= length ->
  let r := apc_hid_parse_report os id (Some data) length m cm in
  let code := byte_at data 1 in
  (code < Z.of_nat (List.length table) ->
   updated r = true /\
   field (result_target r) = nth (Z.to_nat code) table EmptyString /\
   In (field (result_target r)) table) /\
  (Z.of_nat (List.length table) <= code ->
   r = {| updated := false; current_metrics := cm; metrics := m |}).
Proof.
  intros Hcat Hlen. cbv zeta.
  pose proof (byte_at_range data 1) as Hcode.
  split.
  - intros Hin.
    destruct (parse_report_unfold os id data length m cm ltac:(lia)) as (Hu & Ht & _).
    cbv zeta in Hu, Ht. rewrite Hu, Ht. clear Hu Ht.
    assert (Hmem : In (nth (Z.to_nat (byte_at data 1)) table EmptyString) table).
    { apply nth_In. lia. }
    destruct id; try discriminate Hcat; injection Hcat as <- <-;
      match type of Hin with
      | _ < ?n => let n' := eval vm_compute in n in change n with n' in Hin
      end; cbn [parse_switch];
      (destruct (Z.leb_spec 2 length) as [_|?]; [|lia]);
      match goal with
      | |- context [byte_at data 1 <? ?k] =>
          destruct (Z.ltb_spec (byte_at data 1) k) as [_|?]; [|lia]
      end;
      cbn [fst snd]; unfold mark_updated;
      cbn [beeper_status self_test_result last_transfer_reason input_sensitivity
           battery_type set_status_string set_valid set_last_update_ms
           set_beeper_status set_self_test_result set_last_transfer_reason
           set_input_sensitivity set_battery_type];
      match goal with
      | |- context [strncpy (table_entry ?t ?c) (?s - 1)] =>
          change (s - 1) with (Z.of_nat (Z.to_nat (s - 1)));
          rewrite (table_entry_fits t (Z.to_nat (s - 1)) c) by table_fits
      end;
      unfold table_entry; auto.
  - intros Hout. apply parse_not_updated. intros d t [= <-].
    destruct id; try discriminate Hcat; injection Hcat as <- <-;
      match type of Hout with
      | ?n <= _ => let n' := eval vm_compute in n in change n with n' in Hout
      end; cbn [parse_switch];
      (destruct (Z.leb_spec 2 length) as [_|?]; [|lia]);
      match goal with
      | |- context [byte_at data 1 <? ?k] =>
          destruct (Z.ltb_spec (byte_at data 1) k) as [?|_]; [lia|reflexivity]
      end.
Qed.

Lemma ordinal_reports_witness :
  let os := {| xTaskGetTickCount := 500; portTICK_PERIOD_MS := 10 |} in
  last_transfer_reason
    (result_target
       (apc_hid_parse_report os x21 (Some [x21; x0a]) 2 None apc_hid_parser_init))
  = "Input voltage out of range"%string /\
  apc_hid_parse_report os x21 (Some [x21; x0b]) 2 None apc_hid_parser_init
  = {| updated := false; current_metrics := apc_hid_parser_init; metrics := None |}.
Proof.
  intros os. split.
  - apply (ordinal_reports os x21 [x21; x0a] 2 None apc_hid_parser_init reasons
             last_transfer_reason eq_refl ltac:(lia)).
    cbn. lia.
  - apply (ordinal_reports os x21 [x21; x0b] 2 None apc_hid_parser_init reasons
             last_transfer_reason eq_refl ltac:(lia)).
    cbn. lia.
Defined.

(** *** Reports that are read but not stored *)

(** X7. The full-charge-capacity report [0x0E] and the manufacture-date
    report [0x07] never change anything, whatever their payload and
    length; neither does an input-frequency report [0x36] whose value is
    zero. *)
Theorem reports_not_stored os id data length m cm :
  id = x0e \/ id = x07 \/ (id = x36 /\ byte_at data 1 = 0) ->
  apc_hid_parse_report os id (Some data) length m cm
  = {| updated := false; current_metrics := cm; metrics := m |}.
Proof.
  intros H. apply parse_not_updated. intros d t [= <-].
  destruct H as [-> | [-> | [-> Hz]]]; cbn [parse_switch]; try reflexivity.
  rewrite Hz. destruct (2 <=? length); reflexivity.
Qed.

Lemma reports_not_stored_witness :
  let os := {| xTaskGetTickCount := 500; portTICK_PERIOD_MS := 10 |} in
  apc_hid_parse_report os x36 (Some [x36; x00]) 2 None apc_hid_parser_init
  = {| updated := false; current_metrics := apc_hid_parser_init; metrics := None |}.
Proof.
  intros os. apply reports_not_stored. right. right. split; reflexivity.
Defined.

(** X10. A sensitivity-adjustment report [0x34] of two bytes or more
    reports an update although it stores no measurement: the structure
    gets a new time stamp, the validity flag and a rebuilt status string,
    and nothing else changes. *)
Theorem adjustment_report_only_stamps os data length m cm :
  2 <= length ->
  let r := apc_hid_parse_report os x34 (Some data) length m cm in
  let t := target_of m cm in
  updated r = true /\
  result_target r
  = set_status_string (apc_hid_format_status (status t) sizeof_status_string)
      (set_valid true
         (set_last_update_ms (to_uint32 (xTaskGetTickCount os * portTICK_PERIOD_MS os)) t)).
Proof.
  intros Hlen. cbv zeta.
  destruct (parse_report_unfold os x34 data length m cm ltac:(lia)) as (Hu & Ht & _).
  cbv zeta in Hu, Ht. rewrite Hu, Ht. clear Hu Ht.
  cbn [parse_switch]. destruct (Z.leb_spec 2 length) as [_|?]; [|lia].
  cbn [fst snd]. split; reflexivity.
Qed.

Lemma adjustment_report_only_stamps_witness :
  let os := {| xTaskGetTickCount := 500; portTICK_PERIOD_MS := 10 |} in
  let r := apc_hid_parse_report os x34 (Some [x34; x01]) 2 None apc_hid_parser_init in
  valid (result_target r) = true /\ last_update_ms (result_target r) = 5000.
Proof.
  intros os r. subst r.
  destruct (adjustment_report_only_stamps os [x34; x01] 2 None apc_hid_parser_init
              ltac:(lia)) as [_ ->].
  split; reflexivity.
Defined.

End ParserLaws.

(** ** Further properties of the snapshot *)

Module SnapshotLaws.
Import Parser ParserSpec UsbHost UsbHostSpec.

(** *** Invariants of the snapshot over any history *)

(** A property kept by every decoder call on the snapshot is kept by every
    step and so by every history. *)
Lemma run_steps_invariant (P : ups_metrics_t -> Prop) :
  (forall os id data length cm,
      P cm -> P (current_metrics (apc_hid_parse_report os id data length None cm))) ->
  forall steps cm, P cm -> P (run_steps steps cm).
Proof.
  intros Hcall steps. induction steps as [|st steps IH]; intros cm Hcm;
    cbn [run_steps fold_left]; [exact Hcm|].
  apply IH. destruct st as [os id data length | os [r | id r]];
    cbn [apply_step handle_result]; try apply Hcall; try assumption;
    destruct (_ && _); try apply Hcall; assumption.
Qed.

(** What a call on the snapshot leaves in it. *)
Lemma parse_report_current os id data length cm :
  let r := apc_hid_parse_report os id data length None cm in
  current_metrics r = cm \/
  exists d, data = Some d /\
            fst (parse_switch id d length cm) = true /\
            current_metrics r = mark_updated os (snd (parse_switch id d length cm)).
Proof.
  cbv zeta. unfold apc_hid_parse_report.
  destruct data as [d|]; [|left; reflexivity].
  destruct (length =? 0); [left; reflexivity|].
  cbn [target_of].
  pose proof (parse_switch_not_updated id d length cm) as Hno.
  destruct (parse_switch id d length cm) as [[] t'] eqn:Hsw; cbn [fst snd] in *.
  - right. exists d. rewrite Hsw. auto.
  - left. cbn [current_metrics]. auto.
Qed.

Lemma snapshot_status_string steps :
  let cm := run_steps steps apc_hid_parser_init in
  valid cm = true ->
  status_string cm = apc_hid_format_status (status cm) sizeof_status_string.
Proof.
  cbv zeta.
  apply (run_steps_invariant
           (fun cm => valid cm = true ->
                      status_string cm
                      = apc_hid_format_status (status cm) sizeof_status_string)).
  - intros os id data length cm Hcm.
    destruct (parse_report_current os id data length cm) as [-> | (d & _ & _ & ->)];
      [exact Hcm|].
    intros _. reflexivity.
  - discriminate.
Qed.

(** X2. Whenever the snapshot is valid, its status string is the
    formatting of its status flags: no history of decoder calls and
    transfer results lets the two drift apart. *)
Theorem status_string_follows_flags steps :
  let cm := run_steps steps apc_hid_parser_init in
  valid cm = true ->
  status_string cm = apc_hid_format_status (status cm) sizeof_status_string.
Proof. exact (snapshot_status_string steps). Qed.

Lemma status_string_follows_flags_witness :
  let os := {| xTaskGetTickCount := 500; portTICK_PERIOD_MS := 10 |} in
  let cm := run_steps [DecoderCall os x16 (Some [x16; x05]) 2;
                       DecoderCall os x0c (Some [x0c; x64; x10; x0e]) 4;
                       DecoderCall os x06 (Some [x06; x00; x00; x01]) 4]
              apc_hid_parser_init in
  status_string cm = apc_hid_format_status (status cm) sizeof_status_string.
Proof.
  intros os cm.
  apply (status_string_follows_flags
           [DecoderCall os x16 (Some [x16; x05]) 2;
            DecoderCall os x0c (Some [x0c; x64; x10; x0e]) 4;
            DecoderCall os x06 (Some [x06; x00; x00; x01]) 4]).
  reflexivity.
Defined.

Lemma parse_switch_never_written id d length t :
  let t' := snd (parse_switch id d length t) in
  output_voltage t' = output_voltage t /\
  shutdown_delay t' = shutdown_delay t /\
  driver_name t' = driver_name t /\
  driver_state t' = driver_state t /\
  driver_version t' = driver_version t /\
  power_failure_status t' = power_failure_status t.
Proof.
  destruct id; cbn [parse_switch]; split_ifs; cbn [snd]; repeat split.
Qed.

Lemma snapshot_fixed_fields steps :
  let cm := run_steps steps apc_hid_parser_init in
  output_voltage cm = 0%Q /\
  shutdown_delay cm = 0%Q /\
  driver_name cm = "esp32-usb-hid"%string /\
  driver_state cm = "running"%string /\
  driver_version cm = "1.0.0"%string /\
  power_failure_status cm = "OK"%string.
Proof.
  cbv zeta.
  apply (run_steps_invariant
           (fun cm => output_voltage cm = 0%Q /\
                      shutdown_delay cm = 0%Q /\
                      driver_name cm = "esp32-usb-hid"%string /\
                      driver_state cm = "running"%string /\
                      driver_version cm = "1.0.0"%string /\
                      power_failure_status cm = "OK"%string)).
  - intros os id data length cm Hcm.
    destruct (parse_report_current os id data length cm) as [-> | (d & _ & _ & ->)];
      [exact Hcm|].
    pose proof (parse_switch_never_written id d length cm) as Hnw. cbv zeta in Hnw.
    destruct Hnw as (H1 & H2 & H3 & H4 & H5 & H6).
    destruct Hcm as (G1 & G2 & G3 & G4 & G5 & G6).
    unfold mark_updated.
    cbn [output_voltage shutdown_delay driver_name driver_state driver_version
         power_failure_status set_status_string set_valid set_last_update_ms].
    repeat split; congruence.
  - repeat split.
Qed.

(** X5. No report ever writes the output voltage, the shutdown delay, the
    driver name, state and version or the power-failure status: after any
    history they are what [apc_hid_parser_init] made them. *)
Theorem fields_never_decoded steps :
  let cm := run_steps steps apc_hid_parser_init in
  output_voltage cm = 0%Q /\
  shutdown_delay cm = 0%Q /\
  driver_name cm = "esp32-usb-hid"%string /\
  driver_state cm = "running"%string /\
  driver_version cm = "1.0.0"%string /\
  power_failure_status cm = "OK"%string.
Proof. exact (snapshot_fixed_fields steps). Qed.

End SnapshotLaws.

(** ** Further properties of the transfer coordinator *)

Module UsbHostLaws.
Import UsbHost UsbHostSpec.

(** *** What a routine appends to the trace *)

Lemma mutex_depth_app a b : mutex_depth (a ++ b) = mutex_depth a + mutex_depth b.
Proof.
  unfold mutex_depth. induction a as [|e a IH]; cbn [fold_right app]; [reflexivity|].
  rewrite IH. lia.
Qed.

Lemma live_transfers_app a b :
  live_transfers (a ++ b) = live_transfers a + live_transfers b.
Proof.
  unfold live_transfers. induction a as [|e a IH]; cbn [fold_right app]; [reflexivity|].
  rewrite IH. lia.
Qed.

Lemma effect_ret {A : Type} (a : A) dm dt : dm = 0 -> dt = 0 -> effect (ret a) dm dt.
Proof.
  intros -> -> s a' s' [= _ <-]. exists []. rewrite app_nil_r. auto.
Qed.

Lemma effect_bind {A B : Type} (c : M A) (k : A -> M B) dm1 dt1 dm dt :
  effect c dm1 dt1 ->
  (forall a, effect (k a) (dm - dm1) (dt - dt1)) ->
  effect (bind c k) dm dt.
Proof.
  intros Hc Hk s b s'. unfold bind.
  destruct (c s) as [[a s1]|] eqn:E; [|discriminate].
  intros Hrun. destruct (Hc _ _ _ E) as (x1 & T1 & M1 & L1).
  destruct (Hk a _ _ _ Hrun) as (x2 & T2 & M2 & L2).
  exists (x1 ++ x2). rewrite T2, T1, app_assoc, mutex_depth_app, live_transfers_app.
  repeat split; lia.
Qed.

Lemma effect_emit e : effect (emit e) (mutex_delta e) (transfer_delta e).
Proof.
  intros s a s' [= _ <-]. exists [e]. cbn. repeat split; lia.
Qed.

Lemma effect_start_transfer e :
  effect (start_transfer e) (mutex_delta e) (transfer_delta e).
Proof.
  intros s a s' [= _ <-]. exists [e]. cbn. repeat split; lia.
Qed.

Lemma effect_get_device : effect get_device 0 0.
Proof. intros s a s' [= _ <-]. exists []. rewrite app_nil_r. auto. Qed.

Lemma effect_get_transfer_done : effect get_transfer_done 0 0.
Proof. intros s a s' [= _ <-]. exists []. rewrite app_nil_r. auto. Qed.

Lemma effect_set_transfer_done v : effect (set_transfer_done v) 0 0.
Proof. intros s a s' [= _ <-]. exists []. cbn. rewrite app_nil_r. auto. Qed.

Lemma effect_transfer_status pf : effect (transfer_status pf) 0 0.
Proof. intros s a s' [= _ <-]. exists []. rewrite app_nil_r. auto. Qed.

Lemma effect_take_transfer_done : effect take_transfer_done 0 0.
Proof.
  intros s a s'. unfold take_transfer_done.
  destruct (transfer_done s) as [[]|]; intros [= _ <-]; cbn.
  - exists [EvCompletionObserved]. auto.
  - exists []. rewrite app_nil_r. auto.
  - exists []. rewrite app_nil_r. auto.
Qed.

Lemma effect_client_events pf : effect (usb_host_client_handle_events pf) 0 0.
Proof.
  intros s a s'. unfold usb_host_client_handle_events, transfer_callback.
  destruct (completes_at pf) as [k|]; [destruct (Nat.eqb k (client_polls s))|];
    intros [= _ <-]; cbn.
  - exists [EvClientEvents; EvCallback]. rewrite <- app_assoc. auto.
  - exists [EvClientEvents]. auto.
  - exists [EvClientEvents]. auto.
Qed.

Lemma effect_still_waiting {A : Type} dm dt : effect (@still_waiting A) dm dt.
Proof. intros s a s' H. discriminate H. Qed.

(** Decomposes a goal [effect c dm dt] along the structure of [c]. *)
Ltac effect_step :=
  lazymatch goal with
  | |- effect (bind (emit _) _) _ _ => eapply effect_bind; [apply effect_emit|intros ?]
  | |- effect (bind (start_transfer _) _) _ _ =>
      eapply effect_bind; [apply effect_start_transfer|intros ?]
  | |- effect (bind get_device _) _ _ => eapply effect_bind; [apply effect_get_device|intros ?]
  | |- effect (bind get_transfer_done _) _ _ =>
      eapply effect_bind; [apply effect_get_transfer_done|intros ?]
  | |- effect (bind (set_transfer_done _) _) _ _ =>
      eapply effect_bind; [apply effect_set_transfer_done|intros ?]
  | |- effect (bind (transfer_status _) _) _ _ =>
      eapply effect_bind; [apply effect_transfer_status|intros ?]
  | |- effect (bind take_transfer_done _) _ _ =>
      eapply effect_bind; [apply effect_take_transfer_done|intros ?]
  | |- effect (bind (usb_host_client_handle_events _) _) _ _ =>
      eapply effect_bind; [apply effect_client_events|intros ?]
  | |- effect (bind usb_host_lib_handle_events _) _ _ =>
      eapply effect_bind; [apply effect_emit|intros ?]
  | |- effect (bind usb_host_transfer_free _) _ _ =>
      eapply effect_bind; [apply effect_emit|intros ?]
  | |- effect (ret _) _ _ => apply effect_ret; reflexivity
  | |- effect still_waiting _ _ => apply effect_still_waiting
  | |- effect (if ?b then _ else _) _ _ => destruct b
  | |- effect (match ?x with _ => _ end) _ _ => destruct x
  end.

Lemma effect_weaken {A : Type} (c : M A) dm dt dm' dt' :
  effect c dm dt -> dm = dm' -> dt = dt' -> effect c dm' dt'.
Proof. intros H <- <-. exact H. Qed.

Lemma effect_ensure_transfer_done pf : effect (ensure_transfer_done pf) 0 0.
Proof. unfold ensure_transfer_done. repeat effect_step. Qed.

Lemma effect_wait_control pf : forall fuel waited_ms,
  effect (wait_control pf fuel waited_ms) 0 0.
Proof.
  induction fuel as [|fuel IH]; intros waited_ms; cbn [wait_control].
  - apply effect_still_waiting.
  - repeat effect_step. apply IH.
Qed.

Lemma effect_wait_interrupt pf : forall fuel waited_ms,
  effect (wait_interrupt pf fuel waited_ms) 0 0.
Proof.
  induction fuel as [|fuel IH]; intros waited_ms; cbn [wait_interrupt].
  - apply effect_still_waiting.
  - repeat effect_step. apply IH.
Qed.

Lemma effect_wait_late_callback pf : forall fuel,
  effect (wait_late_callback pf fuel) 0 (-1).
Proof.
  induction fuel as [|fuel IH]; cbn [wait_late_callback].
  - apply effect_still_waiting.
  - repeat effect_step.
    + apply effect_emit.
    + apply IH.
Qed.

Lemma effect_control_transfer_result pf buf size al b :
  effect (control_transfer_result pf buf size al b) 0 (-1).
Proof. unfold control_transfer_result. repeat effect_step. Qed.

Lemma effect_interrupt_transfer_result pf fuel buf al b :
  effect (interrupt_transfer_result pf fuel buf al b) 0 (-1).
Proof.
  unfold interrupt_transfer_result. repeat effect_step.
  eapply effect_bind; [apply effect_wait_late_callback|intros ?].
  repeat effect_step.
Qed.

Lemma effect_get_hid_report pf id buf size al :
  effect (get_hid_report pf id buf size al) 0 0.
Proof.
  unfold get_hid_report. repeat effect_step.
  all: try (eapply effect_bind; [apply effect_ensure_transfer_done|intros ?]).
  all: repeat effect_step.
  all: try (eapply effect_bind; [apply effect_wait_control|intros ?]).
  all: try (eapply effect_bind; [apply effect_control_transfer_result|intros ?]).
  all: repeat effect_step.
Qed.

Lemma effect_read_hid_report pf fuel buf size al :
  effect (read_hid_report pf fuel buf size al) 0 0.
Proof.
  unfold read_hid_report. repeat effect_step.
  all: try (eapply effect_bind; [apply effect_ensure_transfer_done|intros ?]).
  all: repeat effect_step.
  all: try (eapply effect_bind; [apply effect_wait_interrupt|intros ?]).
  all: try (eapply effect_bind; [apply effect_interrupt_transfer_result|intros ?]).
  all: repeat effect_step.
Qed.

(** X11. A feature-report request returns on every platform and from
    every state, with the transfer mutex where it found it and every
    transfer it allocated freed: no return path keeps the mutex or leaks
    a transfer. *)
Theorem get_hid_report_balanced pf id buf size al s0 :
  exists r s,
    get_hid_report pf id buf size al s0 = Some (r, s) /\
    mutex_depth (trace s) = mutex_depth (trace s0) /\
    live_transfers (trace s) = live_transfers (trace s0).
Proof.
  destruct (get_hid_report_returns pf id buf size al s0) as (r & s & Hrun).
  exists r, s. split; [exact Hrun|].
  destruct (effect_get_hid_report pf id buf size al _ _ _ Hrun) as (extra & -> & Hm & Hl).
  rewrite mutex_depth_app, live_transfers_app. lia.
Qed.

(** X12. Whenever a pushed-report read returns, from any state and on
    any platform, it has given the transfer mutex back if it took it and
    freed the transfer if it allocated one. *)
Theorem read_hid_report_balanced pf fuel buf size al s0 r s :
  read_hid_report pf fuel buf size al s0 = Some (r, s) ->
  mutex_depth (trace s) = mutex_depth (trace s0) /\
  live_transfers (trace s) = live_transfers (trace s0).
Proof.
  intros Hrun.
  destruct (effect_read_hid_report pf fuel buf size al _ _ _ Hrun) as (extra & -> & Hm & Hl).
  rewrite mutex_depth_app, live_transfers_app. lia.
Qed.

Lemma read_hid_report_balanced_witness :
  exists r s,
    read_hid_report (answering (Some 250%nat) USB_TRANSFER_STATUS_COMPLETED) 100
      (repeat x00 64) 64 0 (entry_state None) = Some (r, s) /\
    mutex_depth (trace s) = 0 /\ live_transfers (trace s) = 0.
Proof.
  destruct (read_hid_report (answering (Some 250%nat) USB_TRANSFER_STATUS_COMPLETED) 100
              (repeat x00 64) 64 0 (entry_state None)) as [[r s]|] eqn:Hrun;
    [|vm_compute in Hrun; discriminate Hrun].
  exists r, s. split; [reflexivity|].
  exact (read_hid_report_balanced _ _ _ _ _ _ _ _ Hrun).
Defined.

(** *** What a routine returns *)

Lemma returns_only_ret {A : Type} (a : A) (Q : A -> Prop) : Q a -> returns_only (ret a) Q.
Proof. intros H s a' s' [= <- _]. exact H. Qed.

Lemma returns_only_bind {A B : Type} (c : M A) (k : A -> M B) (Q : B -> Prop) :
  (forall a, returns_only (k a) Q) -> returns_only (bind c k) Q.
Proof.
  intros Hk s b s'. unfold bind. destruct (c s) as [[a s1]|]; [|discriminate].
  apply Hk.
Qed.

Lemma returns_only_seq {A B : Type} (c : M A) (k : A -> M B) (P : A -> Prop)
    (Q : B -> Prop) :
  returns_only c P -> (forall a, P a -> returns_only (k a) Q) -> returns_only (bind c k) Q.
Proof.
  intros Hc Hk s b s'. unfold bind. destruct (c s) as [[a s1]|] eqn:E; [|discriminate].
  apply Hk. exact (Hc _ _ _ E).
Qed.

(** X13. Whatever the platform and the state, a feature-report request
    that returns [ESP_OK] hands back between 1 and [buffer_size] bytes,
    the transfer's data after the 8-byte setup packet; with any other
    result the caller's buffer is untouched, and so is the length unless
    the result is [ESP_ERR_INVALID_SIZE]. *)
Theorem get_hid_report_output pf id buf size al s0 r s :
  get_hid_report pf id buf size al s0 = Some (r, s) ->
  (err r = ESP_OK ->
   0 < actual_length r <= size /\
   actual_length r = to_size_t (actual_num_bytes pf - 8) /\
   buffer r = memcpy buf (skipn 8 (data_buffer pf)) (actual_length r)) /\
  (err r <> ESP_OK -> buffer r = buf) /\
  (err r <> ESP_OK -> err r <> ESP_ERR_INVALID_SIZE -> actual_length r = al).
Proof.
  revert s0 r s.
  change (returns_only (get_hid_report pf id buf size al)
            (fun r =>
               (err r = ESP_OK ->
                0 < actual_length r <= size /\
                actual_length r = to_size_t (actual_num_bytes pf - 8) /\
                buffer r = memcpy buf (skipn 8 (data_buffer pf)) (actual_length r)) /\
               (err r <> ESP_OK -> buffer r = buf) /\
               (err r <> ESP_OK -> err r <> ESP_ERR_INVALID_SIZE -> actual_length r = al))).
  assert (Hfail : forall e, e <> ESP_OK ->
            returns_only (ret {| err := e; buffer := buf; actual_length := al |})
              (fun r =>
                 (err r = ESP_OK ->
                  0 < actual_length r <= size /\
                  actual_length r = to_size_t (actual_num_bytes pf - 8) /\
                  buffer r = memcpy buf (skipn 8 (data_buffer pf)) (actual_length r)) /\
                 (err r <> ESP_OK -> buffer r = buf) /\
                 (err r <> ESP_OK -> err r <> ESP_ERR_INVALID_SIZE ->
                  actual_length r = al))).
  { intros e He. apply returns_only_ret. cbn [err buffer actual_length].
    repeat split; auto; contradiction. }
  unfold get_hid_report.
  apply returns_only_bind; intros dev. destruct dev; cbn [negb];
    [|apply Hfail; discriminate].
  destruct (mutex_taken pf); cbn [negb]; [|apply Hfail; discriminate].
  apply returns_only_bind; intros _.
  destruct (Z.eqb_spec (alloc_err pf) ESP_OK) as [_|Ha]; cbn [negb];
    [|apply returns_only_bind; intros _; apply Hfail; exact Ha].
  apply returns_only_bind; intros _.
  apply returns_only_bind; intros sem_ok. destruct sem_ok; cbn [negb];
    [|do 2 (apply returns_only_bind; intros _); apply Hfail; discriminate].
  destruct (Z.eqb_spec (submit_err pf) ESP_OK) as [_|Hs]; cbn [negb];
    [|do 2 (apply returns_only_bind; intros _); apply Hfail; exact Hs].
  apply returns_only_bind; intros _.
  apply returns_only_bind; intros transfer_complete.
  eapply returns_only_seq;
    [|intros res Hres; apply returns_only_bind; intros _; apply returns_only_ret; exact Hres].
  unfold control_transfer_result.
  destruct transfer_complete.
  - apply returns_only_bind; intros st.
    apply returns_only_bind; intros _.
    destruct st; try (apply Hfail; discriminate).
    destruct (Z.ltb_spec 0 (to_size_t (actual_num_bytes pf - 8)));
      destruct (Z.leb_spec (to_size_t (actual_num_bytes pf - 8)) size); cbn [andb];
      apply returns_only_ret; cbn [err buffer actual_length];
      repeat split; auto; try contradiction; try discriminate;
      intros; exfalso; auto.
  - apply returns_only_bind; intros _. apply Hfail. discriminate.
Qed.

Lemma get_hid_report_output_witness :
  exists r s,
    get_hid_report (answering (Some 2%nat) USB_TRANSFER_STATUS_COMPLETED) x09
      (repeat x00 64) 64 0 (entry_state None) = Some (r, s) /\
    actual_length r = 3 /\ firstn 3 (buffer r) = [x09; x5a; x05].
Proof.
  destruct (get_hid_report (answering (Some 2%nat) USB_TRANSFER_STATUS_COMPLETED) x09
              (repeat x00 64) 64 0 (entry_state None)) as [[r s]|] eqn:Hrun;
    [|vm_compute in Hrun; discriminate Hrun].
  exists r, s. split; [reflexivity|].
  assert (Hok : err r = ESP_OK) by (vm_compute in Hrun; injection Hrun as <- _; reflexivity).
  destruct (get_hid_report_output _ _ _ _ _ _ _ _ Hrun) as [Hdata _].
  destruct (Hdata Hok) as (_ & Hlen & Hbuf).
  rewrite Hbuf, Hlen. split; reflexivity.
Defined.

(** *** The result of a submitted transfer *)



(** X15. A submitted feature-report request returns [ESP_OK] exactly
    when the callback was seen within the bounded wait, the transfer
    status is completed and the transfer brought between 1 and
    [buffer_size] bytes after the 8-byte setup packet. *)
Theorem get_hid_report_ok_iff pf id buf size al sem :
  submits pf sem = true ->
  exists r s,
    get_hid_report pf id buf size al (entry_state sem) = Some (r, s) /\
    (err r = ESP_OK <->
     completes_in_time pf = true /\
     final_status pf = USB_TRANSFER_STATUS_COMPLETED /\
     0 < to_size_t (actual_num_bytes pf - 8) <= size).
Proof.
  intros Hsub. rewrite (get_hid_report_submitted _ _ _ _ _ _ Hsub).
  set (s0 := submitted _).
  destruct (wait_control_spec max_polls pf wait_fuel 0 s0 max_polls_start wait_fuel_covers
              eq_refl eq_refl) as (b & s1 & Hrun & Hpost).
  unfold bind at 1. rewrite Hrun.
  pose proof (completes_in_time_spec _ _ _ _ Hpost) as Hb. rewrite <- Hb.
  destruct Hpost as (_ & _ & _ & Hrest).
  destruct b.
  - destruct Hrest as [Hcb _].
    unfold control_transfer_result, transfer_status, usb_host_transfer_free.
    unfold bind, emit, ret. rewrite Hcb.
    do 2 eexists. split; [reflexivity|].
    destruct (final_status pf); cbn [err];
      try (split; [discriminate|intros (_ & H & _); discriminate H]).
    destruct (Z.ltb_spec 0 (to_size_t (actual_num_bytes pf - 8)));
      destruct (Z.leb_spec (to_size_t (actual_num_bytes pf - 8)) size); cbn [andb err];
      (split;
       [intros He; try discriminate He; repeat split; try reflexivity; lia
       |intros (_ & _ & Hsz); try reflexivity; exfalso; lia]).
  - unfold control_transfer_result, usb_host_transfer_free.
    unfold bind, emit, ret.
    do 2 eexists. split; [reflexivity|]. cbn [err].
    split; [discriminate|intros (H & _); discriminate H].
Qed.

Lemma get_hid_report_ok_iff_witness :
  exists r s,
    get_hid_report (answering (Some 2%nat) USB_TRANSFER_STATUS_COMPLETED) x09
      (repeat x00 64) 64 0 (entry_state None) = Some (r, s) /\
    err r = ESP_OK.
Proof.
  destruct (get_hid_report_ok_iff (answering (Some 2%nat) USB_TRANSFER_STATUS_COMPLETED)
              x09 (repeat x00 64) 64 0 None eq_refl) as (r & s & Hrun & Hiff).
  exists r, s. split; [exact Hrun|]. apply Hiff. repeat split; vm_compute; congruence.
Defined.

(** X16. Every submitted feature-report request puts on the wire a
    class request to the interface, device to host, GET_REPORT, whose
    value selects report type 3 (Feature) in the high byte and the
    requested identifier in the low byte, for the HID interface and, for a
    buffer below 64 KiB, the buffer size as length. *)
Theorem get_report_request pf id buf size al sem :
  submits pf sem = true ->
  exists r s,
    get_hid_report pf id buf size al (entry_state sem) = Some (r, s) /\
    let setup := get_report_setup id size in
    In (EvSubmitControl setup) (trace s) /\
    bmRequestType setup = 0xA1 /\ bRequest setup = 0x01 /\
    wValue setup / 256 = 3 /\ wValue setup mod 256 = u8 id /\
    wIndex setup = HID_INTERFACE /\
    (0 <= size < 65536 -> wLength setup = size).
Proof.
  intros Hsub.
  destruct (get_hid_report_returns pf id buf size al (entry_state sem)) as (r & s & Hrun).
  exists r, s. split; [exact Hrun|]. cbv zeta.
  split; [|repeat split].
  - rewrite (get_hid_report_submitted _ _ _ _ _ _ Hsub) in Hrun.
    assert (Heff : effect
                     (transfer_complete <- wait_control pf wait_fuel 0 ;;
                      res <- control_transfer_result pf buf size al transfer_complete ;;
                      emit EvMutexGive ;;; ret res) (-1) (-1)).
    { eapply effect_bind; [apply effect_wait_control|intros ?].
      eapply effect_bind; [apply effect_control_transfer_result|intros ?].
      repeat effect_step. }
    destruct (Heff _ _ _ Hrun) as (extra & -> & _).
    cbn [submitted trace]. apply in_or_app. left. cbn. auto.
  - destruct id; vm_compute; reflexivity.
  - destruct id; vm_compute; reflexivity.
  - intros Hsize. cbn [get_report_setup wLength]. unfold to_uint16.
    apply Z.mod_small. lia.
Qed.

Lemma get_report_request_witness :
  exists r s,
    get_hid_report (answering (Some 2%nat) USB_TRANSFER_STATUS_COMPLETED) x31
      (repeat x00 64) 64 0 (entry_state None) = Some (r, s) /\
    In (EvSubmitControl {| bmRequestType := 0xA1; bRequest := 1; wValue := 0x331;
                           wIndex := 0; wLength := 64 |}) (trace s).
Proof.
  destruct (get_report_request (answering (Some 2%nat) USB_TRANSFER_STATUS_COMPLETED)
              x31 (repeat x00 64) 64 0 None eq_refl) as (r & s & Hrun & Hin & _).
  exists r, s. split; [exact Hrun|exact Hin].
Defined.

(** *** How long a request polls *)

Lemma polls_within_ret {A : Type} (a : A) p : polls_within (ret a) p.
Proof. intros s a' s' [= _ <-]. lia. Qed.

Lemma polls_within_bind {A B : Type} (c : M A) (k : A -> M B) p1 p2 p :
  polls_within c p1 -> (forall a, polls_within (k a) p2) -> (p1 + p2 <= p)%nat ->
  polls_within (bind c k) p.
Proof.
  intros Hc Hk Hp s b s'. unfold bind.
  destruct (c s) as [[a s1]|] eqn:E; [|discriminate].
  intros Hrun. pose proof (Hc _ _ _ E). pose proof (Hk a _ _ _ Hrun). lia.
Qed.

Lemma polls_within_quiet {A : Type} (c : M A) :
  (forall s a s', c s = Some (a, s') -> (client_polls s' <= client_polls s)%nat) ->
  polls_within c 0.
Proof. intros H s a s' Hrun. pose proof (H _ _ _ Hrun). lia. Qed.

Lemma polls_emit e : polls_within (emit e) 0.
Proof. apply polls_within_quiet. intros s a s' [= _ <-]. cbn. lia. Qed.

Lemma polls_start_transfer e : polls_within (start_transfer e) 0.
Proof. apply polls_within_quiet. intros s a s' [= _ <-]. cbn. lia. Qed.

Lemma polls_get_device : polls_within get_device 0.
Proof. apply polls_within_quiet. intros s a s' [= _ <-]. lia. Qed.

Lemma polls_ensure_transfer_done pf : polls_within (ensure_transfer_done pf) 0.
Proof.
  apply polls_within_quiet. intros s a s'.
  unfold ensure_transfer_done, bind, get_transfer_done, set_transfer_done, ret.
  destruct (transfer_done s); [|destruct (semaphore_created pf)];
    intros [= _ <-]; cbn; lia.
Qed.

Lemma polls_take_transfer_done : polls_within take_transfer_done 0.
Proof.
  apply polls_within_quiet. intros s a s'. unfold take_transfer_done.
  destruct (transfer_done s) as [[]|]; intros [= _ <-]; cbn; lia.
Qed.

Lemma polls_client_events pf : polls_within (usb_host_client_handle_events pf) 1.
Proof.
  intros s a s'. unfold usb_host_client_handle_events, transfer_callback.
  destruct (completes_at pf) as [k|]; [destruct (Nat.eqb k (client_polls s))|];
    intros [= _ <-]; cbn; lia.
Qed.

Lemma polls_wait_control pf (n : nat) : forall fuel waited_ms,
  waited_ms = max_wait_ms - poll_interval_ms * Z.of_nat n ->
  polls_within (wait_control pf fuel waited_ms) n.
Proof.
  induction n as [|n IH]; intros fuel waited_ms Hw;
    (destruct fuel as [|fuel]; [intros s a s' H; discriminate H|]); cbn [wait_control];
    unfold max_wait_ms, poll_interval_ms in *.
  - destruct (Z.ltb_spec waited_ms 2000); [lia|]. apply polls_within_ret.
  - destruct (Z.ltb_spec waited_ms 2000); [|lia].
    apply (polls_within_bind _ _ 0%nat (S n)); [apply polls_emit|intros _|lia].
    apply (polls_within_bind _ _ 1%nat n); [apply polls_client_events|intros _|lia].
    apply (polls_within_bind _ _ 0%nat n); [apply polls_take_transfer_done|intros taken|lia].
    destruct taken; [apply polls_within_ret|]. apply IH. lia.
Qed.

Lemma polls_control_transfer_result pf buf size al b :
  polls_within (control_transfer_result pf buf size al b) 0.
Proof.
  apply polls_within_quiet. intros s a s'.
  unfold control_transfer_result, transfer_status, usb_host_transfer_free, bind, emit, ret.
  destruct b; intros [= _ <-]; cbn; lia.
Qed.

(** A step that does not poll, in front of the rest. *)
Ltac quiet_then lem :=
  match goal with
  | |- polls_within (bind _ _) ?p =>
      apply (polls_within_bind _ _ 0%nat p); [apply lem|intros ?|lia]
  end.

Lemma polls_get_hid_report pf id buf size al :
  polls_within (get_hid_report pf id buf size al) max_polls.
Proof.
  unfold get_hid_report, usb_host_transfer_free.
  quiet_then polls_get_device.
  match goal with |- context [negb ?dev] => destruct dev end; cbn [negb];
    [|apply polls_within_ret].
  destruct (mutex_taken pf); cbn [negb]; [|apply polls_within_ret].
  quiet_then polls_emit.
  destruct (alloc_err pf =? ESP_OK); cbn [negb];
    [|quiet_then polls_emit; apply polls_within_ret].
  quiet_then polls_emit.
  quiet_then polls_ensure_transfer_done.
  match goal with |- context [negb ?ok] => destruct ok end; cbn [negb];
    [|do 2 quiet_then polls_emit; apply polls_within_ret].
  destruct (submit_err pf =? ESP_OK); cbn [negb];
    [|do 2 quiet_then polls_emit; apply polls_within_ret].
  quiet_then polls_start_transfer.
  apply (polls_within_bind _ _ max_polls 0%nat);
    [apply (polls_wait_control pf max_polls), max_polls_start|intros b|lia].
  quiet_then polls_control_transfer_result.
  quiet_then polls_emit.
  apply polls_within_ret.
Qed.

(** X17. A feature-report request is a bounded call: on every platform
    and from every state it returns after at most 200 rounds of client
    polling, the 2000 ms of its wait at 10 ms a round. *)
Theorem get_hid_report_bounded pf id buf size al s0 :
  exists r s,
    get_hid_report pf id buf size al s0 = Some (r, s) /\
    (client_polls s <= client_polls s0 + 200)%nat /\
    Z.of_nat 200 * poll_interval_ms = max_wait_ms.
Proof.
  destruct (get_hid_report_returns pf id buf size al s0) as (r & s & Hrun).
  exists r, s. split; [exact Hrun|]. split; [|reflexivity].
  exact (polls_get_hid_report pf id buf size al _ _ _ Hrun).
Qed.





End UsbHostLaws.

Module SessionSpec.
Import UsbHost UsbHostSpec Session.

(** ** Properties of the device session tracker *)

Lemma event_cb_consistent ev t :
  ups_connected t = (match ups_device t with Some _ => true | None => false end) ->
  let t' := fst (usb_host_client_event_cb ev t) in
  ups_connected t' = (match ups_device t' with Some _ => true | None => false end).
Proof.
  intros H. destruct ev as [address a | gone | other]; cbn [usb_host_client_event_cb].
  - destruct (negb _); [exact H|]. destruct (negb _); [exact H|].
    destruct (_ && _); [reflexivity|exact H].
  - destruct (ups_device t) as [dev|] eqn:E; cbn [fst]; [|rewrite E; exact H].
    destruct (gone =? dev); cbn [fst]; [reflexivity|rewrite E; exact H].
  - exact H.
Qed.

(** X20. After any sequence of attach and detach events the connected
    flag says exactly whether a device handle is held: [ups_connected] is
    true if and only if [ups_device] is not [NULL]. *)
Theorem connected_iff_device_held evs :
  let t := after_events evs no_session in
  usb_ups_is_connected t = (match ups_device t with Some _ => true | None => false end).
Proof.
  cbv zeta. unfold after_events, usb_ups_is_connected.
  assert (H : forall t,
             ups_connected t = (match ups_device t with Some _ => true | None => false end) ->
             let t' := fold_left (fun t ev => fst (usb_host_client_event_cb ev t)) evs t in
             ups_connected t'
             = (match ups_device t' with Some _ => true | None => false end)).
  { induction evs as [|ev evs IH]; intros t Ht; cbn [fold_left]; [exact Ht|].
    apply IH, event_cb_consistent, Ht. }
  apply H. reflexivity.
Qed.

(** X21. The handle the tracker holds always comes from an attach event
    of a device that could be opened, whose descriptor could be read and
    whose vendor and product identifiers are 051D:0002.  No other device
    ever becomes the session. *)
Theorem tracked_device_is_ups evs h :
  ups_device (after_events evs no_session) = Some h ->
  exists address a,
    In (USB_HOST_CLIENT_EVENT_NEW_DEV address a) evs /\
    dev_hdl a = h /\ is_ups a = true /\
    idVendor a = 0x051D /\ idProduct a = 0x0002.
Proof.
  unfold after_events.
  assert (H : forall t,
             ups_device (fold_left (fun t ev => fst (usb_host_client_event_cb ev t)) evs t)
             = Some h ->
             ups_device t = Some h \/
             exists address a,
               In (USB_HOST_CLIENT_EVENT_NEW_DEV address a) evs /\
               dev_hdl a = h /\ is_ups a = true /\
               idVendor a = 0x051D /\ idProduct a = 0x0002).
  { induction evs as [|ev evs IH]; intros t Ht; cbn [fold_left] in Ht; [left; exact Ht|].
    destruct (IH _ Ht) as [Hnow | (address & a & Hin & Hrest)].
    - destruct ev as [address a | gone | other]; cbn [usb_host_client_event_cb] in Hnow.
      + unfold is_ups. revert Hnow.
        destruct (Z.eqb_spec (open_err a) ESP_OK); cbn [negb fst]; [|left; assumption].
        destruct (Z.eqb_spec (descriptor_err a) ESP_OK); cbn [negb fst];
          [|left; assumption].
        destruct (Z.eqb_spec (idVendor a) APC_VID); cbn [andb fst]; [|left; assumption].
        destruct (Z.eqb_spec (idProduct a) APC_PID); cbn [andb fst]; [|left; assumption].
        cbn [ups_device]. intros [= Hh].
        right. exists address, a. cbn [In].
        rewrite e, e0, e1, e2. repeat split; auto.
      + revert Hnow. destruct (ups_device t) as [dev|] eqn:E; cbn [fst];
          [|intros Hnow; left; congruence].
        destruct (gone =? dev); cbn [fst ups_device]; [discriminate|].
        intros Hnow. left. congruence.
      + left. exact Hnow.
    - right. exists address, a. cbn [In]. auto. }
  intros Hh. destruct (H _ Hh) as [Hnone | Hex]; [discriminate Hnone|exact Hex].
Qed.

Lemma tracked_device_is_ups_witness :
  let ups := {| open_err := ESP_OK; dev_hdl := 7; descriptor_err := ESP_OK;
                idVendor := 0x051D; idProduct := 0x0002; claim_err := ESP_FAIL |} in
  let mouse := {| open_err := ESP_OK; dev_hdl := 9; descriptor_err := ESP_OK;
                  idVendor := 0x046D; idProduct := 0xC077; claim_err := ESP_OK |} in
  exists address a,
    In (USB_HOST_CLIENT_EVENT_NEW_DEV address a)
      [USB_HOST_CLIENT_EVENT_NEW_DEV 1 ups; USB_HOST_CLIENT_EVENT_NEW_DEV 2 mouse;
       USB_HOST_CLIENT_EVENT_DEV_GONE 9] /\
    dev_hdl a = 7 /\ is_ups a = true /\ idVendor a = 0x051D /\ idProduct a = 0x0002.
Proof.
  intros ups mouse.
  apply (tracked_device_is_ups
           [USB_HOST_CLIENT_EVENT_NEW_DEV 1 ups; USB_HOST_CLIENT_EVENT_NEW_DEV 2 mouse;
            USB_HOST_CLIENT_EVENT_DEV_GONE 9] 7).
  reflexivity.
Defined.

(** X22. The attach handler closes a device exactly when it opened it and
    it is not a readable UPS; a device that is not the UPS leaves the
    tracker as it was, and the UPS is tracked whether or not its
    interface could be claimed. *)
Theorem attach_closes_foreign_devices address a t :
  let res := usb_host_client_event_cb (USB_HOST_CLIENT_EVENT_NEW_DEV address a) t in
  (In (DeviceClose (dev_hdl a)) (snd res) <->
   open_err a = ESP_OK /\ is_ups a = false) /\
  (is_ups a = false -> fst res = t) /\
  (is_ups a = true ->
   fst res = {| ups_connected := true; ups_device := Some (dev_hdl a) |}).
Proof.
  cbv zeta. unfold is_ups. cbn [usb_host_client_event_cb].
  destruct (Z.eqb_spec (open_err a) ESP_OK) as [Ho|Ho];
    [destruct (descriptor_err a =? ESP_OK);
     [destruct (idVendor a =? APC_VID); [destruct (idProduct a =? APC_PID)|]|]|];
    cbn [negb andb fst snd];
    (split; [split; [intros Hin|intros [Ho' Hf]]|split; intros Hf]);
    try discriminate; try reflexivity; try contradiction; auto;
    try (cbn [In]; auto; fail);
    cbn [In] in Hin; intuition discriminate.
Qed.

Lemma attach_closes_foreign_devices_witness :
  let mouse := {| open_err := ESP_OK; dev_hdl := 9; descriptor_err := ESP_OK;
                  idVendor := 0x046D; idProduct := 0xC077; claim_err := ESP_OK |} in
  let t := {| ups_connected := true; ups_device := Some 7 |} in
  let res := usb_host_client_event_cb (USB_HOST_CLIENT_EVENT_NEW_DEV 2 mouse) t in
  In (DeviceClose 9) (snd res) /\ fst res = t.
Proof.
  intros mouse t res. subst res.
  destruct (attach_closes_foreign_devices 2 mouse t) as (Hclose & Hsame & _).
  split.
  - apply Hclose. split; reflexivity.
  - apply Hsame. reflexivity.
Defined.

(** X23. Once the tracked device is reported gone, both transfer
    routines return [ESP_ERR_INVALID_STATE] at once: no mutex is taken, no
    transfer is allocated or submitted, and the caller's buffer and length
    are untouched. *)
Theorem gone_device_refused t h pf id fuel buf size al sem tr :
  ups_device t = Some h ->
  let t' := fst (usb_host_client_event_cb (USB_HOST_CLIENT_EVENT_DEV_GONE h) t) in
  let s := coordinator_state t' sem tr in
  let refused := {| err := ESP_ERR_INVALID_STATE; buffer := buf; actual_length := al |} in
  usb_ups_is_connected t' = false /\
  get_hid_report pf id buf size al s = Some (refused, s) /\
  read_hid_report pf fuel buf size al s = Some (refused, s).
Proof.
  intros Hh. cbv zeta. cbn [usb_host_client_event_cb]. rewrite Hh, Z.eqb_refl.
  cbn [fst]. repeat split.
Qed.

Lemma gone_device_refused_witness :
  let t := {| ups_connected := true; ups_device := Some 7 |} in
  let t' := fst (usb_host_client_event_cb (USB_HOST_CLIENT_EVENT_DEV_GONE 7) t) in
  get_hid_report (answering (Some 2%nat) USB_TRANSFER_STATUS_COMPLETED) x09
    (repeat x00 64) 64 0 (coordinator_state t' None [])
  = Some ({| err := ESP_ERR_INVALID_STATE; buffer := repeat x00 64; actual_length := 0 |},
          coordinator_state t' None []).
Proof.
  intros t t'.
  apply (gone_device_refused t 7 (answering (Some 2%nat) USB_TRANSFER_STATUS_COMPLETED)
           x09 0%nat (repeat x00 64) 64 0 None [] eq_refl).
Defined.

End SessionSpec.

Module TaskSpec.
Import Parser ParserSpec UsbHost UsbHostSpec Task SnapshotLaws.

(** ** Properties of the loop of [usb_host_task] *)









(** *** The sweep *)

Lemma handle_result_status os id r cm :
  bears_status id = false ->
  status (handle_result os (FeatureRequest id r) cm) = status cm.
Proof.
  intros Hid. cbn [handle_result]. destruct (_ && _); [|reflexivity].
  destruct (parse_report_current os id (Some (buffer r)) (actual_length r) cm)
    as [-> | (d & [= <-] & _ & ->)]; [reflexivity|].
  rewrite mark_updated_status. apply parse_switch_status, Hid.
Qed.

Lemma sweep_status ids : forall answers cm,
  forallb (fun id => negb (bears_status id)) ids = true ->
  status (sweep ids answers cm) = status cm.
Proof.
  induction ids as [|id ids IH]; intros answers cm Hids; cbn [sweep]; [reflexivity|].
  cbn [forallb] in Hids. apply andb_prop in Hids as [Hid Hids].
  destruct answers as [|[os r] answers]; [reflexivity|].
  rewrite IH by exact Hids. apply handle_result_status.
  destruct (bears_status id); [discriminate Hid|reflexivity].
Qed.

Lemma sweep_valid ids : forall answers cm,
  valid cm = true -> valid (sweep ids answers cm) = true.
Proof.
  induction ids as [|id ids IH]; intros answers cm Hv; cbn [sweep]; [exact Hv|].
  destruct answers as [|[os r] answers]; [exact Hv|].
  apply IH, handle_result_valid, Hv.
Qed.

(** X25. A sweep of feature-report requests never changes the status
    flags of the snapshot, whatever the device answers to each of the 22
    requests: the flags only change through pushed reports.  And a valid
    snapshot stays valid through the sweep. *)
Theorem sweep_keeps_status answers cm :
  let cm' := sweep poll_reports answers cm in
  status cm' = status cm /\
  (valid cm = true -> valid cm' = true).
Proof.
  cbv zeta. split.
  - apply sweep_status. reflexivity.
  - apply sweep_valid.
Qed.

Lemma sweep_keeps_status_witness :
  let os := {| xTaskGetTickCount := 500; portTICK_PERIOD_MS := 10 |} in
  let ok := {| err := ESP_OK; buffer := [x09; x5a; x05]; actual_length := 3 |} in
  let cm := current_metrics
              (apc_hid_parse_report os x16 (Some [x16; x05]) 2 None apc_hid_parser_init) in
  valid (sweep poll_reports [(os, ok)] cm) = true.
Proof.
  intros os ok cm. apply (sweep_keeps_status [(os, ok)] cm). reflexivity.
Defined.



End TaskSpec.

Module MqttSpec.
Import Parser UsbHost Mqtt ParserLaws SnapshotLaws.

(** ** Properties of the publisher *)

Lemma u8_inj b b' : u8 b = u8 b' -> b = b'.
Proof.
  unfold u8. intros H. apply N2Z.inj in H.
  pose proof (Byte.of_to_N b) as E. pose proof (Byte.of_to_N b') as E'.
  rewrite H in E. congruence.
Qed.

Lemma hex_digit_nat_inj i j :
  (i < 16)%nat -> (j < 16)%nat ->
  hex_digit (Z.of_nat i) = hex_digit (Z.of_nat j) -> i = j.
Proof.
  intros Hi Hj.
  do 16 (destruct i as [|i];
         [do 16 (destruct j as [|j];
                 [vm_compute; intros H; first [reflexivity | discriminate H]|]);
          exfalso; lia|]).
  exfalso; lia.
Qed.

Lemma hex_digit_inj m n :
  0 <= m < 16 -> 0 <= n < 16 -> hex_digit m = hex_digit n -> m = n.
Proof.
  intros Hm Hn H.
  rewrite <- (Z2Nat.id m), <- (Z2Nat.id n) in H |- * by lia.
  f_equal. apply hex_digit_nat_inj; [lia|lia|exact H].
Qed.

Lemma fmt_02x_inj b b' : fmt_02x b = fmt_02x b' -> b = b'.
Proof.
  unfold fmt_02x. intros [= Hhi Hlo].
  pose proof (Byte.to_N_bounded b) as Hb. pose proof (Byte.to_N_bounded b') as Hb'.
  assert (R : 0 <= u8 b < 256) by (unfold u8; lia).
  assert (R' : 0 <= u8 b' < 256) by (unfold u8; lia).
  apply hex_digit_inj in Hhi;
    [|split; [apply Z.div_pos; lia|apply Z.div_lt_upper_bound; lia]
     |split; [apply Z.div_pos; lia|apply Z.div_lt_upper_bound; lia]].
  apply hex_digit_inj in Hlo; [|apply Z.mod_pos_bound; lia|apply Z.mod_pos_bound; lia].
  apply u8_inj.
  rewrite (Z.div_mod (u8 b) 16), (Z.div_mod (u8 b') 16) by lia. congruence.
Qed.

Lemma string_app_inv_head (p a b : string) :
  (p ++ a)%string = (p ++ b)%string -> a = b.
Proof.
  induction p as [|c p IH]; cbn [String.append]; [auto|].
  intros [= H]. apply IH, H.
Qed.

Lemma device_id_unfold mac :
  device_id_of mac
  = ("apc_ups_" ++ fmt_02x (mac0 mac) ++ fmt_02x (mac1 mac) ++ fmt_02x (mac2 mac) ++
     fmt_02x (mac3 mac) ++ fmt_02x (mac4 mac) ++ fmt_02x (mac5 mac))%string.
Proof. reflexivity. Qed.

(** X27. The device identifier derived from the MAC address is never cut
    off (20 characters in a 32-byte buffer), and neither is the base
    topic built on it (41 characters in 64 bytes); two bridges with
    different MAC addresses get different identifiers and different base
    topics. *)
Theorem device_id_unique mac mac' :
  strlen (device_id_of mac) = 20 /\
  mqtt_base_topic_of (device_id_of mac)
  = ("homeassistant/sensor/" ++ device_id_of mac)%string /\
  (device_id_of mac = device_id_of mac' -> mac = mac') /\
  (mqtt_base_topic_of (device_id_of mac) = mqtt_base_topic_of (device_id_of mac') ->
   mac = mac').
Proof.
  assert (Hinj : device_id_of mac = device_id_of mac' -> mac = mac').
  { rewrite !device_id_unfold. cbn [String.append fmt_02x].
    intros [= H0 L0 H1 L1 H2 L2 H3 L3 H4 L4 H5 L5].
    destruct mac as [a0 a1 a2 a3 a4 a5], mac' as [b0 b1 b2 b3 b4 b5].
    cbn [mac0 mac1 mac2 mac3 mac4 mac5] in *.
    f_equal; apply fmt_02x_inj; unfold fmt_02x; congruence. }
  assert (Htopic : forall m, mqtt_base_topic_of (device_id_of m)
                             = ("homeassistant/sensor/" ++ device_id_of m)%string).
  { intros m. reflexivity. }
  split; [reflexivity|]. split; [apply Htopic|]. split; [exact Hinj|].
  rewrite !Htopic. intros H. apply Hinj.
  exact (string_app_inv_head _ _ _ H).
Qed.

Lemma device_id_unique_witness :
  let a := {| mac0 := xd0; mac1 := xcf; mac2 := x13; mac3 := x2f; mac4 := xdf;
              mac5 := xdc |} in
  let b := {| mac0 := xd0; mac1 := xcf; mac2 := x13; mac3 := x2f; mac4 := xdf;
              mac5 := xdd |} in
  device_id_of a = "apc_ups_d0cf132fdfdc"%string /\ device_id_of a <> device_id_of b.
Proof.
  intros a b. split; [reflexivity|].
  intros H. apply (device_id_unique a b) in H. discriminate H.
Defined.

(** *** What a pass publishes *)









End MqttSpec.
